(** * FOSYS front end: identity resolution, task store client and realtime
      reconciliation of the intern views

    A shallow embedding of the logic of [pages/InternTasks.js] and
    [pages/intern/InternHome.js]: the JavaScript values the two views handle,
    the coercions they rely on ([Boolean], [String], [Number], [===]), the
    component state they keep (task list, loading flag, cached identifier) and
    the calls they make to the backend API, the hosted auth / query service,
    the cross-tab channel and the console.  External calls are answered by a
    [World] (one possible behaviour of the collaborators) and are recorded, in
    order, in a trace. *)

From Stdlib Require Import ZArith Ascii String.
From stdpp Require Import gmap strings list pretty.

Set Warnings "-register-all".
Local Open Scope string_scope.

(** ** JavaScript values and coercions *)

Module Js.

(** Numbers are kept abstract: the views never compute with them, they only
    coerce them.  The interface lists the coercions the code uses. *)
Class JsNumber (num : Type) : Type := {
  (** [NaN] *)
  num_nan : num;
  (** [Number(true)], [Number(false)]; [Number(null)] is [Number(false)] *)
  num_of_bool : bool -> num;
  (** [Number.isNaN] *)
  num_is_nan : num -> bool;
  (** [Boolean(n)]: false exactly on zero and [NaN] *)
  num_truthy : num -> bool;
  (** [===] on two numbers *)
  num_eqb : num -> num -> bool;
  (** [String(n)] *)
  num_to_string : num -> string;
  (** [Number(s)] on a string *)
  string_to_num : string -> num
}.

Section Values.
Context {num : Type}.

Inductive JsVal : Type :=
| JUndefined
| JNull
| JBool (b : bool)
| JNum (n : num)
| JStr (s : string)
| JArr (items : list JsVal)
| JObj (fields : gmap string JsVal).

(** What a [throw] or a rejected promise carries. *)
Inductive Exn : Type :=
| TypeError
| SyntaxError
| Rejected (reason : JsVal).

(** Outcome of code that may throw. *)
Inductive Res (A : Type) : Type :=
| Ok (a : A)
| Throw (e : Exn).
End Values.

Arguments JsVal : clear implicits.
Arguments Exn : clear implicits.
Arguments Res : clear implicits.
Arguments Ok {num A} a.
Arguments Throw {num A} e.

Section Coercions.
Context {num : Type} `{JsNumber num}.
#[local] Abbreviation JsVal := (JsVal num).

(** [Boolean(v)], the test of [if (v)], [!v], [a && b], [a || b] and
    [.filter(Boolean)]. *)
Definition truthy (v : JsVal) : bool :=
  match v with
  | JUndefined | JNull => false
  | JBool b => b
  | JNum n => num_truthy n
  | JStr s => negb (String.eqb s "")
  | JArr _ | JObj _ => true
  end.

(** [v === undefined || v === null] *)
Definition nullish (v : JsVal) : bool :=
  match v with
  | JUndefined | JNull => true
  | _ => false
  end.

(** [typeof v === "string"] *)
Definition is_string (v : JsVal) : bool :=
  match v with
  | JStr _ => true
  | _ => false
  end.

(** [Array.isArray(v)] *)
Definition is_array (v : JsVal) : bool :=
  match v with
  | JArr _ => true
  | _ => false
  end.

(** [s.includes(sub)] *)
Fixpoint includes (s sub : string) : bool :=
  if String.prefix sub s then true
  else match s with
       | EmptyString => false
       | String _ s' => includes s' sub
       end.

(** [String(v)], also what a template literal does to an interpolated value.
    Arrays are joined with commas, [null] and [undefined] elements giving the
    empty string; a plain object gives ["[object Object]"]. *)
Fixpoint to_string (v : JsVal) : string :=
  match v with
  | JUndefined => "undefined"
  | JNull => "null"
  | JBool true => "true"
  | JBool false => "false"
  | JNum n => num_to_string n
  | JStr s => s
  | JArr items =>
      String.concat ","
        (map (fun x => match x with
                       | JUndefined | JNull => ""
                       | _ => to_string x
                       end) items)
  | JObj _ => "[object Object]"
  end.

(** [Number(v)]: arrays and plain objects go through their string form. *)
Definition to_number (v : JsVal) : num :=
  match v with
  | JUndefined => num_nan
  | JNull => num_of_bool false
  | JBool b => num_of_bool b
  | JNum n => n
  | JStr s => string_to_num s
  | JArr _ | JObj _ => string_to_num (to_string v)
  end.

(** [a === b].  Arrays and objects compare by reference; every row, payload
    and response the views see is deserialised on its own, so two
    reference values met in a comparison are never the same object. *)
Definition strict_eq (a b : JsVal) : bool :=
  match a, b with
  | JUndefined, JUndefined => true
  | JNull, JNull => true
  | JBool x, JBool y => Bool.eqb x y
  | JNum x, JNum y => num_eqb x y
  | JStr x, JStr y => String.eqb x y
  | _, _ => false
  end.

(** [v?.k], and [v.k] once [v] is known not to be nullish.  The keys the views
    read ([id], [user_id], [data], [task], ...) are no built-in member of
    strings, numbers, booleans or arrays, so only objects answer. *)
Definition get (v : JsVal) (k : string) : JsVal :=
  match v with
  | JObj fields => default JUndefined (fields !! k)
  | _ => JUndefined
  end.

(** [v.k]: reading a property of [null] or [undefined] throws. *)
Definition prop (v : JsVal) (k : string) : Res num JsVal :=
  if nullish v then Throw TypeError else Ok (get v k).

(** [a || b] on values that are already evaluated. *)
Definition or_else (a b : JsVal) : JsVal :=
  if truthy a then a else b.

(** Sequencing of code that may throw, outside any component state. *)
Definition res_bind {A B} (x : Res num A) (k : A -> Res num B) : Res num B :=
  match x with
  | Ok a => k a
  | Throw e => Throw e
  end.

(** [l.filter(f)], [l.some(f)] and [l.map(f)] with a callback that may throw:
    elements are visited in order and the first exception aborts the scan;
    [some] stops at the first hit. *)
Fixpoint filter_res {A} (f : A -> Res num bool) (l : list A) : Res num (list A) :=
  match l with
  | [] => Ok []
  | x :: l' =>
      res_bind (f x) (fun keep =>
      res_bind (filter_res f l') (fun rest =>
      Ok (if keep then x :: rest else rest)))
  end.

Fixpoint some_res {A} (f : A -> Res num bool) (l : list A) : Res num bool :=
  match l with
  | [] => Ok false
  | x :: l' => res_bind (f x) (fun hit => if hit then Ok true else some_res f l')
  end.

Fixpoint map_res {A B} (f : A -> Res num B) (l : list A) : Res num (list B) :=
  match l with
  | [] => Ok []
  | x :: l' =>
      res_bind (f x) (fun y =>
      res_bind (map_res f l') (fun rest => Ok (y :: rest)))
  end.

(** The same methods called on an arbitrary value: anything but an array has
    no such method, and calling it throws. *)
Definition array_filter (f : JsVal -> Res num bool) (v : JsVal) : Res num JsVal :=
  match v with
  | JArr l => res_bind (filter_res f l) (fun l' => Ok (JArr l'))
  | _ => Throw TypeError
  end.

Definition array_some (f : JsVal -> Res num bool) (v : JsVal) : Res num bool :=
  match v with
  | JArr l => some_res f l
  | _ => Throw TypeError
  end.

Definition array_map (f : JsVal -> Res num JsVal) (v : JsVal) : Res num JsVal :=
  match v with
  | JArr l => res_bind (map_res f l) (fun l' => Ok (JArr l'))
  | _ => Throw TypeError
  end.

(** The line feed of ["\n"]. *)
Definition nl : string := String "010"%char EmptyString.
End Coercions.

End Js.

(** ** Effects: external calls, the trace and the state-and-exception monad *)

Module Eff.
Import Js.

Section Effects.
Context {num : Type}.
#[local] Abbreviation JsVal := (JsVal num).
#[local] Abbreviation Exn := (Exn num).
#[local] Abbreviation Res := (Res num).

(** One entry per call that leaves the component: backend API, hosted
    service, cross-tab channel, clipboard, console and toasts. *)
Inductive Effect : Type :=
| AuthGetUser
| EmployeeLookup (columns : string) (id : num)
| ApiGet (path : string)
| ApiPut (path : string) (body : JsVal)
| BroadcastPost (channel : string) (message : JsVal)
| StorageSet (key value : string)
| ClipboardWrite (text : string)
| ConsoleError (message : string) (err : Exn)
| ConsoleWarn (message : string) (err : Exn)
| ToastError (message : string)
| ToastSuccess (message : string).

(** One behaviour of the collaborators: what each external call answers. *)
Record World : Type := {
  (** [supabase.auth.getUser()] *)
  auth_getUser : Res JsVal;
  (** [supabase.from("employee").select(cols).eq("id", n).maybeSingle()] *)
  employee_lookup : num -> Res JsVal;
  (** [api.get(path)] *)
  api_get : string -> Res JsVal;
  (** [api.put(path, body)] *)
  api_put : string -> JsVal -> Res JsVal;
  (** ["BroadcastChannel" in window] *)
  has_BroadcastChannel : bool;
  (** creating the channel, posting and closing it *)
  broadcast_post : Res unit;
  (** [localStorage.setItem] *)
  storage_setItem : Res unit;
  (** [Date.now()] *)
  date_now : num;
  (** [navigator.clipboard.writeText(text)] *)
  clipboard_writeText : string -> Res unit
}.

(** A running view: its state cells and the calls made so far, oldest first. *)
Record Run (S : Type) : Type := {
  view : S;
  trace : list Effect
}.
Arguments view {S} r.
Arguments trace {S} r.

(** Computations over a view that may throw. *)
Definition M (S A : Type) : Type := Run S -> Res A * Run S.

Definition ret {S A} (a : A) : M S A := fun r => (Ok a, r).

Definition bind {S A B} (m : M S A) (k : A -> M S B) : M S B :=
  fun r => match m r with
           | (Ok a, r') => k a r'
           | (Throw e, r') => (Throw e, r')
           end.

(** [await p] / evaluating an expression whose outcome is known. *)
Definition lift {S A} (x : Res A) : M S A := fun r => (x, r).

Definition gets {S A} (f : S -> A) : M S A := fun r => (Ok (f (view r)), r).

Definition modify {S} (f : S -> S) : M S unit :=
  fun r => (Ok tt, {| view := f (view r); trace := trace r |}).

Definition emit {S} (e : Effect) : M S unit :=
  fun r => (Ok tt, {| view := view r; trace := trace r ++ [e] |}).

(** An external call: recorded, then answered by the world. *)
Definition call {S A} (e : Effect) (answer : Res A) : M S A :=
  bind (emit e) (fun _ => lift answer).

(** [try { body } catch (err) { handler }] *)
Definition try_catch {S A} (body : M S A) (handler : Exn -> M S A) : M S A :=
  fun r => match body r with
           | (Ok a, r') => (Ok a, r')
           | (Throw e, r') => handler e r'
           end.

(** [try { body } finally { fin }] *)
Definition try_finally {S A} (body : M S A) (fin : M S unit) : M S A :=
  fun r => match body r with
           | (x, r') => match fin r' with
                        | (Ok _, r'') => (x, r'')
                        | (Throw e, r'') => (Throw e, r'')
                        end
           end.

(** The run after further calls, the view untouched. *)
Definition with_trace {S} (extra : list Effect) (r : Run S) : Run S :=
  {| view := view r; trace := trace r ++ extra |}.

(** A property of the view's state that a computation never breaks, whatever
    it returns or throws. *)
Definition keeps {S A : Type} (P : S -> Prop) (m : M S A) : Prop :=
  forall r, P (view r) -> P (view (snd (m r))).

(** A computation that always ends normally. *)
Definition total {S A : Type} (m : M S A) : Prop :=
  forall r, exists a, fst (m r) = Ok a.

End Effects.

Arguments Effect : clear implicits.
Arguments World : clear implicits.
Arguments M : clear implicits.
Arguments Run : clear implicits.
Arguments view {num S} r.
Arguments trace {num S} r.

Declare Scope eff_scope.
Delimit Scope eff_scope with eff.
Notation "x <- m ;; k" := (bind m (fun x => k))
  (at level 100, m at next level, right associativity) : eff_scope.
Notation "m ;; k" := (bind m (fun _ => k))
  (at level 100, right associativity) : eff_scope.

End Eff.

(** ** [pages/InternTasks.js] *)

Module InternTasks.
Import Js Eff.
Local Open Scope eff_scope.

Section View.
Context {num : Type} `{JsNumber num}.
#[local] Abbreviation JsVal := (JsVal num).

(** [tasks] and [loading] are the [useState] cells, [userIdRef] is
    [userIdRef.current]. *)
Record View : Type := {
  tasks : JsVal;
  loading : bool;
  userIdRef : JsVal
}.

(** The state of a freshly mounted view. *)
Definition mounted : Run num View :=
  {| view := {| tasks := JArr []; loading := true; userIdRef := JNull |};
     trace := [] |}.

Definition setTasks (v : JsVal) : M num View unit :=
  modify (fun s => {| tasks := v; loading := loading s; userIdRef := userIdRef s |}).

Definition setLoading (b : bool) : M num View unit :=
  modify (fun s => {| tasks := tasks s; loading := b; userIdRef := userIdRef s |}).

Definition setUserIdRef (v : JsVal) : M num View unit :=
  modify (fun s => {| tasks := tasks s; loading := loading s; userIdRef := v |}).

(** [resolveUserId]: the cached identifier, else the identifier of the
    current auth session, else [null]. *)
Definition resolveUserId (w : World num) : M num View JsVal :=
  cached <- gets userIdRef ;;
  if truthy cached then ret cached
  else
    found <- try_catch
               (res <- call AuthGetUser (auth_getUser w) ;;
                authData <- lift (prop res "data") ;;
                let user := get authData "user" in
                if truthy (get user "id")
                then (setUserIdRef (get user "id") ;; ret (Some (get user "id")))
                else ret None)
               (fun err => emit (ConsoleWarn "resolveUserId error" err) ;; ret None) ;;
    match found with
    | Some id => ret id
    | None => ret JNull
    end.

(** The callback of [all.filter]: [String(t.user_id) === String(uuid)]. *)
Definition owned_by (uuid t : JsVal) : Res num bool :=
  res_bind (prop t "user_id") (fun owner =>
  Ok (String.eqb (to_string owner) (to_string uuid))).

(** [fetchTasks] *)
Definition fetchTasks (w : World num) : M num View unit :=
  setLoading true ;;
  try_finally
    (try_catch
       (uuid <- resolveUserId w ;;
        if negb (truthy uuid)
        then (setTasks (JArr []) ;; setLoading false)
        else
          resp <- call (ApiGet "/tasks") (api_get w "/tasks") ;;
          let all := or_else (or_else (get (get resp "data") "data") (get resp "data"))
                             (JArr []) in
          mine <- lift (array_filter (owned_by uuid) all) ;;
          setTasks mine)
       (fun err => emit (ConsoleError "Failed to fetch tasks:" err) ;;
                   setTasks (JArr [])))
    (setLoading false).

(** [broadcastTasksChanged] *)
Definition broadcastTasksChanged (w : World num) : M num View unit :=
  try_catch
    (if has_BroadcastChannel w
     then call (BroadcastPost "tasks_channel"
                  (JObj {[ "type" := JStr "tasks_changed"; "ts" := JNum (date_now w) ]}))
               (broadcast_post w)
     else call (StorageSet "tasks_channel_ping" (num_to_string (date_now w)))
               (storage_setItem w))
    (fun e => emit (ConsoleWarn "broadcast error" e)).

(** [updateStatus] *)
Definition updateStatus (w : World num) (taskId newStatus : JsVal) : M num View unit :=
  try_catch
    (let path := "/tasks/" ++ to_string taskId in
     let body := JObj {[ "status" := newStatus ]} in
     call (ApiPut path body) (api_put w path body) ;;
     broadcastTasksChanged w ;;
     fetchTasks w)
    (fun err => emit (ConsoleError "Failed to update task status:" err)).

(** The [postgres_changes] callback, [uuid] being the identifier resolved when
    the subscription was made: a change that touches the user's rows
    re-fetches the list. *)
Definition onTasksChange (w : World num) (uuid payload : JsVal) : M num View unit :=
  try_catch
    (let newRow := get payload "new" in
     let oldRow := get payload "old" in
     mine_new <- (if truthy newRow then lift (owned_by uuid newRow) else ret false) ;;
     mine_old <- (if mine_new then ret true
                  else if truthy oldRow then lift (owned_by uuid oldRow) else ret false) ;;
     if mine_old then fetchTasks w else ret tt)
    (fun e => emit (ConsoleWarn "realtime handling error" e) ;; fetchTasks w).
End View.

Arguments View : clear implicits.
Arguments tasks {num} v.
Arguments loading {num} v.
Arguments userIdRef {num} v.

End InternTasks.

(** ** [pages/intern/InternHome.js] *)

Module InternHome.
Import Js Eff.
Local Open Scope eff_scope.

Section View.
Context {num : Type} `{JsNumber num}.
#[local] Abbreviation JsVal := (JsVal num).

(** [JSON.parse], [None] standing for the [SyntaxError] it throws. *)
Variable JSON_parse : string -> option JsVal.

(** The [useState] cells [tasks], [loadingTasks] and [copying], and
    [resolvedSupabaseUserIdRef.current]. *)
Record View : Type := {
  tasks : JsVal;
  loadingTasks : bool;
  copying : bool;
  resolvedSupabaseUserIdRef : JsVal
}.

(** The state of a freshly mounted view. *)
Definition mounted : Run num View :=
  {| view := {| tasks := JArr []; loadingTasks := true; copying := false;
                resolvedSupabaseUserIdRef := JNull |};
     trace := [] |}.

Definition setTasks (v : JsVal) : M num View unit :=
  modify (fun s => {| tasks := v; loadingTasks := loadingTasks s; copying := copying s;
                      resolvedSupabaseUserIdRef := resolvedSupabaseUserIdRef s |}).

Definition setLoadingTasks (b : bool) : M num View unit :=
  modify (fun s => {| tasks := tasks s; loadingTasks := b; copying := copying s;
                      resolvedSupabaseUserIdRef := resolvedSupabaseUserIdRef s |}).

Definition setCopying (b : bool) : M num View unit :=
  modify (fun s => {| tasks := tasks s; loadingTasks := loadingTasks s; copying := b;
                      resolvedSupabaseUserIdRef := resolvedSupabaseUserIdRef s |}).

Definition setResolvedRef (v : JsVal) : M num View unit :=
  modify (fun s => {| tasks := tasks s; loadingTasks := loadingTasks s;
                      copying := copying s; resolvedSupabaseUserIdRef := v |}).

(** [setTasks(updater)]: React applies the queued updater to the current list
    when it next renders. *)
Definition setTasksWith (updater : JsVal -> Res num JsVal) : M num View unit :=
  prev <- gets tasks ;;
  next <- lift (updater prev) ;;
  setTasks next.

Definition lookupEmployeeAuthColumns : list string :=
  [ "supabase_user_id"; "auth_user_id"; "auth_id"; "user_uuid"; "supabase_id";
    "auth_uuid" ].

(** The fields behind [directCandidates], in the order of the array literal. *)
Definition directCandidateFields : list string :=
  [ "supabase_user_id"; "auth_user_id"; "auth_id"; "auth_uuid"; "uuid";
    "user_uuid"; "user_id"; "id" ].

(** [[user.supabase_user_id, ..., user.id].filter(Boolean)] *)
Definition directCandidates (user : JsVal) : list JsVal :=
  List.filter truthy (map (get user) directCandidateFields).

(** [typeof c === "string" && c.includes("-")] *)
Definition hyphenated (c : JsVal) : bool :=
  match c with
  | JStr s => includes s "-"
  | _ => false
  end.

(** The test of the column scan:
    [data[col] && typeof data[col] === "string" && data[col].includes("-")] *)
Definition column_qualifies (data : JsVal) (col : string) : bool :=
  truthy (get data col) && hyphenated (get data col).

(** The [try] block around [supabase.auth.getUser?.()]: [Some id] when it
    returns [authUser.id]. *)
Definition sessionUserId (w : World num) : M num View (option JsVal) :=
  try_catch
    (res <- call AuthGetUser (auth_getUser w) ;;
     authData <- lift (prop res "data") ;;
     let authUser := get authData "user" in
     if truthy (get authUser "id")
     then (setResolvedRef (get authUser "id") ;; ret (Some (get authUser "id")))
     else ret None)
    (fun _ => ret None).

(** The numeric-id fallback: the [employee] row with that id, scanned in the
    order of [lookupEmployeeAuthColumns]. *)
Definition employeeUserId (w : World num) (user : JsVal) : M num View (option JsVal) :=
  let numericId := to_number (get user "id") in
  if negb (num_is_nan numericId)
  then
    try_catch
      (res <- call (EmployeeLookup (String.concat "," lookupEmployeeAuthColumns) numericId)
                   (employee_lookup w numericId) ;;
       data <- lift (prop res "data") ;;
       error <- lift (prop res "error") ;;
       if negb (truthy error) && truthy data
       then match List.find (column_qualifies data) lookupEmployeeAuthColumns with
            | Some col => setResolvedRef (get data col) ;; ret (Some (get data col))
            | None => ret None
            end
       else ret None)
      (fun _ => ret None)
  else ret None.

(** [resolveSupabaseUserId], [user] being the component's prop. *)
Definition resolveSupabaseUserId (w : World num) (user : JsVal) : M num View JsVal :=
  cached <- gets resolvedSupabaseUserIdRef ;;
  if truthy cached then ret cached
  else if negb (truthy user) then ret JNull
  else
    match List.find hyphenated (directCandidates user) with
    | Some c => setResolvedRef c ;; ret c
    | None =>
        fromSession <- sessionUserId w ;;
        match fromSession with
        | Some id => ret id
        | None =>
            fromEmployee <- employeeUserId w user ;;
            match fromEmployee with
            | Some id => ret id
            | None => ret JNull
            end
        end
    end.

(** [fetchTasks] *)
Definition fetchTasks (w : World num) (user : JsVal) : M num View unit :=
  setLoadingTasks true ;;
  try_finally
    (try_catch
       (supaUserId <- resolveSupabaseUserId w user ;;
        if negb (truthy supaUserId)
        then (setTasks (JArr []) ;; setLoadingTasks false)
        else
          res <- call (ApiGet "/tasks") (api_get w "/tasks") ;;
          let list :=
            or_else (if truthy res
                     then or_else (get (get res "data") "data") (get res "data")
                     else res)
                    (JArr []) in
          setTasks list)
       (fun err => emit (ConsoleError "Unexpected error fetching tasks:" err) ;;
                   emit (ToastError "Unexpected error fetching tasks") ;;
                   setTasks (JArr [])))
    (setLoadingTasks false).

(** The three updaters the realtime callback queues. *)
Definition same_id (row t : JsVal) : Res num bool :=
  res_bind (prop t "id") (fun id => Ok (strict_eq id (get row "id"))).

Definition insertRow (newRow prev : JsVal) : Res num JsVal :=
  res_bind (array_some (same_id newRow) prev) (fun present =>
  if present then Ok prev
  else match prev with
       | JArr l => Ok (JArr (newRow :: l))
       | _ => Throw TypeError
       end).

Definition updateRow (newRow prev : JsVal) : Res num JsVal :=
  array_map (fun t => res_bind (same_id newRow t) (fun hit =>
                      Ok (if hit then newRow else t))) prev.

Definition deleteRow (oldRow prev : JsVal) : Res num JsVal :=
  array_filter (fun t => res_bind (same_id oldRow t) (fun hit => Ok (negb hit))) prev.

(** [String(row.user_id) === String(supaUserId)] for a truthy [row]. *)
Definition owned_by (supaUserId row : JsVal) : bool :=
  String.eqb (to_string (get row "user_id")) (to_string supaUserId).

(** The three constants the realtime callback reads off the payload:
    [payload?.eventType || payload.event], [payload?.new || payload?.record]
    and [payload?.old]. *)
Definition evt (payload : JsVal) : Res num JsVal :=
  if truthy (get payload "eventType") then Ok (get payload "eventType")
  else prop payload "event".

Definition newRow (payload : JsVal) : JsVal :=
  or_else (get payload "new") (get payload "record").

Definition oldRow (payload : JsVal) : JsVal := get payload "old".

(** The [postgres_changes] callback, [supaUserId] being the identifier resolved
    when the subscription was made.  The [try] block either queues an updater
    or falls back to [fetchTasks]; the updater runs after the callback, so
    what it throws is not caught here.  The fallback [fetchTasks()] is started
    without [await]; it is run to its end here, the view being single-threaded
    and nothing else happening to it within one step. *)
Definition onTasksChange (w : World num) (user supaUserId payload : JsVal)
  : M num View unit :=
  queued <- try_catch
              (e <- lift (evt payload) ;;
               if strict_eq e (JStr "INSERT") && truthy (newRow payload)
                  && owned_by supaUserId (newRow payload)
               then ret (Some (insertRow (newRow payload)))
               else if strict_eq e (JStr "UPDATE") && truthy (newRow payload)
                       && owned_by supaUserId (newRow payload)
               then ret (Some (updateRow (newRow payload)))
               else if strict_eq e (JStr "DELETE") && truthy (oldRow payload)
                       && owned_by supaUserId (oldRow payload)
               then ret (Some (deleteRow (oldRow payload)))
               else (fetchTasks w user ;; ret None))
              (fun err => emit (ConsoleWarn "Realtime payload handling error:" err) ;;
                          fetchTasks w user ;; ret None) ;;
  match queued with
  | Some updater => setTasksWith updater
  | None => ret tt
  end.

(** [parseItems] of [copyTranscript] and [downloadTranscript] *)
Definition parseItems (arr : JsVal) : JsVal :=
  if negb (truthy arr) then JArr []
  else match arr with
       | JStr s => match JSON_parse s with
                   | Some v => v
                   | None => JArr [arr]
                   end
       | JArr _ => arr
       | _ => JArr [arr]
       end.

(** One line of a block: [` - ${t.task || t}`] *)
Definition itemLine (t : JsVal) : Res num string :=
  res_bind (prop t "task") (fun task => Ok (" - " ++ to_string (or_else task t))).

(** [arr.map(itemLine).join("\n")] *)
Definition itemLines (arr : JsVal) : Res num string :=
  match arr with
  | JArr l => res_bind (map_res itemLine l) (fun ls => Ok (String.concat nl ls))
  | _ => Throw TypeError
  end.

(** The text [copyTranscript] and [downloadTranscript] build. *)
Definition transcriptContent (meeting : JsVal) : Res num string :=
  let tasksArr := parseItems (get meeting "tasks") in
  let pendingArr := parseItems (get meeting "pending_tasks") in
  res_bind (itemLines tasksArr) (fun tasksBlock =>
  res_bind (itemLines pendingArr) (fun pendingBlock =>
  Ok (String.concat nl
        [ "Meeting: " ++ to_string (get meeting "meeting_name");
          "";
          "Summary:" ++ nl ++ to_string (or_else (get meeting "summary") (JStr ""));
          "";
          "Tasks:" ++ nl ++ tasksBlock;
          "";
          "Pending:" ++ nl ++ pendingBlock;
          "";
          "Created: " ++ to_string (or_else (get meeting "created_at") (JStr "")) ]))).

(** [copyTranscript] *)
Definition copyTranscript (w : World num) (meeting : JsVal) : M num View unit :=
  if negb (truthy meeting) then ret tt
  else
    content <- lift (transcriptContent meeting) ;;
    try_finally
      (try_catch
         (setCopying true ;;
          call (ClipboardWrite content) (clipboard_writeText w content) ;;
          emit (ToastSuccess "Copied transcript to clipboard"))
         (fun err => emit (ConsoleError "Copy failed:" err) ;;
                     emit (ToastError "Failed to copy transcript")))
      (setCopying false).

(** What can happen to a mounted view, and its effect on the view. *)
Inductive Op : Type :=
| OpResolve (user : JsVal)
| OpFetchTasks (user : JsVal)
| OpTasksChange (user supaUserId payload : JsVal)
| OpCopyTranscript (meeting : JsVal).

Definition run_op (w : World num) (op : Op) (r : Run num View) : Run num View :=
  match op with
  | OpResolve user => snd (resolveSupabaseUserId w user r)
  | OpFetchTasks user => snd (fetchTasks w user r)
  | OpTasksChange user supaUserId payload => snd (onTasksChange w user supaUserId payload r)
  | OpCopyTranscript meeting => snd (copyTranscript w meeting r)
  end.

(** A history: each step with the behaviour of the collaborators during it. *)
Fixpoint run_ops (steps : list (World num * Op)) (r : Run num View) : Run num View :=
  match steps with
  | [] => r
  | (w, op) :: steps' => run_ops steps' (run_op w op r)
  end.
End View.

Arguments View : clear implicits.
Arguments Op : clear implicits.
Arguments tasks {num} v.
Arguments loadingTasks {num} v.
Arguments copying {num} v.
Arguments resolvedSupabaseUserIdRef {num} v.

End InternHome.

(** ** Vocabulary of the properties *)

Module Spec.
Import Js Eff.

Section Vocabulary.
Context {num : Type} `{JsNumber num}.
#[local] Abbreviation JsVal := (JsVal num).

(** The identifier the auth session call yields, if any: the truthy
    [data.user.id] of a fulfilled call. *)
Definition session_id (answer : Res num JsVal) : option JsVal :=
  match answer with
  | Ok res =>
      if nullish res then None
      else let id := get (get (get res "data") "user") "id" in
           if truthy id then Some id else None
  | Throw _ => None
  end.

(** The row the employee query yields, if any: the truthy [data] of a
    fulfilled query that reports no [error]. *)
Definition employee_row (answer : Res num JsVal) : option JsVal :=
  match answer with
  | Ok res =>
      if nullish res then None
      else if negb (truthy (get res "error")) && truthy (get res "data")
           then Some (get res "data")
           else None
  | Throw _ => None
  end.

(** What a resolution may do outside the view: the two identity queries, and
    the warning [InternTasks] logs when the session query fails. *)
Definition is_identity_query (e : Effect num) : bool :=
  match e with
  | AuthGetUser | EmployeeLookup _ _ => true
  | ConsoleWarn msg _ => String.eqb msg "resolveUserId error"
  | _ => false
  end.

(** A row of the list carries the identifier of [row]. *)
Definition has_id_of (row t : JsVal) : Prop :=
  strict_eq (get t "id") (get row "id") = true.

(** The rows of a task list: anything but [null] and [undefined]. *)
Definition rows (l : list JsVal) : Prop := Forall (fun t => nullish t = false) l.

(** A cross-tab signal: a post on the channel or the storage ping. *)
Definition is_broadcast (e : Effect num) : bool :=
  match e with
  | BroadcastPost channel _ => String.eqb channel "tasks_channel"
  | StorageSet key _ => String.eqb key "tasks_channel_ping"
  | _ => false
  end.

(** A call to the backend task endpoint. *)
Definition is_task_fetch (e : Effect num) : bool :=
  match e with
  | ApiGet path => String.eqb path "/tasks"
  | _ => false
  end.

(** An error shown to the user or logged as one. *)
Definition is_error_report (e : Effect num) : bool :=
  match e with
  | ConsoleError _ _ | ToastError _ => true
  | _ => false
  end.

(** The task text an entry of a meeting's item list encodes: the entry itself
    when it is a string, its [task] field when it is an object carrying one
    as a string. *)
Definition encoded_text (item : JsVal) : option string :=
  match item with
  | JStr s => Some s
  | JObj fields =>
      match fields !! "task" with
      | Some (JStr s) => Some s
      | _ => None
      end
  | _ => None
  end.

(** An object entry whose task text is the empty string. *)
Definition has_empty_task (item : JsVal) : bool :=
  match item with
  | JObj fields =>
      match fields !! "task" with
      | Some (JStr s) => String.eqb s ""
      | _ => false
      end
  | _ => false
  end.

(** A block of the transcript that lists exactly the given texts. *)
Definition exported_block (texts : list string) : string :=
  String.concat nl (map (fun t => " - " ++ t) texts).

End Vocabulary.

Section InternHomeSpec.
Import InternHome.
Context {num : Type} `{JsNumber num}.
#[local] Abbreviation JsVal := (JsVal num).

(** The run with another cached identifier, or another loading flag. *)
Definition with_ref (v : JsVal) (r : Run num (View num)) : Run num (View num) :=
  {| view := {| tasks := tasks (view r); loadingTasks := loadingTasks (view r);
                copying := copying (view r); resolvedSupabaseUserIdRef := v |};
     trace := trace r |}.

Definition with_loading (b : bool) (r : Run num (View num)) : Run num (View num) :=
  snd (setLoadingTasks b r).


(** The transcript of a meeting, given its two blocks. *)
Definition transcript_of (meeting : JsVal) (tasksBlock pendingBlock : string) : string :=
  String.concat nl
    [ "Meeting: " ++ to_string (get meeting "meeting_name");
      "";
      "Summary:" ++ nl ++ to_string (or_else (get meeting "summary") (JStr ""));
      "";
      "Tasks:" ++ nl ++ tasksBlock;
      "";
      "Pending:" ++ nl ++ pendingBlock;
      "";
      "Created: " ++ to_string (or_else (get meeting "created_at") (JStr "")) ].

(** The cache is empty, or holds [v]. *)
Definition caches_at_most (v : JsVal) (s : View num) : Prop :=
  truthy (resolvedSupabaseUserIdRef s) = false \/ resolvedSupabaseUserIdRef s = v.

(** The user record an operation runs with, when it has one, passes [ok]. *)
Definition op_user (ok : JsVal -> Prop) (op : Op num) : Prop :=
  match op with
  | OpResolve user | OpFetchTasks user | OpTasksChange user _ _ => ok user
  | OpCopyTranscript _ => True
  end.

End InternHomeSpec.

End Spec.

(** ** Integer numbers

    The instance of [JsNumber] used to run the views on concrete inputs:
    [NaN] and the integers, which is what identifiers and timestamps are.
    [Number(s)] is given on optionally signed decimal digit strings and on the
    empty string; every other string is mapped to [NaN]. *)

Module IntNum.
Import Js.

Inductive t : Type :=
| NaN
| Int (z : Z).

Definition digit (c : ascii) : option Z :=
  let n := Z.of_nat (nat_of_ascii c) in
  if ((48 <=? n) && (n <=? 57))%Z then Some (n - 48)%Z else None.

Fixpoint digits (s : string) (acc : Z) : option Z :=
  match s with
  | EmptyString => Some acc
  | String c s' =>
      match digit c with
      | Some d => digits s' (10 * acc + d)%Z
      | None => None
      end
  end.

Definition of_string (s : string) : t :=
  match s with
  | EmptyString => Int 0
  | String "-"%char (String _ _ as s') =>
      match digits s' 0 with
      | Some z => Int (- z)
      | None => NaN
      end
  | _ => match digits s 0 with
         | Some z => Int z
         | None => NaN
         end
  end.

#[global] Instance number : JsNumber t := {|
  num_nan := NaN;
  num_of_bool := fun b => Int (if b then 1 else 0);
  num_is_nan := fun n => match n with NaN => true | Int _ => false end;
  num_truthy := fun n => match n with NaN => false | Int z => negb (z =? 0)%Z end;
  num_eqb := fun a b => match a, b with
                        | Int x, Int y => (x =? y)%Z
                        | _, _ => false
                        end;
  num_to_string := fun n => match n with NaN => "NaN" | Int z => pretty z end;
  string_to_num := of_string
|}.

End IntNum.


(** ** Concrete inputs *)

Module Sample.
Import Js Eff.

#[local] Abbreviation JsVal := (JsVal IntNum.t).

Definition int (z : Z) : JsVal := JNum (IntNum.Int z).

(** The two rows of the scenario: [{id: 1, user_id: "abc-123"}] and
    [{id: 2, user_id: 99}]. *)
Definition row1 : JsVal := JObj {[ "id" := int 1; "user_id" := JStr "abc-123" ]}.
Definition row2 : JsVal := JObj {[ "id" := int 2; "user_id" := int 99 ]}.

(** [{id: 42}] and [{id: 42, supabase_user_id: "abc-123"}] *)
Definition user42 : JsVal := JObj {[ "id" := int 42 ]}.

(** Collaborators that all answer: the auth session belongs to user ["99"],
    the employee table has no row, the backend lists [row1] and [row2] and
    accepts every update. *)
Definition world : World IntNum.t := {|
  auth_getUser := Ok (JObj {[ "data" := JObj {[ "user" := JObj {[ "id" := JStr "99" ]} ]} ]});
  employee_lookup := fun _ => Ok (JObj {[ "data" := JNull; "error" := JNull ]});
  api_get := fun _ => Ok (JObj {[ "data" := JArr [row1; row2] ]});
  api_put := fun _ _ => Ok (JObj {[ "data" := JNull ]});
  has_BroadcastChannel := true;
  broadcast_post := Ok tt;
  storage_setItem := Ok tt;
  date_now := IntNum.Int 1700000000000;
  clipboard_writeText := fun _ => Ok tt
|}.

(** The same, with a backend whose update call fails with a network error. *)
Definition world_put_fails : World IntNum.t := {|
  auth_getUser := auth_getUser world;
  employee_lookup := employee_lookup world;
  api_get := api_get world;
  api_put := fun _ _ => Throw (Rejected (JStr "Network Error"));
  has_BroadcastChannel := true;
  broadcast_post := Ok tt;
  storage_setItem := Ok tt;
  date_now := date_now world;
  clipboard_writeText := clipboard_writeText world
|}.

(** Nobody is signed in and the employee table has no row for the user. *)
Definition world_signed_out : World IntNum.t := {|
  auth_getUser := Ok (JObj {[ "data" := JObj {[ "user" := JNull ]} ]});
  employee_lookup := employee_lookup world;
  api_get := api_get world;
  api_put := api_put world;
  has_BroadcastChannel := false;
  broadcast_post := Ok tt;
  storage_setItem := Ok tt;
  date_now := date_now world;
  clipboard_writeText := clipboard_writeText world
|}.


(** [{id: 42, supabase_user_id: "nohyphen", auth_user_id: 7, uuid: "a-1",
      user_uuid: "b-2"}]: the first two fields hold something, but no string
    with a hyphen; [uuid] and [user_uuid] both do. *)
Definition user_mixed : JsVal :=
  JObj {[ "id" := int 42; "supabase_user_id" := JStr "nohyphen"; "auth_user_id" := int 7;
          "uuid" := JStr "a-1"; "user_uuid" := JStr "b-2" ]}.

(** [{id: 42, uuid: "nohyphen"}]: a numeric id and no string with a hyphen. *)
Definition user42_plain : JsVal :=
  JObj {[ "id" := int 42; "uuid" := JStr "nohyphen" ]}.

(** Nobody is signed in and the employee row of the user is
    [{supabase_user_id: "nohyphen", auth_user_id: null, user_uuid: "b-2",
      auth_uuid: "c-3"}]. *)
Definition world_employee_mixed : World IntNum.t := {|
  auth_getUser := auth_getUser world_signed_out;
  employee_lookup := fun _ =>
    Ok (JObj {[ "data" := JObj {[ "supabase_user_id" := JStr "nohyphen";
                                  "auth_user_id" := JNull;
                                  "user_uuid" := JStr "b-2";
                                  "auth_uuid" := JStr "c-3" ]};
                "error" := JNull ]});
  api_get := api_get world;
  api_put := api_put world;
  has_BroadcastChannel := true;
  broadcast_post := Ok tt;
  storage_setItem := Ok tt;
  date_now := date_now world;
  clipboard_writeText := clipboard_writeText world
|}.

(** Nobody is signed in and the employee row of the user is
    [{supabase_user_id: "nohyphen", auth_id: 12}]. *)
Definition world_employee_plain : World IntNum.t := {|
  auth_getUser := auth_getUser world_signed_out;
  employee_lookup := fun _ =>
    Ok (JObj {[ "data" := JObj {[ "supabase_user_id" := JStr "nohyphen";
                                  "auth_id" := int 12 ]};
                "error" := JNull ]});
  api_get := api_get world;
  api_put := api_put world;
  has_BroadcastChannel := true;
  broadcast_post := Ok tt;
  storage_setItem := Ok tt;
  date_now := date_now world;
  clipboard_writeText := clipboard_writeText world
|}.

(** An [InternHome] view showing the given rows. *)
Definition showing (l : list JsVal) : Run IntNum.t (InternHome.View IntNum.t) :=
  {| view := {| InternHome.tasks := JArr l; InternHome.loadingTasks := false;
                InternHome.copying := false;
                InternHome.resolvedSupabaseUserIdRef := JStr "99" |};
     trace := [AuthGetUser; ApiGet "/tasks"] |}.

(** A realtime event of the given kind about [row2]. *)
Definition event (kind : string) : JsVal :=
  JObj {[ "eventType" := JStr kind; "new" := row2; "old" := row2 ]}.

(** The JSON texts [[{"task":""}]] and [["Send report",{"task":"Book room"}]],
    and [JSON.parse] on these two texts (every other text is refused). *)
Definition dq : string := String "034"%char EmptyString.

Definition json_empty_task : string :=
  "[{" ++ dq ++ "task" ++ dq ++ ":" ++ dq ++ dq ++ "}]".

Definition json_two_items : string :=
  "[" ++ dq ++ "Send report" ++ dq ++ ",{" ++ dq ++ "task" ++ dq ++ ":"
      ++ dq ++ "Book room" ++ dq ++ "}]".

Definition parse (s : string) : option JsVal :=
  if String.eqb s json_empty_task then Some (JArr [JObj {[ "task" := JStr "" ]}])
  else if String.eqb s json_two_items
  then Some (JArr [JStr "Send report"; JObj {[ "task" := JStr "Book room" ]}])
  else None.

(** Two meetings that differ in their pending items only. *)
Definition meeting (pending : string) : JsVal :=
  JObj {[ "id" := int 5; "meeting_name" := JStr "Standup"; "summary" := JStr "Weekly sync";
          "tasks" := JArr [JStr "Deploy"]; "pending_tasks" := JStr pending;
          "created_at" := JStr "2025-01-01" ]}.

End Sample.

(** ** [pages/InternTasks.js]: the cross-tab listeners and the view as a whole *)

Module InternTasksView.
Import Js Eff InternTasks.
Local Open Scope eff_scope.

Section Listeners.
Context {num : Type} `{JsNumber num}.
#[local] Abbreviation JsVal := (JsVal num).

(** [bc.onmessage]: [ev?.data?.type === "tasks_changed"] starts [fetchTasks]. *)
Definition onMessage (w : World num) (ev : JsVal) : M num (View num) unit :=
  if strict_eq (get (get ev "data") "type") (JStr "tasks_changed")
  then fetchTasks w
  else ret tt.

(** [onStorage]: [ev.key === "tasks_channel_ping"] starts [fetchTasks]. *)
Definition onStorage (w : World num) (ev : JsVal) : M num (View num) unit :=
  key <- lift (prop ev "key") ;;
  if strict_eq key (JStr "tasks_channel_ping") then fetchTasks w else ret tt.

(** The event a tab receives for a message posted on the channel, and the
    one it receives when another tab sets a storage key. *)
Definition messageEvent (message : JsVal) : JsVal := JObj {[ "data" := message ]}.

Definition storageEvent (key value : string) : JsVal :=
  JObj {[ "key" := JStr key; "newValue" := JStr value ]}.

(** What can happen to a mounted view, and its effect on the view. *)
Inductive Op : Type :=
| OpResolve
| OpFetchTasks
| OpUpdateStatus (taskId newStatus : JsVal)
| OpTasksChange (uuid payload : JsVal)
| OpMessage (ev : JsVal)
| OpStorage (ev : JsVal).

Definition run_op (w : World num) (op : Op) (r : Run num (View num)) : Run num (View num) :=
  match op with
  | OpResolve => snd (resolveUserId w r)
  | OpFetchTasks => snd (fetchTasks w r)
  | OpUpdateStatus taskId newStatus => snd (updateStatus w taskId newStatus r)
  | OpTasksChange uuid payload => snd (onTasksChange w uuid payload r)
  | OpMessage ev => snd (onMessage w ev r)
  | OpStorage ev => snd (onStorage w ev r)
  end.

(** A history: each step with the behaviour of the collaborators during it. *)
Fixpoint run_ops (steps : list (World num * Op)) (r : Run num (View num))
  : Run num (View num) :=
  match steps with
  | [] => r
  | (w, op) :: steps' => run_ops steps' (run_op w op r)
  end.

End Listeners.

Arguments Op : clear implicits.

End InternTasksView.

(** ** [pages/intern/InternHome.js]: meetings, search and the page as a whole *)

Module HomePage.
Import Js Eff.

Section Page.
Context {num : Type} `{JsNumber num}.
#[local] Abbreviation JsVal := (JsVal num).

(** Built-ins of the platform: [JSON.parse] ([None] for the [SyntaxError] it
    throws), [JSON.stringify] on a value of type ["object"], [s.trim()] and
    [s.toLowerCase()]. *)
Variable JSON_parse : string -> option JsVal.
Variable JSON_stringify : JsVal -> string.
Variable trim : string -> string.
Variable toLowerCase : string -> string.

(** What leaves the page: the calls of the task view, and [api.post]. *)
Inductive Event : Type :=
| Core (e : Effect num)
| ApiPost (path : string) (body : JsVal).

(** The collaborators of the page: those of the task view, and the answer of
    [api.post(path, body)]. *)
Record Services : Type := {
  world : World num;
  api_post : string -> JsVal -> Res num JsVal
}.

(** The state of the page: the cells of the task view ([home]), the
    [useState] cells [meetingSummaries], [loadingMeetings],
    [expandedMeetingId], [reviewedMeetings], [pendingProcessingMap] and
    [creatingTaskId], and everything that left the page so far, oldest
    first. *)
Record Page : Type := {
  home : InternHome.View num;
  meetingSummaries : JsVal;
  loadingMeetings : bool;
  expandedMeetingId : JsVal;
  reviewedMeetings : gmap string JsVal;
  pendingProcessingMap : gmap string JsVal;
  creatingTaskId : JsVal;
  journal : list Event
}.

(** The state of a freshly mounted page. *)
Definition mounted : Page :=
  {| home := view InternHome.mounted;
     meetingSummaries := JArr [];
     loadingMeetings := true;
     expandedMeetingId := JNull;
     reviewedMeetings := ∅;
     pendingProcessingMap := ∅;
     creatingTaskId := JNull;
     journal := [] |}.

(** Computations over the page that may throw. *)
Definition P (A : Type) : Type := Page -> Res num A * Page.

Definition pret {A} (a : A) : P A := fun p => (Ok a, p).

Definition pbind {A B} (m : P A) (k : A -> P B) : P B :=
  fun p => match m p with
           | (Ok a, p') => k a p'
           | (Throw e, p') => (Throw e, p')
           end.

Definition plift {A} (x : Res num A) : P A := fun p => (x, p).

Definition pmodify (f : Page -> Page) : P unit := fun p => (Ok tt, f p).

Definition record (events : list Event) (p : Page) : Page :=
  {| home := home p; meetingSummaries := meetingSummaries p;
     loadingMeetings := loadingMeetings p; expandedMeetingId := expandedMeetingId p;
     reviewedMeetings := reviewedMeetings p;
     pendingProcessingMap := pendingProcessingMap p;
     creatingTaskId := creatingTaskId p; journal := journal p ++ events |}.

Definition pemit (e : Event) : P unit := pmodify (record [e]).

(** An external call of the page: recorded, then answered. *)
Definition pcall {A} (e : Event) (answer : Res num A) : P A :=
  pbind (pemit e) (fun _ => plift answer).

(** [try { body } catch (err) { handler }] and [try { body } finally { fin }] *)
Definition ptry_catch {A} (body : P A) (handler : Exn num -> P A) : P A :=
  fun p => match body p with
           | (Ok a, p') => (Ok a, p')
           | (Throw e, p') => handler e p'
           end.

Definition ptry_finally {A} (body : P A) (fin : P unit) : P A :=
  fun p => match body p with
           | (x, p') => match fin p' with
                        | (Ok _, p'') => (x, p'')
                        | (Throw e, p'') => (Throw e, p'')
                        end
           end.

Definition set_home (v : InternHome.View num) (p : Page) : Page :=
  {| home := v; meetingSummaries := meetingSummaries p;
     loadingMeetings := loadingMeetings p; expandedMeetingId := expandedMeetingId p;
     reviewedMeetings := reviewedMeetings p;
     pendingProcessingMap := pendingProcessingMap p;
     creatingTaskId := creatingTaskId p; journal := journal p |}.

(** An operation of the task view, run inside the page: it works on the
    cells of the task view, and what it calls is recorded in the journal. *)
Definition core {A} (m : M num (InternHome.View num) A) : P A :=
  fun p => match m {| view := home p; trace := [] |} with
           | (x, r) => (x, record (map Core (trace r)) (set_home (view r) p))
           end.

Definition setMeetingSummaries (v : JsVal) : P unit :=
  pmodify (fun p =>
    {| home := home p; meetingSummaries := v;
       loadingMeetings := loadingMeetings p; expandedMeetingId := expandedMeetingId p;
       reviewedMeetings := reviewedMeetings p;
       pendingProcessingMap := pendingProcessingMap p;
       creatingTaskId := creatingTaskId p; journal := journal p |}).

Definition setLoadingMeetings (b : bool) : P unit :=
  pmodify (fun p =>
    {| home := home p; meetingSummaries := meetingSummaries p;
       loadingMeetings := b; expandedMeetingId := expandedMeetingId p;
       reviewedMeetings := reviewedMeetings p;
       pendingProcessingMap := pendingProcessingMap p;
       creatingTaskId := creatingTaskId p; journal := journal p |}).

Definition setExpandedMeetingId (f : JsVal -> JsVal) : P unit :=
  pmodify (fun p =>
    {| home := home p; meetingSummaries := meetingSummaries p;
       loadingMeetings := loadingMeetings p;
       expandedMeetingId := f (expandedMeetingId p);
       reviewedMeetings := reviewedMeetings p;
       pendingProcessingMap := pendingProcessingMap p;
       creatingTaskId := creatingTaskId p; journal := journal p |}).

Definition setReviewedMeetings (f : gmap string JsVal -> gmap string JsVal) : P unit :=
  pmodify (fun p =>
    {| home := home p; meetingSummaries := meetingSummaries p;
       loadingMeetings := loadingMeetings p; expandedMeetingId := expandedMeetingId p;
       reviewedMeetings := f (reviewedMeetings p);
       pendingProcessingMap := pendingProcessingMap p;
       creatingTaskId := creatingTaskId p; journal := journal p |}).

Definition setPendingProcessingMap (f : gmap string JsVal -> gmap string JsVal) : P unit :=
  pmodify (fun p =>
    {| home := home p; meetingSummaries := meetingSummaries p;
       loadingMeetings := loadingMeetings p; expandedMeetingId := expandedMeetingId p;
       reviewedMeetings := reviewedMeetings p;
       pendingProcessingMap := f (pendingProcessingMap p);
       creatingTaskId := creatingTaskId p; journal := journal p |}).

Definition setCreatingTaskId (v : JsVal) : P unit :=
  pmodify (fun p =>
    {| home := home p; meetingSummaries := meetingSummaries p;
       loadingMeetings := loadingMeetings p; expandedMeetingId := expandedMeetingId p;
       reviewedMeetings := reviewedMeetings p;
       pendingProcessingMap := pendingProcessingMap p;
       creatingTaskId := v; journal := journal p |}).

(** [fetchMeetingSummaries] *)
Definition fetchMeetingSummaries (sv : Services) : P unit :=
  pbind (setLoadingMeetings true) (fun _ =>
  ptry_finally
    (ptry_catch
       (pbind (pcall (Core (ApiGet "/meeting-summary"))
                     (api_get (world sv) "/meeting-summary")) (fun resp =>
        let meetings := or_else (or_else (get (get resp "data") "data") (get resp "data"))
                                (JArr []) in
        setMeetingSummaries meetings))
       (fun err =>
          pbind (pemit (Core (ConsoleError "Failed to fetch meeting summaries:" err)))
                (fun _ =>
          pbind (pemit (Core (ToastError "Failed to fetch meeting summaries"))) (fun _ =>
          setMeetingSummaries (JArr [])))))
    (setLoadingMeetings false)).

(** [toggleExpand]: [prev === id ? null : id] *)
Definition toggleExpand (id : JsVal) : P unit :=
  setExpandedMeetingId (fun prev => if strict_eq prev id then JNull else id).

(** [markAsReviewed]: [{...prev, [meetingId]: true}], the computed key being
    [String(meetingId)] *)
Definition markAsReviewed (meetingId : JsVal) : P unit :=
  setReviewedMeetings (fun prev => <[to_string meetingId := JBool true]> prev).

(** [typeof v === "object"] *)
Definition is_object_type (v : JsVal) : bool :=
  match v with
  | JNull | JArr _ | JObj _ => true
  | _ => false
  end.

(** The [taskText] of [createTaskFromMeetingPending] *)
Definition taskText (pendingItem : JsVal) : JsVal :=
  match pendingItem with
  | JStr _ => pendingItem
  | _ =>
      or_else (get pendingItem "task")
        (if is_object_type pendingItem
         then JStr (JSON_stringify pendingItem)
         else JStr (to_string (or_else pendingItem (JStr ""))))
  end.

(** [!taskText || !taskText.trim()]: a truthy text that is no string has no
    [trim] to call. *)
Definition invalidText (text : JsVal) : Res num bool :=
  if negb (truthy text) then Ok true
  else match text with
       | JStr s => Ok (negb (truthy (JStr (num := num) (trim s))))
       | _ => Throw TypeError
       end.

(** [createTaskFromMeetingPending], [user] being the component's prop *)
Definition createTaskFromMeetingPending (sv : Services) (user meetingId pendingItem : JsVal)
  : P unit :=
  let text := taskText pendingItem in
  pbind (plift (invalidText text)) (fun invalid =>
  if (invalid : bool) then pemit (Core (ToastError "Invalid pending item"))
  else
    pbind (setPendingProcessingMap
             (fun prev => <[to_string meetingId := JBool true]> prev)) (fun _ =>
    pbind (setCreatingTaskId meetingId) (fun _ =>
    ptry_finally
      (ptry_catch
         (pbind (core (InternHome.resolveSupabaseUserId (world sv) user)) (fun supaUserId =>
          if negb (truthy supaUserId)
          then pemit (Core (ToastError "Cannot create task: supabase user id not resolved."))
          else
            let payload :=
              JObj {[ "assigned_to" := supaUserId; "title" := text;
                      "description" := text; "status" := JStr "Pending";
                      "due_date" := JNull ]} in
            pbind (pcall (ApiPost "/tasks" payload) (api_post sv "/tasks" payload)) (fun _ =>
            pbind (pemit (Core (ToastSuccess "Task created from meeting pending"))) (fun _ =>
            core (InternHome.fetchTasks (world sv) user)))))
         (fun err =>
            pbind (pemit (Core (ConsoleError "Create task error:" err))) (fun _ =>
            pemit (Core (ToastError "Failed to create task")))))
      (pbind (setPendingProcessingMap
                (fun prev => <[to_string meetingId := JBool false]> prev)) (fun _ =>
       setCreatingTaskId JNull))))).

(** [onTaskAdded] *)
Definition onTaskAdded (sv : Services) (user : JsVal) : P unit :=
  core (InternHome.fetchTasks (world sv) user).

(** The items a meeting card lists for a field of the meeting:
    [typeof field === "string" ? (try JSON.parse) : (field || [])] *)
Definition cardItems (field : JsVal) : JsVal :=
  match field with
  | JStr s => match JSON_parse s with
              | Some v => v
              | None => JArr [field]
              end
  | _ => or_else field (JArr [])
  end.

(** [(v || "").toLowerCase()] *)
Definition lowered (v : JsVal) : Res num string :=
  match or_else v (JStr "") with
  | JStr s => Ok (toLowerCase s)
  | _ => Throw TypeError
  end.

(** The search filter over two fields of a row, [debouncedSearch] being the
    debounced text of the search box: [normalizedTaskSearch] reads [title] and
    [description], [meetingMatches] reads [meeting_name] and [summary]. *)
Definition matches (first second : string) (debouncedSearch : string) (row : JsVal)
  : Res num bool :=
  let q := toLowerCase (trim debouncedSearch) in
  if negb (truthy (JStr (num := num) q)) then Ok true
  else
    res_bind (prop row first) (fun a =>
    res_bind (lowered a) (fun a' =>
    res_bind (prop row second) (fun b =>
    res_bind (lowered b) (fun b' =>
    Ok (includes a' q || includes b' q))))).

Definition normalizedTaskSearch : string -> JsVal -> Res num bool :=
  matches "title" "description".

Definition meetingMatches : string -> JsVal -> Res num bool :=
  matches "meeting_name" "summary".

(** [t.status === a || t.status === b || ...] *)
Definition has_status (names : list string) (t : JsVal) : Res num bool :=
  res_bind (prop t "status") (fun status =>
  Ok (existsb (fun name => strict_eq status (JStr name)) names)).

(** The derived lists [filteredTasks], [todayTasks], [pendingTasks],
    [completedTasks] and [filteredMeetings]. *)
Definition filteredTasks (debouncedSearch : string) (tasks : JsVal) : Res num JsVal :=
  array_filter (normalizedTaskSearch debouncedSearch) tasks.

Definition todayTasks (filtered : JsVal) : Res num JsVal :=
  array_filter (has_status ["InProgress"; "Pending"]) filtered.

Definition pendingTasks (filtered : JsVal) : Res num JsVal :=
  array_filter (has_status ["Pending"]) filtered.

Definition completedTasks (filtered : JsVal) : Res num JsVal :=
  array_filter (has_status ["Completed"]) filtered.

Definition filteredMeetings (debouncedSearch : string) (meetings : JsVal) : Res num JsVal :=
  array_filter (meetingMatches debouncedSearch) meetings.

(** [s.split(" ")[0]]: what stands before the first space *)
Fixpoint before_space (s : string) : string :=
  match s with
  | EmptyString => EmptyString
  | String c s' => if Ascii.eqb c " " then EmptyString else String c (before_space s')
  end.

(** The name of the greeting: [user?.name?.split(" ")[0] || "Intern"] *)
Definition greetingName (user : JsVal) : Res num string :=
  let name := get user "name" in
  if nullish name then Ok "Intern"
  else match name with
       | JStr s => Ok (let first := before_space s in
                       if String.eqb first "" then "Intern" else first)
       | _ => Throw TypeError
       end.
End Page.

Arguments Event : clear implicits.
Arguments Services : clear implicits.
Arguments Page : clear implicits.
Arguments P : clear implicits.
Arguments world {num} s.
Arguments api_post {num} s.
Arguments home {num} p.
Arguments meetingSummaries {num} p.
Arguments loadingMeetings {num} p.
Arguments expandedMeetingId {num} p.
Arguments reviewedMeetings {num} p.
Arguments pendingProcessingMap {num} p.
Arguments creatingTaskId {num} p.
Arguments journal {num} p.

End HomePage.

(** ** Vocabulary of further properties *)

Module More.
Import Js Eff Spec.

Section RealtimeEvents.
Import InternHome.
Context {num : Type} `{JsNumber num}.
#[local] Abbreviation JsVal := (JsVal num).

(** The row image of an event is there and belongs to the identifier. *)
Definition concerns (supaUserId row : JsVal) : bool :=
  truthy row && owned_by supaUserId row.

(** The event is an INSERT or UPDATE whose new row, or a DELETE whose old row,
    belongs to the identifier: the events the realtime callback of
    [InternHome] applies to the list it holds. *)
Definition applies (supaUserId payload : JsVal) : bool :=
  match evt payload with
  | Ok e =>
      ((strict_eq e (JStr "INSERT") || strict_eq e (JStr "UPDATE"))
       && concerns supaUserId (newRow payload))
      || (strict_eq e (JStr "DELETE") && concerns supaUserId (oldRow payload))
  | Throw _ => false
  end.

(** No two rows of the list have identifiers that are [===]. *)
Fixpoint distinct_ids (l : list JsVal) : Prop :=
  match l with
  | [] => True
  | t :: l' => Forall (fun t' => strict_eq (get t' "id") (get t "id") = false) l'
               /\ distinct_ids l'
  end.

(** The run with another task list. *)
Definition with_tasks (v : JsVal) (r : Run num (View num)) : Run num (View num) :=
  {| view := {| tasks := v; loadingTasks := loadingTasks (view r);
                copying := copying (view r);
                resolvedSupabaseUserIdRef := resolvedSupabaseUserIdRef (view r) |};
     trace := trace r |}.
(** What an applied event makes of a list of rows. *)
Definition applied_to (payload : JsVal) (l : list JsVal) : list JsVal :=
  match evt payload with
  | Ok e =>
      if strict_eq e (JStr "INSERT")
      then if existsb (fun t => strict_eq (get t "id") (get (newRow payload) "id")) l
           then l else newRow payload :: l
      else if strict_eq e (JStr "UPDATE")
      then map (fun t => if strict_eq (get t "id") (get (newRow payload) "id")
                         then newRow payload else t) l
      else List.filter (fun t => negb (strict_eq (get t "id") (get (oldRow payload) "id"))) l
  | Throw _ => l
  end.

(** A step of a history that is an applied realtime event. *)
Definition applied_step (step : World num * Op num) : Prop :=
  match snd step with
  | OpTasksChange _ supaUserId payload => applies supaUserId payload = true
  | _ => False
  end.

(** The run with another value of the [copying] flag. *)
Definition with_copying (b : bool) (r : Run num (View num)) : Run num (View num) :=
  {| view := {| tasks := tasks (view r); loadingTasks := loadingTasks (view r);
                copying := b;
                resolvedSupabaseUserIdRef := resolvedSupabaseUserIdRef (view r) |};
     trace := trace r |}.
End RealtimeEvents.

Section InternTasksVocabulary.
Import InternTasks InternTasksView.
Context {num : Type} `{JsNumber num}.
#[local] Abbreviation JsVal := (JsVal num).



(** A cross-tab signal that the listeners of another tab answer with the list
    operation: a message on the channel they listen to that their [onmessage]
    takes, or a storage key their storage listener takes. *)
Definition heard (e : Effect num) : Prop :=
  match e with
  | BroadcastPost channel message =>
      channel = "tasks_channel"
      /\ forall w r, onMessage w (messageEvent message) r = fetchTasks w r
  | StorageSet key value =>
      forall w r, onStorage w (storageEvent key value) r = fetchTasks w r
  | _ => False
  end.
End InternTasksVocabulary.

Section HomePageVocabulary.
Import HomePage.
Context {num : Type} `{JsNumber num}.
#[local] Abbreviation JsVal := (JsVal num).

(** The task view inside the page, about to run one of its operations. *)
Definition task_view (p : Page num) : Run num (InternHome.View num) :=
  {| view := home p; trace := [] |}.

(** The page after an operation of the task view has left it in [r]. *)
Definition after_core (r : Run num (InternHome.View num)) (p : Page num) : Page num :=
  record (map Core (trace r)) (set_home (view r) p).

(** The page with the given [pendingProcessingMap] and [creatingTaskId]. *)
Definition with_processing (m : gmap string JsVal) (id : JsVal) (p : Page num) : Page num :=
  {| home := home p; meetingSummaries := meetingSummaries p;
     loadingMeetings := loadingMeetings p; expandedMeetingId := expandedMeetingId p;
     reviewedMeetings := reviewedMeetings p;
     pendingProcessingMap := m; creatingTaskId := id; journal := journal p |}.

(** The body of the request that creates a task with the given text for the
    given identifier. *)
Definition task_payload (supaUserId text : JsVal) : JsVal :=
  JObj {[ "assigned_to" := supaUserId; "title" := text; "description" := text;
          "status" := JStr "Pending"; "due_date" := JNull ]}.

(** The page with the given [meetingSummaries] and [loadingMeetings]. *)
Definition with_meetings (v : JsVal) (b : bool) (p : Page num) : Page num :=
  {| home := home p; meetingSummaries := v;
     loadingMeetings := b; expandedMeetingId := expandedMeetingId p;
     reviewedMeetings := reviewedMeetings p;
     pendingProcessingMap := pendingProcessingMap p;
     creatingTaskId := creatingTaskId p; journal := journal p |}.
End HomePageVocabulary.

End More.

(** ** Further concrete inputs *)

Module MoreSample.
Import Js Eff HomePage.

#[local] Abbreviation JsVal := (JsVal IntNum.t).

(** The collaborators of [Sample.world], with a backend whose list call
    fails with a network error. *)
Definition world_get_fails : World IntNum.t := {|
  auth_getUser := auth_getUser Sample.world;
  employee_lookup := employee_lookup Sample.world;
  api_get := fun _ => Throw (Rejected (JStr "Network Error"));
  api_put := api_put Sample.world;
  has_BroadcastChannel := true;
  broadcast_post := Ok tt;
  storage_setItem := Ok tt;
  date_now := date_now Sample.world;
  clipboard_writeText := clipboard_writeText Sample.world
|}.

(** [{id: 2, user_id: 99, status: "Completed"}], and the UPDATE event that
    brings it. *)
Definition row2_done : JsVal :=
  JObj {[ "id" := Sample.int 2; "user_id" := Sample.int 99; "status" := JStr "Completed" ]}.

Definition update_event : JsVal :=
  JObj {[ "eventType" := JStr "UPDATE"; "new" := row2_done; "old" := Sample.row2 ]}.

(** An [InternTasks] view that has not resolved anybody yet. *)
Definition tasks_view : Run IntNum.t (InternTasks.View IntNum.t) := InternTasks.mounted.

(** [trim] and [toLowerCase] on ASCII text: blanks are the space, the tab,
    the line feed and the carriage return; the letters [A] to [Z] are
    lowered. *)
Definition is_blank (c : ascii) : bool :=
  let n := nat_of_ascii c in
  Nat.eqb n 32 || Nat.eqb n 9 || Nat.eqb n 10 || Nat.eqb n 13.

Fixpoint trim_start (s : string) : string :=
  match s with
  | EmptyString => EmptyString
  | String c s' => if is_blank c then trim_start s' else s
  end.

Fixpoint trim_end (s : string) : string :=
  match s with
  | EmptyString => EmptyString
  | String c s' =>
      match trim_end s' with
      | EmptyString => if is_blank c then EmptyString else String c EmptyString
      | rest => String c rest
      end
  end.

Definition trim (s : string) : string := trim_end (trim_start s).

Definition lower_char (c : ascii) : ascii :=
  let n := nat_of_ascii c in
  if Nat.leb 65 n && Nat.leb n 90 then ascii_of_nat (n + 32) else c.

Fixpoint toLowerCase (s : string) : string :=
  match s with
  | EmptyString => EmptyString
  | String c s' => String (lower_char c) (toLowerCase s')
  end.

(** [JSON.stringify] on [null] and on the empty list, the only values of
    type ["object"] the scenarios hand to it. *)
Definition stringify (v : JsVal) : string :=
  match v with
  | JNull => "null"
  | _ => "[]"
  end.

(** The collaborators of [Sample.world] with a backend that accepts a new
    task, and with one that rejects it. *)
Definition services : Services IntNum.t :=
  {| world := Sample.world;
     api_post := fun _ _ => Ok (JObj {[ "data" := JNull ]}) |}.

Definition services_post_fails : Services IntNum.t :=
  {| world := Sample.world;
     api_post := fun _ _ => Throw (Rejected (JStr "Network Error")) |}.

(** A backend that answers every list call with [{data: {error: "down"}}]. *)
Definition world_odd_answer : World IntNum.t := {|
  auth_getUser := auth_getUser Sample.world;
  employee_lookup := employee_lookup Sample.world;
  api_get := fun _ => Ok (JObj {[ "data" := JObj {[ "error" := JStr "down" ]} ]});
  api_put := api_put Sample.world;
  has_BroadcastChannel := true;
  broadcast_post := Ok tt;
  storage_setItem := Ok tt;
  date_now := date_now Sample.world;
  clipboard_writeText := clipboard_writeText Sample.world
|}.

Definition services_odd_answer : Services IntNum.t :=
  {| world := world_odd_answer;
     api_post := fun _ _ => Ok (JObj {[ "data" := JNull ]}) |}.

(** A user with a name, and a row with a number for a title. *)
Definition ada : JsVal := JObj {[ "id" := Sample.int 42; "name" := JStr "Ada Lovelace" ]}.

Definition odd_row : JsVal := JObj {[ "id" := Sample.int 3; "title" := Sample.int 7 ]}.

End MoreSample.

(** * Properties *)

(** ** Coercions and the monad *)

Module JsFacts.
Import Js Eff.

Section Facts.
Context {num : Type} `{JsNumber num}.
#[local] Abbreviation JsVal := (JsVal num).

Lemma truthy_not_nullish (v : JsVal) : truthy v = true -> nullish v = false.
Proof. destruct v; simpl; congruence. Qed.

Lemma prop_not_nullish (v : JsVal) (k : string) :
  nullish v = false -> prop v k = Ok (get v k).
Proof. unfold prop. intros ->. reflexivity. Qed.

(** Scans over rows none of which is [null] or [undefined] never throw. *)
Lemma some_res_rows (f : JsVal -> JsVal -> bool) (k : string) (l : list JsVal) (x : JsVal) :
  Forall (fun t => nullish t = false) l ->
  some_res (fun t => res_bind (prop t k) (fun v => Ok (f v x))) l
  = Ok (existsb (fun t => f (get t k) x) l).
Proof.
  induction 1 as [|t l Ht _ IH]; simpl; [reflexivity|].
  rewrite (prop_not_nullish _ _ Ht). simpl.
  destruct (f (get t k) x); simpl; [reflexivity | exact IH].
Qed.

Lemma filter_res_rows (f : JsVal -> bool) (k : string) (l : list JsVal) :
  Forall (fun t => nullish t = false) l ->
  filter_res (fun t => res_bind (prop t k) (fun v => Ok (f v))) l
  = Ok (List.filter (fun t => f (get t k)) l).
Proof.
  induction 1 as [|t l Ht _ IH]; simpl; [reflexivity|].
  rewrite (prop_not_nullish _ _ Ht), IH. simpl. reflexivity.
Qed.

Lemma filter_all (A : Type) (p : A -> bool) (l : list A) :
  Forall (fun x => p x = true) l -> List.filter p l = l.
Proof.
  induction 1 as [|x l Hx _ IH]; simpl; [reflexivity|].
  rewrite Hx, IH. reflexivity.
Qed.

Lemma map_unchanged (A : Type) (f : A -> A) (l : list A) :
  Forall (fun x => f x = x) l -> map f l = l.
Proof.
  induction 1 as [|x l Hx _ IH]; simpl; [reflexivity|].
  rewrite Hx, IH. reflexivity.
Qed.

Lemma with_trace_nil {S} (r : Run num S) : with_trace [] r = r.
Proof. destruct r as [s t]. unfold with_trace. simpl. rewrite app_nil_r. reflexivity. Qed.

Lemma with_trace_app {S} (e1 e2 : list (Effect num)) (r : Run num S) :
  with_trace e2 (with_trace e1 r) = with_trace (e1 ++ e2) r.
Proof. unfold with_trace. simpl. rewrite app_assoc. reflexivity. Qed.

Lemma keeps_ret {S A} (P : S -> Prop) (a : A) : keeps (num := num) P (ret a).
Proof. intros r Hr. exact Hr. Qed.

Lemma keeps_lift {S A} (P : S -> Prop) (x : Res num A) : keeps P (lift x).
Proof. intros r Hr. exact Hr. Qed.

Lemma keeps_gets {S A} (P : S -> Prop) (f : S -> A) : keeps (num := num) P (gets f).
Proof. intros r Hr. exact Hr. Qed.

Lemma keeps_emit {S} (P : S -> Prop) (e : Effect num) : keeps P (emit e).
Proof. intros r Hr. exact Hr. Qed.

Lemma keeps_modify {S} (P : S -> Prop) (f : S -> S) :
  (forall s, P s -> P (f s)) -> keeps (num := num) P (modify f).
Proof. intros Hf r Hr. simpl. auto. Qed.

Lemma keeps_bind {S A B} (P : S -> Prop) (m : M num S A) (k : A -> M num S B) :
  keeps P m -> (forall a, keeps P (k a)) -> keeps P (bind m k).
Proof.
  intros Hm Hk r Hr. unfold bind. specialize (Hm r Hr).
  destruct (m r) as [[a|e] r']; simpl in *; [apply Hk; exact Hm | exact Hm].
Qed.

Lemma keeps_call {S A} (P : S -> Prop) (e : Effect num) (x : Res num A) :
  keeps P (call e x).
Proof. apply keeps_bind; [apply keeps_emit | intros _; apply keeps_lift]. Qed.

Lemma keeps_try_catch {S A} (P : S -> Prop) (m : M num S A) (h : Exn num -> M num S A) :
  keeps P m -> (forall e, keeps P (h e)) -> keeps P (try_catch m h).
Proof.
  intros Hm Hh r Hr. unfold try_catch. specialize (Hm r Hr).
  destruct (m r) as [[a|e] r']; simpl in *; [exact Hm | apply Hh; exact Hm].
Qed.

Lemma keeps_try_finally {S A} (P : S -> Prop) (m : M num S A) (f : M num S unit) :
  keeps P m -> keeps P f -> keeps P (try_finally m f).
Proof.
  intros Hm Hf r Hr. unfold try_finally. specialize (Hm r Hr).
  destruct (m r) as [x r']. simpl in Hm. specialize (Hf r' Hm).
  destruct (f r') as [[u|e] r'']; exact Hf.
Qed.

Lemma total_emit {S} (e : Effect num) : total (S := S) (emit e).
Proof. intros r. exists tt. reflexivity. Qed.

Lemma total_modify {S} (f : S -> S) : total (num := num) (modify f).
Proof. intros r. exists tt. reflexivity. Qed.

Lemma total_bind {S A B} (m : M num S A) (k : A -> M num S B) :
  total m -> (forall a, total (k a)) -> total (bind m k).
Proof.
  intros Hm Hk r. unfold bind. destruct (Hm r) as [a Ha].
  destruct (m r) as [[a'|e] r']; simpl in Ha; [|discriminate].
  apply Hk.
Qed.

Lemma total_try_catch {S A} (m : M num S A) (h : Exn num -> M num S A) :
  (forall e, total (h e)) -> total (try_catch m h).
Proof.
  intros Hh r. unfold try_catch.
  destruct (m r) as [[a|e] r']; [exists a; reflexivity | apply Hh].
Qed.

Lemma total_try_finally {S A} (m : M num S A) (f : M num S unit) :
  total m -> total f -> total (try_finally m f).
Proof.
  intros Hm Hf r. unfold try_finally. destruct (Hm r) as [a Ha].
  destruct (m r) as [x r']. simpl in Ha. subst x.
  destruct (Hf r') as [u Hu]. destruct (f r') as [[u'|e] r'']; simpl in Hu.
  - exists a. reflexivity.
  - discriminate.
Qed.

Lemma identity_queries_only (extra : list (Effect num)) :
  forallb Spec.is_identity_query extra = true ->
  existsb Spec.is_task_fetch extra = false
  /\ existsb Spec.is_error_report extra = false.
Proof.
  induction extra as [|e extra IH]; simpl; [auto|].
  intros Hq. apply andb_prop in Hq. destruct Hq as [He Hq].
  destruct (IH Hq) as [-> ->]. destruct e; simpl in *; try discriminate; auto.
Qed.
End Facts.

End JsFacts.

(** ** The realtime updaters of [InternHome] *)

Module InternHomeRealtime.
Import Js Eff InternHome Spec JsFacts.

Section Updaters.
Context {num : Type} `{JsNumber num}.
#[local] Abbreviation JsVal := (JsVal num).

Lemma existsb_has_id (row : JsVal) (l : list JsVal) :
  existsb (fun t => strict_eq (get t "id") (get row "id")) l = true
  <-> Exists (has_id_of row) l.
Proof.
  rewrite existsb_exists, Exists_exists. unfold has_id_of.
  split; intros (t & Hin & Ht); exists t; split; auto;
    apply list_elem_of_In; auto.
Qed.

(** On a list of rows the three updaters are the plain list functions. *)
Lemma insertRow_rows (row : JsVal) (l : list JsVal) :
  rows l ->
  insertRow row (JArr l)
  = Ok (if existsb (fun t => strict_eq (get t "id") (get row "id")) l
        then JArr l else JArr (row :: l)).
Proof.
  intros Hrows. unfold insertRow, array_some, same_id.
  rewrite (some_res_rows (fun v x => strict_eq v (get x "id")) "id" l row Hrows).
  simpl. destruct (existsb _ l); reflexivity.
Qed.

Lemma updateRow_rows (row : JsVal) (l : list JsVal) :
  rows l ->
  updateRow row (JArr l)
  = Ok (JArr (map (fun t => if strict_eq (get t "id") (get row "id") then row else t) l)).
Proof.
  intros Hrows. unfold updateRow, array_map.
  induction Hrows as [|t l Ht _ IH]; simpl; [reflexivity|].
  unfold same_id at 1. rewrite (prop_not_nullish _ _ Ht). simpl.
  destruct (map_res _ l); simpl in *; [|discriminate].
  injection IH as ->. reflexivity.
Qed.

Lemma deleteRow_rows (row : JsVal) (l : list JsVal) :
  rows l ->
  deleteRow row (JArr l)
  = Ok (JArr (List.filter (fun t => negb (strict_eq (get t "id") (get row "id"))) l)).
Proof.
  intros Hrows. unfold deleteRow, array_filter.
  induction Hrows as [|t l Ht _ IH]; simpl; [reflexivity|].
  unfold same_id at 1. rewrite (prop_not_nullish _ _ Ht). simpl.
  destruct (filter_res _ l); simpl in *; [|discriminate].
  injection IH as ->. reflexivity.
Qed.

Lemma absent_forall (row : JsVal) (l : list JsVal) :
  ~ Exists (has_id_of row) l ->
  Forall (fun t => strict_eq (get t "id") (get row "id") = false) l.
Proof.
  intros Hno. apply Forall_forall. intros t Hin.
  destruct (strict_eq (get t "id") (get row "id")) eqn:E; [|reflexivity].
  exfalso. apply Hno, Exists_exists. exists t. split; assumption.
Qed.

(** Replacing the list by itself leaves the run as it was. *)
Lemma setTasks_same (r : Run num (View num)) (v : JsVal) :
  tasks (view r) = v -> setTasks v r = (Ok tt, r).
Proof.
  intros <-. destruct r as [[ts ld cp rf] tr]. reflexivity.
Qed.

(** What the callback does on an event of each kind that concerns the user:
    it queues the matching updater and nothing else. *)
Lemma onTasksChange_insert (w : World num) (user supaUserId payload : JsVal)
    (r : Run num (View num)) :
  evt payload = Ok (JStr "INSERT") ->
  truthy (newRow payload) = true ->
  owned_by supaUserId (newRow payload) = true ->
  onTasksChange w user supaUserId payload r
  = setTasksWith (insertRow (newRow payload)) r.
Proof.
  intros He Ht Ho. unfold onTasksChange, bind at 1, try_catch, bind at 1, lift.
  rewrite He. simpl. rewrite Ht, Ho. reflexivity.
Qed.

Lemma onTasksChange_update (w : World num) (user supaUserId payload : JsVal)
    (r : Run num (View num)) :
  evt payload = Ok (JStr "UPDATE") ->
  truthy (newRow payload) = true ->
  owned_by supaUserId (newRow payload) = true ->
  onTasksChange w user supaUserId payload r
  = setTasksWith (updateRow (newRow payload)) r.
Proof.
  intros He Ht Ho. unfold onTasksChange, bind at 1, try_catch, bind at 1, lift.
  rewrite He. simpl. rewrite Ht, Ho. reflexivity.
Qed.

Lemma onTasksChange_delete (w : World num) (user supaUserId payload : JsVal)
    (r : Run num (View num)) :
  evt payload = Ok (JStr "DELETE") ->
  truthy (oldRow payload) = true ->
  owned_by supaUserId (oldRow payload) = true ->
  onTasksChange w user supaUserId payload r
  = setTasksWith (deleteRow (oldRow payload)) r.
Proof.
  intros He Ht Ho. unfold onTasksChange, bind at 1, try_catch, bind at 1, lift.
  rewrite He. simpl. rewrite Ht, Ho. reflexivity.
Qed.

Lemma setTasksWith_ok (f : JsVal -> Res num JsVal) (r : Run num (View num)) (v : JsVal) :
  f (tasks (view r)) = Ok v -> setTasksWith f r = setTasks v r.
Proof.
  intros Hf. unfold setTasksWith, bind, gets, lift. rewrite Hf. reflexivity.
Qed.


(** C6.  A realtime DELETE event whose old row belongs to the resolved
    identifier, applied to a task list that holds no task with the deleted
    row's [id]: the view, and so the list, is left exactly as it was. *)
Theorem delete_event_absent_noop (w : World num) (user supaUserId payload : JsVal)
    (l : list JsVal) (r : Run num (View num)) :
  tasks (view r) = JArr l ->
  rows l ->
  evt payload = Ok (JStr "DELETE") ->
  truthy (oldRow payload) = true ->
  owned_by supaUserId (oldRow payload) = true ->
  ~ Exists (has_id_of (oldRow payload)) l ->
  onTasksChange w user supaUserId payload r = (Ok tt, r).
Proof.
  intros Hl Hrows He Ht Ho Hno.
  rewrite (onTasksChange_delete w user supaUserId payload r He Ht Ho).
  rewrite (setTasksWith_ok _ r (JArr l)); [apply setTasks_same; exact Hl|].
  rewrite Hl, (deleteRow_rows _ l Hrows). do 2 f_equal.
  apply filter_all. eapply Forall_impl; [apply absent_forall; exact Hno|].
  simpl. intros t ->. reflexivity.
Qed.

(** C10.  A realtime UPDATE event whose new row belongs to the resolved
    identifier, applied to a task list that holds no task with the updated
    row's [id]: the view is left exactly as it was; the row is not added. *)
Theorem update_event_absent_noop (w : World num) (user supaUserId payload : JsVal)
    (l : list JsVal) (r : Run num (View num)) :
  tasks (view r) = JArr l ->
  rows l ->
  evt payload = Ok (JStr "UPDATE") ->
  truthy (newRow payload) = true ->
  owned_by supaUserId (newRow payload) = true ->
  ~ Exists (has_id_of (newRow payload)) l ->
  onTasksChange w user supaUserId payload r = (Ok tt, r).
Proof.
  intros Hl Hrows He Ht Ho Hno.
  rewrite (onTasksChange_update w user supaUserId payload r He Ht Ho).
  rewrite (setTasksWith_ok _ r (JArr l)); [apply setTasks_same; exact Hl|].
  rewrite Hl, (updateRow_rows _ l Hrows). do 2 f_equal.
  apply map_unchanged. eapply Forall_impl; [apply absent_forall; exact Hno|].
  simpl. intros t ->. reflexivity.
Qed.
End Updaters.


End InternHomeRealtime.

(** ** Identity resolution in [InternHome] *)

Module InternHomeIdentity.
Import Js Eff InternHome Spec JsFacts.

Section Resolution.
Context {num : Type} `{JsNumber num}.
#[local] Abbreviation JsVal := (JsVal num).

Lemma hyphenated_truthy (c : JsVal) : hyphenated c = true -> truthy c = true.
Proof.
  destruct c; simpl; try discriminate. intros Hinc.
  destruct s; [discriminate | reflexivity].
Qed.

Lemma find_filter_implied (A : Type) (p q : A -> bool) (l : list A) :
  (forall x, p x = true -> q x = true) ->
  List.find p (List.filter q l) = List.find p l.
Proof.
  intros Himp. induction l as [|x l IH]; simpl; [reflexivity|].
  destruct (q x) eqn:Hq; simpl.
  - destruct (p x); [reflexivity | exact IH].
  - destruct (p x) eqn:Hp; [|exact IH].
    rewrite (Himp x Hp) in Hq. discriminate.
Qed.

Lemma find_map (A B : Type) (p : B -> bool) (f : A -> B) (l : list A) :
  List.find p (map f l) = f <$> List.find (fun x => p (f x)) l.
Proof.
  induction l as [|x l IH]; simpl; [reflexivity|].
  destruct (p (f x)); [reflexivity | exact IH].
Qed.

(** The first element that passes a test, by position. *)
Lemma find_first (A : Type) (p : A -> bool) (l : list A) (i : nat) (x : A) :
  l !! i = Some x ->
  p x = true ->
  (forall j y, j < i -> l !! j = Some y -> p y = false) ->
  List.find p l = Some x.
Proof.
  revert i. induction l as [|a l IH]; intros i Hi Hp Hbefore; [discriminate|].
  destruct i as [|i]; simpl in *.
  - injection Hi as ->. rewrite Hp. reflexivity.
  - rewrite (Hbefore 0 a) by (simpl; (lia || reflexivity)).
    apply (IH i Hi Hp). intros j y Hj Hy. apply (Hbefore (S j) y); [lia | exact Hy].
Qed.

Lemma find_none (A : Type) (p : A -> bool) (l : list A) :
  (forall x, In x l -> p x = false) -> List.find p l = None.
Proof.
  induction l as [|a l IH]; intros Hall; simpl; [reflexivity|].
  rewrite (Hall a) by (left; reflexivity).
  apply IH. intros x Hx. apply Hall. right. exact Hx.
Qed.

(** The scan of the direct candidates, read off the user record. *)
Lemma directCandidates_find (user : JsVal) :
  List.find hyphenated (directCandidates user)
  = get user <$> List.find (fun f => hyphenated (get user f)) directCandidateFields.
Proof.
  unfold directCandidates.
  rewrite (find_filter_implied _ hyphenated truthy _ hyphenated_truthy).
  apply find_map.
Qed.

Lemma sessionUserId_spec (w : World num) (r : Run num (View num)) :
  sessionUserId w r
  = match session_id (auth_getUser w) with
    | Some id => (Ok (Some id), with_ref id (with_trace [AuthGetUser] r))
    | None => (Ok None, with_trace [AuthGetUser] r)
    end.
Proof.
  unfold sessionUserId, try_catch, call, bind, emit, lift, session_id, prop.
  destruct (auth_getUser w) as [res|e]; simpl; [|reflexivity].
  destruct (nullish res); simpl; [reflexivity|].
  destruct (truthy _); reflexivity.
Qed.

Lemma column_qualifies_hyphenated (data : JsVal) (col : string) :
  column_qualifies data col = hyphenated (get data col).
Proof.
  unfold column_qualifies. destruct (hyphenated (get data col)) eqn:E.
  - rewrite (hyphenated_truthy _ E). reflexivity.
  - apply andb_false_r.
Qed.

(** A value that is no string with a hyphen is refused by the test of both
    scans. *)
Lemma hyphenated_refuses (v : JsVal) :
  (forall s, v = JStr s -> includes s "-" = false) -> hyphenated v = false.
Proof.
  intros Hv. destruct v; try reflexivity. simpl. apply Hv. reflexivity.
Qed.

(** C4.  With nothing cached, a user none of whose direct candidate fields
    ([supabase_user_id], [auth_user_id], [auth_id], [auth_uuid], [uuid],
    [user_uuid], [user_id], [id]) is a string containing a hyphen, and no
    identifier from the auth session, a user whose [id] is numeric is looked
    up in the employee table by [Number(user.id)]: the calls made are the auth
    session query followed by the employee query for the six columns, and no
    other.  When the query yields a row, resolution returns (and caches) the
    value of the first of the columns [supabase_user_id], [auth_user_id],
    [auth_id], [user_uuid], [supabase_id], [auth_uuid], in that order, that is
    a string containing a hyphen: the columns before it hold no such string
    (they may hold other strings, numbers, [null]).  It returns [null],
    caching nothing, when none of the six columns is a string containing a
    hyphen, and when the query yields no row. *)
Theorem employee_lookup_resolves (w : World num) (user : JsVal)
    (r : Run num (View num)) :
  let fields := [ "supabase_user_id"; "auth_user_id"; "auth_id"; "auth_uuid"; "uuid";
                  "user_uuid"; "user_id"; "id" ] in
  let columns := [ "supabase_user_id"; "auth_user_id"; "auth_id"; "user_uuid";
                   "supabase_id"; "auth_uuid" ] in
  let numericId := to_number (get user "id") in
  let asked :=
    with_trace
      [ AuthGetUser;
        EmployeeLookup
          "supabase_user_id,auth_user_id,auth_id,user_uuid,supabase_id,auth_uuid"
          numericId ] r in
  truthy (resolvedSupabaseUserIdRef (view r)) = false ->
  truthy user = true ->
  (forall f s, In f fields -> get user f = JStr s -> includes s "-" = false) ->
  session_id (auth_getUser w) = None ->
  num_is_nan numericId = false ->
  (forall data, employee_row (employee_lookup w numericId) = Some data ->
     (forall i col s,
         columns !! i = Some col ->
         get data col = JStr s ->
         includes s "-" = true ->
         (forall j c s', j < i -> columns !! j = Some c ->
                         get data c = JStr s' -> includes s' "-" = false) ->
         resolveSupabaseUserId w user r = (Ok (JStr s), with_ref (JStr s) asked))
     /\ ((forall c s, In c columns -> get data c = JStr s -> includes s "-" = false) ->
         resolveSupabaseUserId w user r = (Ok JNull, asked)))
  /\ (employee_row (employee_lookup w numericId) = None ->
      resolveSupabaseUserId w user r = (Ok JNull, asked)).
Proof.
  intros fields columns numericId asked Hcache Huser Hdirect Hsession Hnum.
  assert (Hnone : forall f, In f directCandidateFields -> hyphenated (get user f) = false).
  { intros f Hf. apply hyphenated_refuses. intros s Hs. exact (Hdirect f s Hf Hs). }
  assert (Hscan : resolveSupabaseUserId w user r
                  = match employee_row (employee_lookup w numericId) with
                    | Some data =>
                        match List.find (column_qualifies data)
                                        lookupEmployeeAuthColumns with
                        | Some col => (Ok (get data col), with_ref (get data col) asked)
                        | None => (Ok JNull, asked)
                        end
                    | None => (Ok JNull, asked)
                    end).
  { assert (Hasked : asked
                     = with_trace
                         [ AuthGetUser;
                           EmployeeLookup (String.concat "," lookupEmployeeAuthColumns)
                             numericId ] r) by reflexivity.
    rewrite Hasked. clear Hasked.
    unfold resolveSupabaseUserId, employeeUserId, employee_row.
    fold numericId. generalize lookupEmployeeAuthColumns. intros cols.
    unfold bind at 1, gets. rewrite Hcache, Huser. simpl.
    rewrite directCandidates_find,
      (find_none _ (fun f => hyphenated (get user f)) _ Hnone). simpl.
    unfold bind at 1. rewrite sessionUserId_spec, Hsession.
    unfold bind at 1. rewrite Hnum. simpl.
    unfold try_catch, call, bind, emit, lift, prop, with_trace, with_ref. simpl.
    rewrite <- !app_assoc. simpl.
    destruct (employee_lookup w numericId) as [res|e]; simpl; [|reflexivity].
    destruct (nullish res); simpl; [reflexivity|].
    destruct (negb (truthy (get res "error")) && truthy (get res "data"));
      [|reflexivity].
    destruct (List.find _ cols); reflexivity. }
  rewrite Hscan. split.
  - intros data ->. split.
    + intros i col s Hi Hcol Hinc Hbefore.
      rewrite (find_first _ _ _ i col Hi).
      * rewrite Hcol. reflexivity.
      * rewrite column_qualifies_hyphenated, Hcol. exact Hinc.
      * intros j c Hj Hc. rewrite column_qualifies_hyphenated.
        apply hyphenated_refuses. intros s' Hs'. exact (Hbefore j c s' Hj Hc Hs').
    + intros Hrefused. rewrite find_none; [reflexivity|].
      intros c Hc. rewrite column_qualifies_hyphenated.
      apply hyphenated_refuses. intros s Hs. exact (Hrefused c s Hc Hs).
  - intros ->. reflexivity.
Qed.

(** *** Resolution and the rest of the view *)

(** Resolution neither reads nor writes the loading flag. *)
Lemma sessionUserId_frame (w : World num) (b : bool) (r : Run num (View num)) :
  sessionUserId w (with_loading b r)
  = (fst (sessionUserId w r), with_loading b (snd (sessionUserId w r))).
Proof.
  rewrite !sessionUserId_spec. destruct (session_id (auth_getUser w)); reflexivity.
Qed.

Lemma employeeUserId_frame (w : World num) (user : JsVal) (b : bool)
    (r : Run num (View num)) :
  employeeUserId w user (with_loading b r)
  = (fst (employeeUserId w user r), with_loading b (snd (employeeUserId w user r))).
Proof.
  unfold employeeUserId. generalize lookupEmployeeAuthColumns. intros cols.
  destruct (num_is_nan _); simpl; [reflexivity|].
  unfold try_catch, call, bind, emit, lift, prop. simpl.
  destruct (employee_lookup w _) as [res|e]; simpl; [|reflexivity].
  destruct (nullish res); simpl; [reflexivity|].
  destruct (negb (truthy (get res "error")) && truthy (get res "data")); [|reflexivity].
  destruct (List.find _ cols); reflexivity.
Qed.

(** The steps of a resolution, one after the other. *)
Lemma resolve_steps (w : World num) (user : JsVal) (r : Run num (View num)) :
  resolveSupabaseUserId w user r
  = if truthy (resolvedSupabaseUserIdRef (view r))
    then (Ok (resolvedSupabaseUserIdRef (view r)), r)
    else if truthy user
    then match List.find hyphenated (directCandidates user) with
         | Some c => (Ok c, with_ref c r)
         | None =>
             match sessionUserId w r with
             | (Ok (Some id), r1) => (Ok id, r1)
             | (Ok None, r1) =>
                 match employeeUserId w user r1 with
                 | (Ok (Some id), r2) => (Ok id, r2)
                 | (Ok None, r2) => (Ok JNull, r2)
                 | (Throw e, r2) => (Throw e, r2)
                 end
             | (Throw e, r1) => (Throw e, r1)
             end
         end
    else (Ok JNull, r).
Proof.
  unfold resolveSupabaseUserId, bind at 1, gets.
  destruct (truthy (resolvedSupabaseUserIdRef (view r))); [reflexivity|].
  destruct (truthy user); simpl; [|reflexivity].
  destruct (List.find hyphenated (directCandidates user)); [reflexivity|].
  unfold bind at 1.
  destruct (sessionUserId w r) as [[[id|]|e] r1]; try reflexivity.
  unfold bind.
  destruct (employeeUserId w user r1) as [[[id|]|e] r2]; reflexivity.
Qed.

Lemma resolve_frame_loading (w : World num) (user : JsVal) (b : bool)
    (r : Run num (View num)) :
  resolveSupabaseUserId w user (with_loading b r)
  = (fst (resolveSupabaseUserId w user r),
     with_loading b (snd (resolveSupabaseUserId w user r))).
Proof.
  rewrite !resolve_steps. simpl.
  destruct (truthy (resolvedSupabaseUserIdRef (view r))); [reflexivity|].
  destruct (truthy user); simpl; [|reflexivity].
  destruct (List.find hyphenated (directCandidates user)); [reflexivity|].
  rewrite sessionUserId_frame.
  destruct (sessionUserId w r) as [[[id|]|e] r1]; simpl; try reflexivity.
  rewrite employeeUserId_frame.
  destruct (employeeUserId w user r1) as [[[id|]|e] r2]; reflexivity.
Qed.

(** *** The cache *)

Lemma resolve_cached (w : World num) (user : JsVal) (r : Run num (View num)) :
  truthy (resolvedSupabaseUserIdRef (view r)) = true ->
  resolveSupabaseUserId w user r = (Ok (resolvedSupabaseUserIdRef (view r)), r).
Proof.
  intros Hc. unfold resolveSupabaseUserId, bind at 1, gets. rewrite Hc. reflexivity.
Qed.

Lemma employeeUserId_cases (w : World num) (user : JsVal) (r : Run num (View num)) :
  (exists extra, employeeUserId w user r = (Ok None, with_trace extra r)
                 /\ forallb is_identity_query extra = true)
  \/ (exists id r', employeeUserId w user r = (Ok (Some id), r')
                    /\ truthy id = true
                    /\ resolvedSupabaseUserIdRef (view r') = id).
Proof.
  unfold employeeUserId. generalize lookupEmployeeAuthColumns. intros cols.
  destruct (num_is_nan _); simpl.
  { left. exists []. rewrite with_trace_nil. split; reflexivity. }
  unfold try_catch, call, bind, emit, lift, prop. simpl.
  match goal with |- context [EmployeeLookup ?c ?n] => set (q := EmployeeLookup c n) end.
  assert (Hnone : forall x : Res num (option JsVal),
             x = Ok None ->
             exists extra, (x, {| view := view r; trace := trace r ++ [q] |})
                           = (Ok None, with_trace extra r)
                           /\ forallb is_identity_query extra = true).
  { intros x ->. exists [q]. split; reflexivity. }
  destruct (employee_lookup w _) as [res|e]; simpl; [|left; apply Hnone; reflexivity].
  destruct (nullish res); simpl; [left; apply Hnone; reflexivity|].
  destruct (negb (truthy (get res "error")) && truthy (get res "data"));
    [|left; apply Hnone; reflexivity].
  destruct (List.find _ cols) as [col|] eqn:Hfind; [|left; apply Hnone; reflexivity].
  right. do 2 eexists. split; [reflexivity|]. split; [|reflexivity].
  apply find_some in Hfind. destruct Hfind as [_ Hq].
  unfold column_qualifies in Hq. apply andb_prop in Hq. tauto.
Qed.

Lemma session_id_truthy (answer : Res num JsVal) (id : JsVal) :
  session_id answer = Some id -> truthy id = true.
Proof.
  unfold session_id. destruct answer as [res|]; [|discriminate].
  destruct (nullish res); [discriminate|].
  destruct (truthy (get (get (get res "data") "user") "id")) eqn:Ht; [|discriminate].
  intros [= <-]. exact Ht.
Qed.

(** A resolution that returns [null] has changed nothing in the view and has
    made identity queries only. *)
Lemma resolve_null (w : World num) (user : JsVal) (r : Run num (View num)) :
  fst (resolveSupabaseUserId w user r) = Ok JNull ->
  exists extra,
    resolveSupabaseUserId w user r = (Ok JNull, with_trace extra r)
    /\ forallb is_identity_query extra = true.
Proof.
  rewrite resolve_steps.
  destruct (truthy (resolvedSupabaseUserIdRef (view r))) eqn:Hc; simpl.
  { intros [= Hnull]. rewrite Hnull in Hc. discriminate. }
  destruct (truthy user); simpl.
  2: { intros _. exists []. rewrite with_trace_nil. split; reflexivity. }
  destruct (List.find hyphenated (directCandidates user)) as [c|] eqn:Hfind; simpl.
  { intros [= ->]. apply find_some in Hfind. destruct Hfind as [_ Hh]. discriminate. }
  rewrite sessionUserId_spec.
  destruct (session_id (auth_getUser w)) as [id|] eqn:Hs; simpl.
  { intros [= ->]. apply session_id_truthy in Hs. discriminate. }
  destruct (employeeUserId_cases w user (with_trace [AuthGetUser] r))
    as [(extra & He & Hq) | (id & r' & He & Ht & _)]; rewrite He; simpl.
  - intros _. exists (AuthGetUser :: extra). rewrite with_trace_app. split; [reflexivity|].
    simpl. exact Hq.
  - intros [= ->]. discriminate.
Qed.

(** The list operation when the identifier cannot be resolved. *)
Lemma home_fetch_unresolved (w : World num) (user : JsVal) (r : Run num (View num)) :
  fst (resolveSupabaseUserId w user r) = Ok JNull ->
  exists extra,
    fetchTasks w user r
    = (Ok tt, {| view := {| tasks := JArr []; loadingTasks := false;
                            copying := copying (view r);
                            resolvedSupabaseUserIdRef :=
                              resolvedSupabaseUserIdRef (view r) |};
                 trace := trace r ++ extra |})
    /\ forallb is_identity_query extra = true.
Proof.
  intros Hnull. destruct (resolve_null w user r Hnull) as (extra & Hres & Hq).
  exists extra. split; [|exact Hq].
  unfold fetchTasks, bind at 1. simpl.
  unfold try_finally, try_catch, bind at 1.
  change {| view := {| tasks := tasks (view r); loadingTasks := true;
                       copying := copying (view r);
                       resolvedSupabaseUserIdRef := resolvedSupabaseUserIdRef (view r) |};
            trace := trace r |} with (with_loading true r).
  rewrite resolve_frame_loading, Hres. reflexivity.
Qed.

(** Whatever a resolution returns other than [null] is truthy and is what the
    cache holds afterwards. *)
Lemma resolve_caches (w : World num) (user v : JsVal) (r r1 : Run num (View num)) :
  resolveSupabaseUserId w user r = (Ok v, r1) ->
  v <> JNull ->
  truthy v = true /\ resolvedSupabaseUserIdRef (view r1) = v.
Proof.
  intros Hres Hv. rewrite resolve_steps in Hres.
  destruct (truthy (resolvedSupabaseUserIdRef (view r))) eqn:Hc.
  { injection Hres as <- <-. auto. }
  destruct (truthy user); [|congruence].
  destruct (List.find hyphenated (directCandidates user)) as [c|] eqn:Hfind.
  { injection Hres as <- <-. split; [|reflexivity].
    apply find_some in Hfind. apply hyphenated_truthy, Hfind. }
  rewrite sessionUserId_spec in Hres.
  destruct (session_id (auth_getUser w)) as [id|] eqn:Hs.
  { injection Hres as <- <-. split; [|reflexivity]. exact (session_id_truthy _ _ Hs). }
  destruct (employeeUserId_cases w user (with_trace [AuthGetUser] r))
    as [(extra & He & _) | (id & r' & He & Ht & Href)]; rewrite He in Hres.
  - injection Hres as <- <-. congruence.
  - injection Hres as <- <-. auto.
Qed.

Ltac keeps_branch :=
  match goal with
  | |- keeps _ (if ?b then _ else _) => destruct b
  | |- keeps _ (match ?x with _ => _ end) => destruct x
  end.

(** A resolution with an empty cache and a direct candidate. *)
Lemma resolve_direct (w : World num) (user : JsVal) (r : Run num (View num))
    (field s : string) :
  truthy (resolvedSupabaseUserIdRef (view r)) = false ->
  List.find (fun f => hyphenated (get user f)) directCandidateFields = Some field ->
  get user field = JStr s ->
  resolveSupabaseUserId w user r = (Ok (JStr s), with_ref (JStr s) r).
Proof.
  intros Hcache Hfind Hfield. rewrite resolve_steps, Hcache.
  assert (truthy user = true) as ->.
  { destruct user; simpl in Hfield; try discriminate. reflexivity. }
  rewrite directCandidates_find, Hfind. simpl. rewrite Hfield. reflexivity.
Qed.

Lemma with_ref_same (r : Run num (View num)) :
  with_ref (resolvedSupabaseUserIdRef (view r)) r = r.
Proof. destruct r as [[ts ld cp rf] tr]. reflexivity. Qed.

(** *** Properties of the cache that every operation of the view keeps *)

Section CacheInvariant.
Variable JSON_parse : string -> option JsVal.
(** [Q] speaks of the cache only, and resolutions for the users that pass
    [ok] keep it. *)
Variable Q : View num -> Prop.
Variable ok : JsVal -> Prop.
Hypothesis Q_cache :
  forall s s', resolvedSupabaseUserIdRef s = resolvedSupabaseUserIdRef s' -> Q s -> Q s'.
Hypothesis Q_resolve :
  forall w user, ok user -> keeps Q (resolveSupabaseUserId w user).

Ltac keeps_step :=
  first [ apply keeps_ret | apply keeps_lift | apply keeps_gets | apply keeps_emit
        | apply keeps_call | apply keeps_bind | apply keeps_try_catch
        | apply keeps_try_finally
        | apply keeps_modify;
          let s := fresh "s" in let Hs := fresh "Hs" in
          intros s Hs; apply (Q_cache s); [reflexivity | exact Hs]
        | lazymatch goal with
          | |- keeps _ _ => fail
          | |- _ => intro
          end ].

Lemma keeps_fetchTasks (w : World num) (user : JsVal) :
  ok user -> keeps Q (fetchTasks w user).
Proof.
  intros Hok. unfold fetchTasks, setTasks, setLoadingTasks.
  repeat first [ apply (Q_resolve w user Hok) | keeps_step | keeps_branch ].
Qed.

Lemma keeps_onTasksChange (w : World num) (user supaUserId payload : JsVal) :
  ok user -> keeps Q (onTasksChange w user supaUserId payload).
Proof.
  intros Hok. unfold onTasksChange, setTasksWith, setTasks.
  repeat first [ apply (keeps_fetchTasks w user Hok) | keeps_step | keeps_branch ].
Qed.

Lemma keeps_copyTranscript (w : World num) (meeting : JsVal) :
  keeps Q (copyTranscript JSON_parse w meeting).
Proof.
  unfold copyTranscript, setCopying.
  repeat first [ keeps_step | keeps_branch ].
Qed.

Lemma keeps_run_ops (steps : list (World num * Op num)) (r : Run num (View num)) :
  Forall (fun step => op_user ok (snd step)) steps ->
  Q (view r) -> Q (view (run_ops JSON_parse steps r)).
Proof.
  intros Hsteps. revert r.
  induction Hsteps as [|[w op] steps Hop _ IH]; intros r Hr; [exact Hr|].
  simpl. apply IH. destruct op; simpl in *.
  - apply Q_resolve; assumption.
  - apply keeps_fetchTasks; assumption.
  - apply keeps_onTasksChange; assumption.
  - apply keeps_copyTranscript; assumption.
Qed.
End CacheInvariant.


(** With a direct candidate in the user record, the cache of a view that
    only ever ran for that user is empty or holds the candidate. *)
Lemma direct_or_empty (JSON_parse : string -> option JsVal) (user : JsVal)
    (field s : string) (steps : list (World num * Op num)) (r : Run num (View num)) :
  List.find (fun f => hyphenated (get user f)) directCandidateFields = Some field ->
  get user field = JStr s ->
  Forall (fun step => op_user (eq user) (snd step)) steps ->
  caches_at_most (JStr s) (view r) ->
  caches_at_most (JStr s) (view (run_ops JSON_parse steps r)).
Proof.
  intros Hfind Hfield.
  apply (keeps_run_ops JSON_parse (caches_at_most (JStr s)) (eq user)).
  - unfold caches_at_most. intros s1 s2 Heq Hs. rewrite <- Heq. exact Hs.
  - intros w u <- r0 [Hempty|Hfull].
    + rewrite (resolve_direct w user r0 field s Hempty Hfind Hfield).
      right. reflexivity.
    + rewrite resolve_cached; [right; exact Hfull|].
      rewrite Hfull. apply hyphenated_truthy.
      apply find_some in Hfind. rewrite <- Hfield. apply Hfind.
Qed.

(** C3.  A view mounted for a user record one of whose direct candidate
    fields holds a string containing a hyphen, after any history of its
    operations for that user: resolution returns the first such string in the
    order [supabase_user_id], [auth_user_id], [auth_id], [auth_uuid], [uuid],
    [user_uuid], [user_id], [id], whatever else the string looks like, and
    that string is what the cache holds afterwards.  The fields before it
    hold no string with a hyphen: they may be missing or hold a number or a
    string without one.  The trace is unchanged: neither the auth session nor
    the employee table is queried.  In particular the record
    [{id: n, supabase_user_id: "abc-123"}] resolves to ["abc-123"] in a
    freshly mounted view. *)
Theorem direct_candidate_resolves (JSON_parse : string -> option JsVal)
    (w : World num) (user : JsVal) (steps : list (World num * Op num))
    (i : nat) (field s : string) :
  let fields := [ "supabase_user_id"; "auth_user_id"; "auth_id"; "auth_uuid"; "uuid";
                  "user_uuid"; "user_id"; "id" ] in
  fields !! i = Some field ->
  get user field = JStr s ->
  includes s "-" = true ->
  (forall j f s', j < i -> fields !! j = Some f ->
                  get user f = JStr s' -> includes s' "-" = false) ->
  Forall (fun step => op_user (eq user) (snd step)) steps ->
  resolveSupabaseUserId w user (run_ops JSON_parse steps mounted)
  = (Ok (JStr s), with_ref (JStr s) (run_ops JSON_parse steps mounted))
  /\ (forall n : num,
        resolveSupabaseUserId w
          (JObj {[ "id" := JNum n; "supabase_user_id" := JStr "abc-123" ]}) mounted
        = (Ok (JStr "abc-123"), with_ref (JStr "abc-123") mounted)).
Proof.
  intros fields Hi Hfield Hinc Hbefore Hsteps.
  assert (Hfind : List.find (fun f => hyphenated (get user f)) directCandidateFields
                  = Some field).
  { apply (find_first _ _ _ i); [exact Hi | rewrite Hfield; exact Hinc |].
    intros j f Hj Hf. apply hyphenated_refuses.
    intros s' Hs'. exact (Hbefore j f s' Hj Hf Hs'). }
  split.
  - destruct (direct_or_empty JSON_parse user field s steps mounted Hfind Hfield Hsteps)
      as [Hempty|Hfull]; [left; reflexivity| |].
    + apply (resolve_direct w user _ field s Hempty Hfind Hfield).
    + rewrite resolve_cached.
      * rewrite Hfull. rewrite <- Hfull at 3. rewrite with_ref_same. reflexivity.
      * rewrite Hfull. simpl. destruct s; [discriminate | reflexivity].
  - intros n. apply (resolve_direct w _ mounted "supabase_user_id"); reflexivity.
Qed.

End Resolution.

End InternHomeIdentity.

(** ** The task store client of [InternTasks] *)

Module InternTasksStore.
Import Js Eff Spec JsFacts InternTasks.

Section Store.
Context {num : Type} `{JsNumber num}.
#[local] Abbreviation JsVal := (JsVal num).

Lemma resolveUserId_steps (w : World num) (r : Run num (View num)) :
  resolveUserId w r
  = if truthy (userIdRef (view r)) then (Ok (userIdRef (view r)), r)
    else match auth_getUser w with
         | Ok res =>
             if nullish res
             then (Ok JNull,
                   with_trace [AuthGetUser; ConsoleWarn "resolveUserId error" TypeError] r)
             else let id := get (get (get res "data") "user") "id" in
                  if truthy id
                  then (Ok id, snd (setUserIdRef id (with_trace [AuthGetUser] r)))
                  else (Ok JNull, with_trace [AuthGetUser] r)
         | Throw e =>
             (Ok JNull, with_trace [AuthGetUser; ConsoleWarn "resolveUserId error" e] r)
         end.
Proof.
  unfold resolveUserId, bind at 1, gets.
  destruct (truthy (userIdRef (view r))); [reflexivity|].
  unfold try_catch, call, bind, emit, lift, prop, with_trace. simpl.
  destruct (auth_getUser w) as [res|e]; simpl.
  - destruct (nullish res); simpl.
    + rewrite <- app_assoc. reflexivity.
    + destruct (truthy _); reflexivity.
  - rewrite <- app_assoc. reflexivity.
Qed.

Lemma resolveUserId_frame (w : World num) (b : bool) (r : Run num (View num)) :
  resolveUserId w (snd (setLoading b r))
  = (fst (resolveUserId w r), snd (setLoading b (snd (resolveUserId w r)))).
Proof.
  rewrite !resolveUserId_steps. simpl.
  destruct (truthy (userIdRef (view r))); [reflexivity|].
  destruct (auth_getUser w) as [res|e]; [|reflexivity].
  destruct (nullish res); [reflexivity|].
  simpl. destruct (truthy _); reflexivity.
Qed.

Lemma resolveUserId_null (w : World num) (r : Run num (View num)) :
  fst (resolveUserId w r) = Ok JNull ->
  exists extra,
    resolveUserId w r = (Ok JNull, with_trace extra r)
    /\ forallb is_identity_query extra = true.
Proof.
  rewrite resolveUserId_steps.
  destruct (truthy (userIdRef (view r))) eqn:Hc; simpl.
  { intros [= Hnull]. rewrite Hnull in Hc. discriminate. }
  destruct (auth_getUser w) as [res|e]; simpl.
  - destruct (nullish res); simpl.
    + intros _. eexists. split; reflexivity.
    + destruct (truthy (get (get (get res "data") "user") "id")) eqn:Ht; simpl.
      * intros [= Hnull]. rewrite Hnull in Ht. discriminate.
      * intros _. eexists. split; reflexivity.
  - intros _. eexists. split; reflexivity.
Qed.

(** [fetchTasks] catches whatever goes wrong inside it. *)
Lemma fetchTasks_total (w : World num) : total (fetchTasks w).
Proof.
  unfold fetchTasks, setLoading, setTasks.
  apply total_bind; [apply total_modify|]. intros _.
  apply total_try_finally; [|apply total_modify].
  apply total_try_catch. intros e.
  apply total_bind; [apply total_emit|]. intros _. apply total_modify.
Qed.

(** The list operation when the identifier cannot be resolved. *)
Lemma tasks_fetch_unresolved (w : World num) (r : Run num (View num)) :
  fst (resolveUserId w r) = Ok JNull ->
  exists extra,
    fetchTasks w r
    = (Ok tt, {| view := {| tasks := JArr []; loading := false;
                            userIdRef := userIdRef (view r) |};
                 trace := trace r ++ extra |})
    /\ forallb is_identity_query extra = true.
Proof.
  intros Hnull. destruct (resolveUserId_null w r Hnull) as (extra & Hres & Hq).
  exists extra. split; [|exact Hq].
  unfold fetchTasks, bind at 1. simpl.
  unfold try_finally, try_catch, bind at 1.
  change {| view := {| tasks := tasks (view r); loading := true;
                       userIdRef := userIdRef (view r) |};
            trace := trace r |} with (snd (setLoading true r)).
  rewrite resolveUserId_frame, Hres. reflexivity.
Qed.

(** The list operation when the identifier is resolved and the backend
    answers with a list of rows: the rows owned by the identifier, compared as
    strings, are kept, in order. *)
Lemma fetchTasks_filters (w : World num) (r r1 : Run num (View num))
    (uuid resp : JsVal) (l : list JsVal) :
  resolveUserId w r = (Ok uuid, r1) ->
  truthy uuid = true ->
  api_get w "/tasks" = Ok resp ->
  or_else (or_else (get (get resp "data") "data") (get resp "data")) (JArr []) = JArr l ->
  Forall (fun t => nullish t = false) l ->
  fetchTasks w r
  = (Ok tt,
     {| view := {| tasks := JArr (List.filter
                                    (fun t => String.eqb (to_string (get t "user_id"))
                                                         (to_string uuid)) l);
                   loading := false;
                   userIdRef := userIdRef (view r1) |};
        trace := trace r1 ++ [ApiGet "/tasks"] |}).
Proof.
  intros Hres Huuid Hget Hall Hrows.
  unfold fetchTasks, bind at 1. simpl.
  unfold try_finally, try_catch, bind at 1.
  change {| view := {| tasks := tasks (view r); loading := true;
                       userIdRef := userIdRef (view r) |};
            trace := trace r |} with (snd (setLoading true r)).
  rewrite resolveUserId_frame, Hres. simpl. rewrite Huuid. simpl.
  unfold call, bind, emit, lift. simpl. rewrite Hget, Hall. simpl.
  unfold owned_by.
  rewrite (filter_res_rows (fun v => String.eqb (to_string v) (to_string uuid))
             "user_id" l Hrows).
  reflexivity.
Qed.

(** The realtime callback of [InternTasks] keeps no list of its own: a change
    to a row of the user re-fetches the list, and any other change is ignored. *)
Lemma tasks_change_refetches (w : World num) (uuid payload : JsVal)
    (r : Run num (View num)) :
  onTasksChange w uuid payload r
  = if (truthy (get payload "new")
        && String.eqb (to_string (get (get payload "new") "user_id")) (to_string uuid))
       || (truthy (get payload "old")
           && String.eqb (to_string (get (get payload "old") "user_id")) (to_string uuid))
    then fetchTasks w r
    else (Ok tt, r).
Proof.
  assert (Hfetch : try_catch (fetchTasks w)
                     (fun e => bind (emit (ConsoleWarn "realtime handling error" e))
                                    (fun _ => fetchTasks w)) r
                   = fetchTasks w r).
  { unfold try_catch. destruct (fetchTasks_total w r) as [[] Hf].
    destruct (fetchTasks w r) as [[[]|e] r']; simpl in Hf; [reflexivity | discriminate]. }
  unfold onTasksChange, owned_by.
  destruct (truthy (get payload "new")) eqn:Hn; simpl.
  - rewrite (prop_not_nullish _ _ (truthy_not_nullish _ Hn)). simpl.
    destruct (String.eqb (to_string (get (get payload "new") "user_id")) (to_string uuid));
      simpl; [exact Hfetch|].
    destruct (truthy (get payload "old")) eqn:Ho; simpl; [|reflexivity].
    rewrite (prop_not_nullish _ _ (truthy_not_nullish _ Ho)). simpl.
    destruct (String.eqb _ _); [exact Hfetch | reflexivity].
  - destruct (truthy (get payload "old")) eqn:Ho; simpl; [|reflexivity].
    rewrite (prop_not_nullish _ _ (truthy_not_nullish _ Ho)). simpl.
    destruct (String.eqb _ _); [exact Hfetch | reflexivity].
Qed.

(** [broadcastTasksChanged] always ends normally, after one signal and, if
    sending it failed, a warning. *)
Lemma broadcast_signal (w : World num) (r : Run num (View num)) :
  exists signal rest,
    broadcastTasksChanged w r = (Ok tt, with_trace (signal :: rest) r)
    /\ is_broadcast signal = true.
Proof.
  unfold broadcastTasksChanged, try_catch, call, bind, emit, lift, with_trace.
  destruct (has_BroadcastChannel w); simpl.
  - destruct (broadcast_post w) as [[]|e]; simpl.
    + do 2 eexists. split; reflexivity.
    + do 2 eexists. rewrite <- app_assoc. split; reflexivity.
  - destruct (storage_setItem w) as [[]|e]; simpl.
    + do 2 eexists. split; reflexivity.
    + do 2 eexists. rewrite <- app_assoc. split; reflexivity.
Qed.

(** C2, as the code has it.  [updateStatus] never lets an exception escape.
    When the update call succeeds it sends a cross-tab signal and then runs
    the full list re-fetch, whose outcome is its own.  When the update call
    fails, the error is logged and nothing else happens: no signal is sent and
    the list is not fetched again. *)
Theorem updateStatus_outcome (w : World num) (taskId newStatus : JsVal)
    (r : Run num (View num)) :
  let path := "/tasks/" ++ to_string taskId in
  let body := JObj {[ "status" := newStatus ]} in
  let sent := with_trace [ApiPut path body] r in
  fst (updateStatus w taskId newStatus r) = Ok tt
  /\ (forall x, api_put w path body = Ok x ->
        exists signal rest,
          is_broadcast signal = true
          /\ updateStatus w taskId newStatus r
             = fetchTasks w (with_trace (signal :: rest) sent))
  /\ (forall e, api_put w path body = Throw e ->
        updateStatus w taskId newStatus r
        = (Ok tt, with_trace [ConsoleError "Failed to update task status:" e] sent)).
Proof.
  intros path body sent.
  assert (Hok : forall x, api_put w path body = Ok x ->
            exists signal rest,
              is_broadcast signal = true
              /\ updateStatus w taskId newStatus r
                 = fetchTasks w (with_trace (signal :: rest) sent)).
  { intros x Hput. destruct (broadcast_signal w sent) as (signal & rest & Hb & Hs).
    exists signal, rest. split; [exact Hs|].
    unfold updateStatus, try_catch, bind at 1, call, bind at 1, emit, lift.
    fold path. fold body. rewrite Hput.
    change {| view := view r; trace := trace r ++ [ApiPut path body] |} with sent.
    unfold bind at 1. rewrite Hb.
    destruct (fetchTasks_total w (with_trace (signal :: rest) sent)) as [[] Hf].
    destruct (fetchTasks w (with_trace (signal :: rest) sent)) as [[[]|e] r'];
      simpl in Hf; [reflexivity | discriminate]. }
  assert (Hfail : forall e, api_put w path body = Throw e ->
            updateStatus w taskId newStatus r
            = (Ok tt, with_trace [ConsoleError "Failed to update task status:" e] sent)).
  { intros e Hput.
    unfold updateStatus, try_catch, bind at 1, call, bind at 1, emit, lift.
    fold path. fold body. rewrite Hput. reflexivity. }
  split; [|split; assumption].
  destruct (api_put w path body) as [x|e] eqn:Hput.
  - destruct (Hok x eq_refl) as (signal & rest & _ & ->).
    destruct (fetchTasks_total w (with_trace (signal :: rest) sent)) as [[] Hf].
    exact Hf.
  - rewrite (Hfail e eq_refl). reflexivity.
Qed.
End Store.

End InternTasksStore.

(** ** The list operation of the two views *)

Module TaskList.
Import Js Eff Spec JsFacts.

Section Unresolved.
Context {num : Type} `{JsNumber num}.
#[local] Abbreviation JsVal := (JsVal num).

(** C8.  In either view, when identity resolution returns [null] the list
    operation ends normally with the task list set to the empty list and the
    loading flag cleared; the cached identifier is untouched, and the only
    calls made are the identity queries of the resolution itself: the backend
    task endpoint is not called and no error is logged or shown. *)
Theorem list_unresolved_is_empty (w : World num) (user : JsVal)
    (rt : Run num (InternTasks.View num)) (rh : Run num (InternHome.View num)) :
  (fst (InternTasks.resolveUserId w rt) = Ok JNull ->
   exists extra,
     InternTasks.fetchTasks w rt
     = (Ok tt, {| view := {| InternTasks.tasks := JArr [];
                             InternTasks.loading := false;
                             InternTasks.userIdRef := InternTasks.userIdRef (view rt) |};
                  trace := trace rt ++ extra |})
     /\ forallb is_identity_query extra = true
     /\ existsb is_task_fetch extra = false
     /\ existsb is_error_report extra = false)
  /\ (fst (InternHome.resolveSupabaseUserId w user rh) = Ok JNull ->
      exists extra,
        InternHome.fetchTasks w user rh
        = (Ok tt, {| view := {| InternHome.tasks := JArr [];
                                InternHome.loadingTasks := false;
                                InternHome.copying := InternHome.copying (view rh);
                                InternHome.resolvedSupabaseUserIdRef :=
                                  InternHome.resolvedSupabaseUserIdRef (view rh) |};
                     trace := trace rh ++ extra |})
        /\ forallb is_identity_query extra = true
        /\ existsb is_task_fetch extra = false
        /\ existsb is_error_report extra = false).
Proof.
  split; intros Hnull.
  - destruct (InternTasksStore.tasks_fetch_unresolved w rt Hnull) as (extra & Hf & Hq).
    exists extra. split; [exact Hf|]. split; [exact Hq|].
    apply identity_queries_only, Hq.
  - destruct (InternHomeIdentity.home_fetch_unresolved w user rh Hnull)
      as (extra & Hf & Hq).
    exists extra. split; [exact Hf|]. split; [exact Hq|].
    apply identity_queries_only, Hq.
Qed.
End Unresolved.

End TaskList.

(** ** Meeting transcripts *)

Module Transcript.
Import Js Eff Spec JsFacts InternHome.

Section Exported.
Context {num : Type} `{JsNumber num}.
#[local] Abbreviation JsVal := (JsVal num).
Variable JSON_parse : string -> option JsVal.

(** The line of an entry that encodes a text, unless that text is an empty
    [task] field. *)
Lemma itemLine_text (item : JsVal) (text : string) :
  encoded_text item = Some text ->
  has_empty_task item = false ->
  itemLine item = Ok (" - " ++ text).
Proof.
  unfold itemLine, prop, or_else.
  destruct item as [| | | |s|l|fields]; simpl; try discriminate.
  - intros [= ->] _. reflexivity.
  - destruct (fields !! "task") as [[| | | |s| |]|]; simpl; try discriminate.
    intros [= ->] Hne. rewrite Hne. reflexivity.
Qed.

Lemma itemLines_texts (items : list JsVal) (texts : list string) :
  map encoded_text items = map Some texts ->
  Forall (fun item => has_empty_task item = false) items ->
  map_res itemLine items = Ok (map (fun t => " - " ++ t) texts).
Proof.
  intros Hmap Hne. revert texts Hmap.
  induction Hne as [|item items Hitem _ IH]; intros [|t texts] Hmap;
    simpl in *; try discriminate; [reflexivity|].
  injection Hmap as Ht Hrest.
  rewrite (itemLine_text item t Ht Hitem). simpl.
  rewrite (IH texts Hrest). reflexivity.
Qed.

(** The fallback of [parseItems]: a text that is no JSON is kept as the single
    entry of the list, and exported as it is. *)
Lemma unparsable_items_kept (s : string) :
  s <> "" ->
  JSON_parse s = None ->
  parseItems JSON_parse (JStr s) = JArr [JStr s]
  /\ itemLines (parseItems JSON_parse (JStr s)) = Ok (" - " ++ s).
Proof.
  intros Hs Hparse. unfold parseItems. simpl.
  destruct (String.eqb s "") eqn:E; [apply String.eqb_eq in E; contradiction|].
  simpl. rewrite Hparse. split; [reflexivity|].
  unfold itemLines, itemLine, prop, or_else. simpl. reflexivity.
Qed.

Lemma copyTranscript_writes (w : World num) (meeting : JsVal) (content : string)
    (r : Run num (View num)) :
  truthy meeting = true ->
  transcriptContent JSON_parse meeting = Ok content ->
  exists rest,
    fst (copyTranscript JSON_parse w meeting r) = Ok tt
    /\ trace (snd (copyTranscript JSON_parse w meeting r))
       = (trace r ++ ClipboardWrite content :: rest)%list.
Proof.
  intros Hm Hc. unfold copyTranscript. rewrite Hm. simpl.
  unfold bind at 1, lift. rewrite Hc.
  unfold try_finally, try_catch, call, bind, emit, lift, setCopying, modify. simpl.
  destruct (clipboard_writeText w content) as [[]|e]; simpl;
    eexists; rewrite <- !app_assoc; simpl; split; reflexivity.
Qed.

(** C7, as the code has it.  A meeting whose pending items are a JSON text
    that parses to an array, each entry of which encodes a task text (a string,
    or an object with a string [task]) and none of which is an object with an
    empty [task]: the pending block of the transcript lists exactly the
    encoded texts, in order; and whenever the tasks block can be built, the
    transcript holds that pending block and is what [copyTranscript] writes to
    the clipboard. *)
Theorem pending_items_roundtrip (meeting : JsVal) (s : string)
    (items : list JsVal) (texts : list string) :
  get meeting "pending_tasks" = JStr s ->
  s <> "" ->
  JSON_parse s = Some (JArr items) ->
  map encoded_text items = map Some texts ->
  Forall (fun item => has_empty_task item = false) items ->
  itemLines (parseItems JSON_parse (get meeting "pending_tasks"))
  = Ok (exported_block texts)
  /\ (forall tasksBlock,
        itemLines (parseItems JSON_parse (get meeting "tasks")) = Ok tasksBlock ->
        transcriptContent JSON_parse meeting
        = Ok (transcript_of meeting tasksBlock (exported_block texts))
        /\ (forall w r, exists rest,
               fst (copyTranscript JSON_parse w meeting r) = Ok tt
               /\ trace (snd (copyTranscript JSON_parse w meeting r))
                  = (trace r
                     ++ ClipboardWrite (transcript_of meeting tasksBlock
                                          (exported_block texts)) :: rest)%list)).
Proof.
  intros Hp Hs Hparse Hmap Hne.
  assert (Hblock : itemLines (parseItems JSON_parse (get meeting "pending_tasks"))
                   = Ok (exported_block texts)).
  { rewrite Hp. unfold parseItems. simpl.
    destruct (String.eqb s "") eqn:E; [apply String.eqb_eq in E; contradiction|].
    simpl. rewrite Hparse. unfold itemLines.
    rewrite (itemLines_texts items texts Hmap Hne). reflexivity. }
  split; [exact Hblock|]. intros tasksBlock Htasks.
  assert (Hcontent : transcriptContent JSON_parse meeting
                     = Ok (transcript_of meeting tasksBlock (exported_block texts))).
  { unfold transcriptContent. rewrite Htasks, Hblock. reflexivity. }
  split; [exact Hcontent|]. intros w r.
  apply copyTranscript_writes; [|exact Hcontent].
  destruct meeting; simpl in Hp; try discriminate. reflexivity.
Qed.
End Exported.

End Transcript.

(** ** The properties on concrete inputs *)

Module Scenarios.
Import Js Eff Spec.
#[local] Abbreviation JsVal := (JsVal IntNum.t).

(** C1.  [InternHome]'s list operation does not filter: with the backend
    listing [{id: 1, user_id: "abc-123"}] and [{id: 2, user_id: 99}] and the
    identifier resolved to ["99"], it exposes both rows, the first of which
    belongs to somebody else. *)
Theorem home_list_is_unfiltered :
  InternHome.fetchTasks Sample.world Sample.user42 InternHome.mounted
  = (Ok tt,
     {| view := {| InternHome.tasks := JArr [Sample.row1; Sample.row2];
                   InternHome.loadingTasks := false;
                   InternHome.copying := false;
                   InternHome.resolvedSupabaseUserIdRef := JStr "99" |};
        trace := [AuthGetUser; ApiGet "/tasks"] |})
  /\ InternHome.owned_by (JStr "99") Sample.row1 = false.
Proof. split; vm_compute; reflexivity. Qed.

(** The same backend and identifier in [InternTasks]: only the row of owner
    [99] is exposed. *)
Lemma tasks_list_is_filtered :
  InternTasks.fetchTasks Sample.world InternTasks.mounted
  = (Ok tt,
     {| view := {| InternTasks.tasks := JArr [Sample.row2];
                   InternTasks.loading := false;
                   InternTasks.userIdRef := JStr "99" |};
        trace := [AuthGetUser; ApiGet "/tasks"] |}).
Proof.
  rewrite (InternTasksStore.fetchTasks_filters Sample.world InternTasks.mounted
             (snd (InternTasks.resolveUserId Sample.world InternTasks.mounted))
             (JStr "99")
             (JObj {[ "data" := JArr [Sample.row1; Sample.row2] ]})
             [Sample.row1; Sample.row2]);
    try (vm_compute; reflexivity).
  repeat constructor.
Qed.

(** C2 fails when the update call fails: the rejected call is logged and that
    is all.  No cross-tab signal is sent, the task endpoint is not called, and
    the view is still as it was when mounted. *)
Lemma updateStatus_failure_skips_refresh :
  let out := InternTasks.updateStatus Sample.world_put_fails (Sample.int 7)
               (JStr "Completed") InternTasks.mounted in
  api_put Sample.world_put_fails "/tasks/7" (JObj {[ "status" := JStr "Completed" ]})
  = Throw (Rejected (JStr "Network Error"))
  /\ trace (snd out)
     = [ ApiPut "/tasks/7" (JObj {[ "status" := JStr "Completed" ]});
         ConsoleError "Failed to update task status:" (Rejected (JStr "Network Error")) ]
  /\ view (snd out) = view InternTasks.mounted
  /\ existsb is_broadcast (trace (snd out)) = false
  /\ existsb is_task_fetch (trace (snd out)) = false.
Proof. repeat split; vm_compute; reflexivity. Qed.

(** [updateStatus] with a backend that accepts the update, and with one that
    rejects it. *)
Lemma updateStatus_outcome_witness :
  fst (InternTasks.updateStatus Sample.world (Sample.int 7) (JStr "Completed")
         InternTasks.mounted) = Ok tt
  /\ InternTasks.updateStatus Sample.world_put_fails (Sample.int 7) (JStr "Completed")
       InternTasks.mounted
     = (Ok tt,
        with_trace
          [ ApiPut "/tasks/7" (JObj {[ "status" := JStr "Completed" ]});
            ConsoleError "Failed to update task status:"
              (Rejected (JStr "Network Error")) ]
          InternTasks.mounted).
Proof.
  split.
  - exact (proj1 (InternTasksStore.updateStatus_outcome Sample.world (Sample.int 7)
                    (JStr "Completed") InternTasks.mounted)).
  - rewrite (proj2 (proj2 (InternTasksStore.updateStatus_outcome Sample.world_put_fails
                             (Sample.int 7) (JStr "Completed") InternTasks.mounted))
               (Rejected (JStr "Network Error")) eq_refl).
    vm_compute. reflexivity.
Defined.

(** [{id: 42, supabase_user_id: "nohyphen", auth_user_id: 7, uuid: "a-1",
      user_uuid: "b-2"}] resolves to ["a-1"]: in a fresh view, and after a
    failed fetch and a realtime event. *)
Lemma direct_candidate_resolves_witness :
  let later := InternHome.run_ops Sample.parse
                 [ (Sample.world_signed_out, InternHome.OpFetchTasks Sample.user_mixed);
                   (Sample.world,
                    InternHome.OpTasksChange Sample.user_mixed (JStr "a-1")
                      (Sample.event "INSERT")) ]
                 InternHome.mounted in
  InternHome.resolveSupabaseUserId Sample.world Sample.user_mixed InternHome.mounted
  = (Ok (JStr "a-1"), with_ref (JStr "a-1") InternHome.mounted)
  /\ InternHome.resolveSupabaseUserId Sample.world Sample.user_mixed later
     = (Ok (JStr "a-1"), with_ref (JStr "a-1") later).
Proof.
  split.
  - refine (proj1 (InternHomeIdentity.direct_candidate_resolves Sample.parse Sample.world
                     Sample.user_mixed [] 4 "uuid" "a-1" _ _ _ _ _));
      try reflexivity.
    + intros j f s' Hj Hf Hs'.
      do 4 (destruct j as [|j];
            [injection Hf as <-; vm_compute in Hs'; try discriminate;
             injection Hs' as <-; reflexivity|]).
      lia.
    + constructor.
  - refine (proj1 (InternHomeIdentity.direct_candidate_resolves Sample.parse Sample.world
                     Sample.user_mixed _ 4 "uuid" "a-1" _ _ _ _ _));
      try reflexivity.
    + intros j f s' Hj Hf Hs'.
      do 4 (destruct j as [|j];
            [injection Hf as <-; vm_compute in Hs'; try discriminate;
             injection Hs' as <-; reflexivity|]).
      lia.
    + repeat constructor.
Defined.

(** [{id: 42, uuid: "nohyphen"}] with the employee row
    [{supabase_user_id: "nohyphen", auth_user_id: null, user_uuid: "b-2",
      auth_uuid: "c-3"}], and with the employee row
    [{supabase_user_id: "nohyphen", auth_id: 12}]. *)
Lemma employee_lookup_resolves_witness :
  let asked :=
    with_trace
      [ AuthGetUser;
        EmployeeLookup
          "supabase_user_id,auth_user_id,auth_id,user_uuid,supabase_id,auth_uuid"
          (IntNum.Int 42) ]
      InternHome.mounted in
  InternHome.resolveSupabaseUserId Sample.world_employee_mixed Sample.user42_plain
    InternHome.mounted
  = (Ok (JStr "b-2"), with_ref (JStr "b-2") asked)
  /\ InternHome.resolveSupabaseUserId Sample.world_employee_plain Sample.user42_plain
       InternHome.mounted
     = (Ok JNull, asked).
Proof.
  intros asked. split.
  - refine (proj1 (proj1 (InternHomeIdentity.employee_lookup_resolves
                            Sample.world_employee_mixed Sample.user42_plain
                            InternHome.mounted _ _ _ _ _)
                     (JObj {[ "supabase_user_id" := JStr "nohyphen";
                              "auth_user_id" := JNull;
                              "user_uuid" := JStr "b-2";
                              "auth_uuid" := JStr "c-3" ]}) _)
                  3 "user_uuid" "b-2" _ _ _ _);
      try (vm_compute; reflexivity).
    + intros f s Hf Hs. simpl in Hf.
      repeat (destruct Hf as [<- | Hf];
              [vm_compute in Hs; try discriminate; injection Hs as <-; reflexivity|]).
      destruct Hf.
    + intros j c s' Hj Hc Hs'.
      do 3 (destruct j as [|j];
            [injection Hc as <-; vm_compute in Hs'; try discriminate;
             injection Hs' as <-; reflexivity|]).
      lia.
  - refine (proj2 (proj1 (InternHomeIdentity.employee_lookup_resolves
                            Sample.world_employee_plain Sample.user42_plain
                            InternHome.mounted _ _ _ _ _)
                     (JObj {[ "supabase_user_id" := JStr "nohyphen";
                              "auth_id" := Sample.int 12 ]}) _) _);
      try (vm_compute; reflexivity).
    + intros f s Hf Hs. simpl in Hf.
      repeat (destruct Hf as [<- | Hf];
              [vm_compute in Hs; try discriminate; injection Hs as <-; reflexivity|]).
      destruct Hf.
    + intros c s Hc Hs. simpl in Hc.
      repeat (destruct Hc as [<- | Hc];
              [vm_compute in Hs; try discriminate; injection Hs as <-; reflexivity|]).
      destruct Hc.
Defined.


(** A DELETE of [row2] from a list that does not have it. *)
Lemma delete_event_absent_noop_witness :
  InternHome.onTasksChange Sample.world Sample.user42 (JStr "99") (Sample.event "DELETE")
    (Sample.showing [Sample.row1])
  = (Ok tt, Sample.showing [Sample.row1]).
Proof.
  apply (InternHomeRealtime.delete_event_absent_noop Sample.world Sample.user42
           (JStr "99") (Sample.event "DELETE") [Sample.row1]);
    try (vm_compute; reflexivity).
  - repeat constructor.
  - intros Hex. inversion Hex as [t l Hid|t l Hin]; subst.
    + vm_compute in Hid. discriminate.
    + inversion Hin.
Defined.

(** An UPDATE of [row2] in a list that does not have it. *)
Lemma update_event_absent_noop_witness :
  InternHome.onTasksChange Sample.world Sample.user42 (JStr "99") (Sample.event "UPDATE")
    (Sample.showing [Sample.row1])
  = (Ok tt, Sample.showing [Sample.row1]).
Proof.
  apply (InternHomeRealtime.update_event_absent_noop Sample.world Sample.user42
           (JStr "99") (Sample.event "UPDATE") [Sample.row1]);
    try (vm_compute; reflexivity).
  - repeat constructor.
  - intros Hex. inversion Hex as [t l Hid|t l Hin]; subst.
    + vm_compute in Hid. discriminate.
    + inversion Hin.
Defined.

(** C7 fails on an entry whose [task] is the empty string: the pending items
    [[{"task":""}]] encode the text [""], and the transcript lists
    ["[object Object]"] instead. *)
Lemma empty_task_text_lost :
  let m := Sample.meeting Sample.json_empty_task in
  let items : list JsVal := [JObj {[ "task" := JStr "" ]}] in
  get m "pending_tasks" = JStr Sample.json_empty_task
  /\ Sample.parse Sample.json_empty_task = Some (JArr items)
  /\ map encoded_text items = map Some [""]
  /\ InternHome.itemLines (InternHome.parseItems Sample.parse (get m "pending_tasks"))
     = Ok " - [object Object]"
  /\ InternHome.itemLines (InternHome.parseItems Sample.parse (get m "pending_tasks"))
     <> Ok (exported_block [""]).
Proof.
  repeat split; try (vm_compute; reflexivity).
  vm_compute. discriminate.
Qed.

(** The pending items [["Send report",{"task":"Book room"}]]. *)
Lemma pending_items_roundtrip_witness :
  InternHome.itemLines
    (InternHome.parseItems Sample.parse
       (get (Sample.meeting Sample.json_two_items) "pending_tasks"))
  = Ok (exported_block ["Send report"; "Book room"]).
Proof.
  refine (proj1 (Transcript.pending_items_roundtrip Sample.parse
                   (Sample.meeting Sample.json_two_items) Sample.json_two_items
                   [JStr "Send report"; JObj {[ "task" := JStr "Book room" ]}]
                   ["Send report"; "Book room"] _ _ _ _ _));
    try (vm_compute; reflexivity).
  - vm_compute. discriminate.
  - repeat constructor.
Defined.

(** Both views with nobody signed in. *)
Lemma list_unresolved_is_empty_witness :
  (exists extra,
     InternTasks.fetchTasks Sample.world_signed_out InternTasks.mounted
     = (Ok tt, {| view := {| InternTasks.tasks := JArr [];
                             InternTasks.loading := false;
                             InternTasks.userIdRef := JNull |};
                  trace := extra |})
     /\ existsb is_task_fetch extra = false)
  /\ (exists extra,
        InternHome.fetchTasks Sample.world_signed_out Sample.user42 InternHome.mounted
        = (Ok tt, {| view := {| InternHome.tasks := JArr [];
                                InternHome.loadingTasks := false;
                                InternHome.copying := false;
                                InternHome.resolvedSupabaseUserIdRef := JNull |};
                     trace := extra |})
        /\ existsb is_task_fetch extra = false).
Proof.
  pose proof (TaskList.list_unresolved_is_empty Sample.world_signed_out Sample.user42
                InternTasks.mounted InternHome.mounted) as [Ht Hh].
  split.
  - destruct Ht as (extra & Hf & _ & Hnone & _); [vm_compute; reflexivity|].
    exists extra. split; [exact Hf | exact Hnone].
  - destruct Hh as (extra & Hf & _ & Hnone & _); [vm_compute; reflexivity|].
    exists extra. split; [exact Hf | exact Hnone].
Defined.

End Scenarios.

(** ** More on the task store client of [InternTasks] *)

Module InternTasksRobust.
Import Js Eff Spec JsFacts InternTasks InternTasksStore.

Section Robust.
Context {num : Type} `{JsNumber num}.
#[local] Abbreviation JsVal := (JsVal num).

Lemma array_filter_array (f : JsVal -> Res num bool) (v m : JsVal) :
  array_filter f v = Ok m -> exists l, m = JArr l.
Proof.
  destruct v; simpl; try discriminate.
  destruct (filter_res f items) as [l|e]; simpl; [|discriminate].
  intros [= <-]. exists l. reflexivity.
Qed.

(** A scan for the rows of a user stops with a [TypeError] at the first
    [null] or [undefined] entry. *)
Lemma filter_res_nullish (uuid : JsVal) (l : list JsVal) :
  Exists (fun t => nullish t = true) l ->
  filter_res (owned_by uuid) l = Throw TypeError.
Proof.
  induction l as [|t l IH]; intros Hex; [inversion Hex|].
  simpl. unfold owned_by at 1, prop.
  destruct (nullish t) eqn:Hn; simpl; [reflexivity|].
  rewrite IH; [reflexivity|].
  inversion Hex as [? ? Ht|? ? Hl]; subst; [congruence | exact Hl].
Qed.

(** X1.  Whatever the collaborators answer and whatever the view held, the list
    operation of [InternTasks] ends normally, with the loading flag cleared
    and an array as the task list. *)
Theorem tasks_fetch_settles (w : World num) (r : Run num (View num)) :
  exists l r',
    fetchTasks w r = (Ok tt, r')
    /\ loading (view r') = false
    /\ tasks (view r') = JArr l.
Proof.
  unfold fetchTasks, try_finally, try_catch, bind, setLoading, setTasks, modify, call,
    emit, lift.
  simpl.
  destruct (resolveUserId w _) as [[uuid|e] r1]; simpl;
    [|do 2 eexists; repeat split; reflexivity].
  destruct (truthy uuid); simpl; [|do 2 eexists; repeat split; reflexivity].
  destruct (api_get w "/tasks") as [resp|e]; simpl;
    [|do 2 eexists; repeat split; reflexivity].
  destruct (array_filter _ _) as [mine|e] eqn:Hf; simpl;
    [|do 2 eexists; repeat split; reflexivity].
  destruct (array_filter_array _ _ _ Hf) as [l ->].
  do 2 eexists. repeat split; reflexivity.
Qed.

(** X2.  With the identifier resolved, a request that is rejected, an answer that
    carries no list, and a list with a [null] or [undefined] entry all end the
    same way: the task list is emptied, whatever it held, and the error is
    logged. *)
Theorem tasks_fetch_failure (w : World num) (r r1 : Run num (View num)) (uuid : JsVal) :
  resolveUserId w r = (Ok uuid, r1) ->
  truthy uuid = true ->
  let emptied (e : Exn num) :=
    (Ok tt,
     {| view := {| tasks := JArr []; loading := false;
                   userIdRef := userIdRef (view r1) |};
        trace := trace r1 ++ [ApiGet "/tasks"; ConsoleError "Failed to fetch tasks:" e] |}) in
  (forall e, api_get w "/tasks" = Throw e -> fetchTasks w r = emptied e)
  /\ (forall resp,
        api_get w "/tasks" = Ok resp ->
        let all := or_else (or_else (get (get resp "data") "data") (get resp "data"))
                           (JArr []) in
        (is_array all = false
         \/ exists l, all = JArr l /\ Exists (fun t => nullish t = true) l) ->
        fetchTasks w r = emptied TypeError).
Proof.
  intros Hres Huuid emptied.
  assert (Hrun : forall x : Res num JsVal,
             api_get w "/tasks" = x ->
             fetchTasks w r
             = match x with
               | Ok resp =>
                   match array_filter (owned_by uuid)
                           (or_else (or_else (get (get resp "data") "data")
                                             (get resp "data")) (JArr [])) with
                   | Ok mine =>
                       (Ok tt,
                        {| view := {| tasks := mine; loading := false;
                                      userIdRef := userIdRef (view r1) |};
                           trace := trace r1 ++ [ApiGet "/tasks"] |})
                   | Throw e => emptied e
                   end
               | Throw e => emptied e
               end).
  { intros x Hx. unfold fetchTasks, bind at 1. simpl.
    unfold try_finally, try_catch, bind at 1.
    change {| view := {| tasks := tasks (view r); loading := true;
                         userIdRef := userIdRef (view r) |};
              trace := trace r |} with (snd (setLoading true r)).
    rewrite resolveUserId_frame, Hres. simpl. rewrite Huuid. simpl.
    unfold call, bind, emit, lift, emptied. simpl. rewrite Hx.
    destruct x as [resp|e]; simpl.
    - destruct (array_filter _ _) as [mine|e]; simpl; [reflexivity|].
      rewrite <- app_assoc. reflexivity.
    - rewrite <- app_assoc. reflexivity. }
  split.
  - intros e He. rewrite (Hrun _ He). reflexivity.
  - intros resp Hresp all Hbad. rewrite (Hrun _ Hresp). fold all.
    destruct Hbad as [Hna | (l & Hl & Hex)].
    + destruct all; simpl in *; try reflexivity. discriminate.
    + rewrite Hl. simpl. rewrite (filter_res_nullish uuid l Hex). reflexivity.
Qed.
End Robust.

End InternTasksRobust.

(** ** More on identity resolution and the list operation of [InternHome] *)

Module InternHomeRobust.
Import Js Eff InternHome Spec JsFacts InternHomeIdentity.

Section Robust.
Context {num : Type} `{JsNumber num}.
#[local] Abbreviation JsVal := (JsVal num).

(** Resolution never throws. *)
Lemma resolve_returns (w : World num) (user : JsVal) (r : Run num (View num)) :
  exists v r', resolveSupabaseUserId w user r = (Ok v, r').
Proof.
  rewrite resolve_steps.
  destruct (truthy (resolvedSupabaseUserIdRef (view r))); [do 2 eexists; reflexivity|].
  destruct (truthy user); [|do 2 eexists; reflexivity].
  destruct (List.find hyphenated (directCandidates user)); [do 2 eexists; reflexivity|].
  rewrite sessionUserId_spec.
  destruct (session_id (auth_getUser w)); [do 2 eexists; reflexivity|].
  destruct (employeeUserId_cases w user (with_trace [AuthGetUser] r))
    as [(extra & -> & _) | (id & r' & -> & _)]; do 2 eexists; reflexivity.
Qed.

(** X3.  Resolution never throws.  It returns either [null], and then the view is
    as it was (nothing is cached, so the next call asks again), or a truthy
    identifier, which is then what the cache holds. *)
Theorem resolution_settles (w : World num) (user : JsVal) (r : Run num (View num)) :
  exists v r',
    resolveSupabaseUserId w user r = (Ok v, r')
    /\ ((v = JNull /\ view r' = view r)
        \/ (truthy v = true /\ resolvedSupabaseUserIdRef (view r') = v)).
Proof.
  destruct (resolve_returns w user r) as (v & r' & Hres).
  exists v, r'. split; [exact Hres|].
  destruct v; try (right; apply (resolve_caches w user _ r r' Hres); discriminate).
  left. split; [reflexivity|].
  destruct (resolve_null w user r) as (extra & Hnull & _); [rewrite Hres; reflexivity|].
  rewrite Hnull in Hres. injection Hres as <-. reflexivity.
Qed.

(** X4.  The middle tier.  With nothing cached and no direct candidate, an auth
    session that carries a truthy [user.id] decides: that identifier is
    returned and cached as it is (no hyphen is asked of it), after the session
    query alone; the employee table is not queried. *)
Theorem session_identifier_resolves (w : World num) (user id : JsVal)
    (r : Run num (View num)) :
  truthy (resolvedSupabaseUserIdRef (view r)) = false ->
  truthy user = true ->
  (forall f, In f directCandidateFields -> hyphenated (get user f) = false) ->
  session_id (auth_getUser w) = Some id ->
  resolveSupabaseUserId w user r = (Ok id, with_ref id (with_trace [AuthGetUser] r)).
Proof.
  intros Hcache Huser Hdirect Hsession.
  rewrite resolve_steps, Hcache, Huser, directCandidates_find,
    (find_none _ (fun f => hyphenated (get user f)) _ Hdirect).
  simpl. rewrite sessionUserId_spec, Hsession. reflexivity.
Qed.

(** X5.  What resolution never does.  Without a user record it makes no query at
    all; and when [Number(user.id)] is [NaN] (no [id], or one that is no
    number) it never queries the employee table: after a session query that
    yields nothing it gives up with [null]. *)
Theorem resolution_gives_up (w : World num) (user : JsVal) (r : Run num (View num)) :
  truthy (resolvedSupabaseUserIdRef (view r)) = false ->
  (truthy user = false -> resolveSupabaseUserId w user r = (Ok JNull, r))
  /\ (truthy user = true ->
      (forall f, In f directCandidateFields -> hyphenated (get user f) = false) ->
      session_id (auth_getUser w) = None ->
      num_is_nan (to_number (get user "id")) = true ->
      resolveSupabaseUserId w user r = (Ok JNull, with_trace [AuthGetUser] r)).
Proof.
  intros Hcache. split.
  - intros Huser. rewrite resolve_steps, Hcache, Huser. reflexivity.
  - intros Huser Hdirect Hsession Hnan.
    rewrite resolve_steps, Hcache, Huser, directCandidates_find,
      (find_none _ (fun f => hyphenated (get user f)) _ Hdirect).
    simpl. rewrite sessionUserId_spec, Hsession.
    unfold employeeUserId. rewrite Hnan. reflexivity.
Qed.

(** [fetchTasks] catches whatever goes wrong inside it. *)
Lemma home_fetch_total (w : World num) (user : JsVal) : total (fetchTasks w user).
Proof.
  unfold fetchTasks, setLoadingTasks, setTasks.
  apply total_bind; [apply total_modify|]. intros _.
  apply total_try_finally; [|apply total_modify].
  apply total_try_catch. intros e.
  apply total_bind; [apply total_emit|]. intros _.
  apply total_bind; [apply total_emit|]. intros _. apply total_modify.
Qed.

Lemma home_fetch_ok (w : World num) (user : JsVal) (r : Run num (View num)) :
  fetchTasks w user r = (Ok tt, snd (fetchTasks w user r)).
Proof.
  destruct (home_fetch_total w user r) as [[] Hf].
  destruct (fetchTasks w user r) as [[[]|e] r']; simpl in *; [reflexivity | discriminate].
Qed.

(** X6.  The list operation of [InternHome] always ends normally with the loading
    flag cleared.  With the identifier resolved, a rejected request empties the
    task list, whatever it held, logs the error and shows an error toast. *)
Theorem home_fetch_failure (w : World num) (user : JsVal) (r : Run num (View num)) :
  (exists r', fetchTasks w user r = (Ok tt, r') /\ loadingTasks (view r') = false)
  /\ (forall id r1 e,
        resolveSupabaseUserId w user r = (Ok id, r1) ->
        truthy id = true ->
        api_get w "/tasks" = Throw e ->
        fetchTasks w user r
        = (Ok tt,
           {| view := {| tasks := JArr []; loadingTasks := false;
                         copying := copying (view r1);
                         resolvedSupabaseUserIdRef := resolvedSupabaseUserIdRef (view r1) |};
              trace := trace r1
                       ++ [ ApiGet "/tasks";
                            ConsoleError "Unexpected error fetching tasks:" e;
                            ToastError "Unexpected error fetching tasks" ] |})).
Proof.
  split.
  - exists (snd (fetchTasks w user r)). split; [apply home_fetch_ok|].
    unfold fetchTasks, bind at 1, try_finally, setLoadingTasks, modify. simpl.
    destruct (try_catch _ _ _) as [x r']. reflexivity.
  - intros id r1 e Hres Hid Hget.
    unfold fetchTasks, bind at 1. simpl.
    unfold try_finally, try_catch, bind at 1.
    change {| view := {| tasks := tasks (view r); loadingTasks := true;
                         copying := copying (view r);
                         resolvedSupabaseUserIdRef := resolvedSupabaseUserIdRef (view r) |};
              trace := trace r |} with (with_loading true r).
    rewrite resolve_frame_loading, Hres. simpl. rewrite Hid. simpl.
    unfold call, bind, emit, lift. simpl. rewrite Hget. simpl.
    rewrite <- !app_assoc. reflexivity.
Qed.
End Robust.

End InternHomeRobust.

(** ** More on the realtime callback of [InternHome] *)

Module InternHomeEvents.
Import Js Eff InternHome Spec More JsFacts InternHomeRealtime InternHomeRobust.

Section Events.
Context {num : Type} `{JsNumber num}.
#[local] Abbreviation JsVal := (JsVal num).

Lemma strict_eq_literal (a b : string) :
  strict_eq (num := num) (JStr a) (JStr b) = String.eqb a b.
Proof. reflexivity. Qed.

(** An applied event queues its updater, and on a list of rows the updater is
    the list function [applied_to]. *)
Lemma event_applied (w : World num) (user supaUserId payload : JsVal)
    (l : list JsVal) (r : Run num (View num)) :
  applies supaUserId payload = true ->
  tasks (view r) = JArr l ->
  rows l ->
  onTasksChange w user supaUserId payload r
  = (Ok tt, with_tasks (JArr (applied_to payload l)) r).
Proof.
  unfold applies, applied_to, concerns. intros Happ Hl Hrows.
  destruct (evt payload) as [e|x] eqn:He; [|discriminate].
  destruct (strict_eq e (JStr "INSERT")) eqn:Hi.
  { destruct e; simpl in Hi; try discriminate. apply String.eqb_eq in Hi. subst s.
    simpl in Happ. rewrite orb_false_r in Happ. apply andb_prop in Happ.
    rewrite (onTasksChange_insert w user supaUserId payload r He); try tauto.
    rewrite (setTasksWith_ok _ r _ ltac:(rewrite Hl; apply insertRow_rows; exact Hrows)).
    destruct (existsb _ l); reflexivity. }
  destruct (strict_eq e (JStr "UPDATE")) eqn:Hu.
  { destruct e; simpl in Hu; try discriminate. apply String.eqb_eq in Hu. subst s.
    simpl in Happ. rewrite orb_false_r in Happ. apply andb_prop in Happ.
    rewrite (onTasksChange_update w user supaUserId payload r He); try tauto.
    rewrite (setTasksWith_ok _ r _ ltac:(rewrite Hl; apply updateRow_rows; exact Hrows)).
    reflexivity. }
  simpl in Happ. apply andb_prop in Happ. destruct Happ as [Hd Hc].
  destruct e; simpl in Hd; try discriminate. apply String.eqb_eq in Hd. subst s.
  apply andb_prop in Hc.
  rewrite (onTasksChange_delete w user supaUserId payload r He); try tauto.
  rewrite (setTasksWith_ok _ r _ ltac:(rewrite Hl; apply deleteRow_rows; exact Hrows)).
  reflexivity.
Qed.

Lemma applied_rows (supaUserId payload : JsVal) (l : list JsVal) :
  applies supaUserId payload = true -> rows l -> rows (applied_to payload l).
Proof.
  unfold applies, applied_to, concerns, rows. intros Happ Hrows.
  destruct (evt payload) as [e|x]; [|discriminate].
  destruct (strict_eq e (JStr "INSERT")) eqn:Hi.
  { simpl in Happ. destruct (existsb _ l); [exact Hrows|].
    constructor; [|exact Hrows]. apply truthy_not_nullish.
    destruct (strict_eq e (JStr "DELETE")) eqn:Hd.
    - destruct e; simpl in Hi, Hd; try discriminate.
      apply String.eqb_eq in Hi. subst s. discriminate.
    - rewrite orb_false_r in Happ. apply andb_prop in Happ.
      destruct Happ as [Ht _]. exact Ht. }
  destruct (strict_eq e (JStr "UPDATE")) eqn:Hu.
  { simpl in Happ.
    assert (Ht : truthy (newRow payload) = true).
    { destruct (strict_eq e (JStr "DELETE")) eqn:Hd.
      - destruct e; simpl in Hu, Hd; try discriminate.
        apply String.eqb_eq in Hu. subst s. discriminate.
      - rewrite orb_false_r in Happ. apply andb_prop in Happ. tauto. }
    apply Forall_map. eapply Forall_impl; [exact Hrows|].
    simpl. intros t Hn.
    destruct (strict_eq (get t "id") (get (newRow payload) "id")); [|exact Hn].
    apply truthy_not_nullish, Ht. }
  apply Forall_forall. intros t Hin. apply list_elem_of_In, filter_In in Hin.
  destruct Hin as [Hin _]. apply list_elem_of_In in Hin.
  rewrite Forall_forall in Hrows. apply Hrows, Hin.
Qed.

(** X7.  An event that is not applied to the list held falls back to the list
    operation: an event of another kind, one whose row image is missing, and
    one about a row that belongs to somebody else all re-fetch the full list;
    so does, after a warning, a payload that is [null] or [undefined]. *)
Theorem unapplied_event_refetches (w : World num) (user supaUserId payload : JsVal)
    (r : Run num (View num)) :
  (forall e, evt payload = Ok e ->
             applies supaUserId payload = false ->
             onTasksChange w user supaUserId payload r = fetchTasks w user r)
  /\ (nullish payload = true ->
      onTasksChange w user supaUserId payload r
      = fetchTasks w user
          (with_trace [ConsoleWarn "Realtime payload handling error:" TypeError] r)).
Proof.
  assert (Hafter : forall r0 : Run num (View num),
             bind (bind (fetchTasks w user)
                        (fun _ => ret (A := option (JsVal -> Res num JsVal)) None))
                  (fun queued => match queued with
                                 | Some updater => setTasksWith updater
                                 | None => ret tt
                                 end) r0
             = fetchTasks w user r0).
  { intros r0. unfold bind. rewrite home_fetch_ok. reflexivity. }
  split.
  - intros e He Happ. unfold applies, concerns in Happ. rewrite He in Happ.
    rewrite <- (Hafter r).
    unfold onTasksChange, bind at 1 4, try_catch, bind at 1, lift. rewrite He.
    set (si := strict_eq e (JStr "INSERT")) in *.
    set (su := strict_eq e (JStr "UPDATE")) in *.
    set (sd := strict_eq e (JStr "DELETE")) in *.
    set (tn := truthy (newRow payload)) in *.
    set (new := owned_by supaUserId (newRow payload)) in *.
    set (tl := truthy (oldRow payload)) in *.
    set (old := owned_by supaUserId (oldRow payload)) in *.
    assert (si && tn && new = false /\ su && tn && new = false /\ sd && tl && old = false)
      as (-> & -> & ->)
      by (clearbody si su sd tn new tl old;
          destruct si, su, sd, tn, new, tl, old; simpl in Happ;
          try discriminate; repeat split).
    unfold bind. rewrite home_fetch_ok. reflexivity.
  - intros Hnull. rewrite <- (Hafter (with_trace _ r)).
    unfold onTasksChange, bind at 1 4, try_catch, bind at 1, lift, evt, prop.
    destruct payload; try discriminate; simpl;
      unfold bind, emit, with_trace; simpl; rewrite home_fetch_ok; reflexivity.
Qed.

Lemma applies_kind (supaUserId payload : JsVal) (kind : string) (row : JsVal) :
  evt payload = Ok (JStr kind) ->
  (kind = "INSERT" /\ row = newRow payload
   \/ kind = "UPDATE" /\ row = newRow payload
   \/ kind = "DELETE" /\ row = oldRow payload) ->
  truthy row = true ->
  owned_by supaUserId row = true ->
  applies supaUserId payload = true.
Proof.
  intros He Hkind Ht Ho. unfold applies, concerns. rewrite He.
  destruct Hkind as [[-> ->] | [[-> ->] | [-> ->]]]; simpl; rewrite Ht, Ho;
    simpl; auto using orb_true_r.
Qed.

Lemma with_tasks_same (l : JsVal) (r : Run num (View num)) :
  tasks (view r) = l -> with_tasks l r = r.
Proof. intros <-. destruct r as [[ts ld cp rf] tr]. reflexivity. Qed.

Lemma applied_twice (payload : JsVal) (l : list JsVal) :
  (evt payload = Ok (JStr "INSERT") -> has_id_of (newRow payload) (newRow payload)) ->
  applied_to payload (applied_to payload l) = applied_to payload l.
Proof.
  unfold applied_to, has_id_of. intros Hself.
  destruct (evt payload) as [e|x]; [|reflexivity].
  destruct (strict_eq e (JStr "INSERT")) eqn:Hi.
  { destruct e; simpl in Hi; try discriminate. apply String.eqb_eq in Hi. subst s.
    destruct (existsb _ l) eqn:Hex; [rewrite Hex; reflexivity|].
    simpl. rewrite (Hself eq_refl). reflexivity. }
  destruct (strict_eq e (JStr "UPDATE")).
  - rewrite map_map. apply map_ext. intros t.
    destruct (strict_eq (get t "id") (get (newRow payload) "id")) eqn:Ht.
    + destruct (strict_eq _ _); reflexivity.
    + rewrite Ht. reflexivity.
  - induction l as [|t l IH]; simpl; [reflexivity|].
    destruct (strict_eq (get t "id") (get (oldRow payload) "id")) eqn:Ht; simpl.
    + exact IH.
    + rewrite Ht. simpl. rewrite IH. reflexivity.
Qed.

(** X8.  Delivering an applied event a second time changes nothing: the view after
    the second delivery is the view after the first.  For an INSERT this asks
    that the new row's [id] is [===] to itself, which holds for every string
    and every number but [NaN]. *)
Theorem event_redelivery_harmless (w w' : World num) (user supaUserId payload : JsVal)
    (l : list JsVal) (r : Run num (View num)) :
  applies supaUserId payload = true ->
  tasks (view r) = JArr l ->
  rows l ->
  (evt payload = Ok (JStr "INSERT") -> has_id_of (newRow payload) (newRow payload)) ->
  onTasksChange w' user supaUserId payload
    (snd (onTasksChange w user supaUserId payload r))
  = (Ok tt, snd (onTasksChange w user supaUserId payload r)).
Proof.
  intros Happ Hl Hrows Hself.
  rewrite (event_applied w user supaUserId payload l r Happ Hl Hrows). simpl.
  rewrite (event_applied w' user supaUserId payload (applied_to payload l)
             (with_tasks (JArr (applied_to payload l)) r) Happ eq_refl
             (applied_rows supaUserId payload l Happ Hrows)).
  rewrite (applied_twice payload l Hself). reflexivity.
Qed.

(** X9.  An INSERT of a row that was not in the list, followed by a DELETE of the
    row with that [id], gives back the view as it was before the two events. *)
Theorem insert_then_delete_restores (w w' : World num)
    (user supaUserId inserted deleted : JsVal) (l : list JsVal) (r : Run num (View num)) :
  tasks (view r) = JArr l ->
  rows l ->
  evt inserted = Ok (JStr "INSERT") ->
  truthy (newRow inserted) = true ->
  owned_by supaUserId (newRow inserted) = true ->
  evt deleted = Ok (JStr "DELETE") ->
  truthy (oldRow deleted) = true ->
  owned_by supaUserId (oldRow deleted) = true ->
  get (oldRow deleted) "id" = get (newRow inserted) "id" ->
  has_id_of (newRow inserted) (newRow inserted) ->
  ~ Exists (has_id_of (newRow inserted)) l ->
  onTasksChange w' user supaUserId deleted
    (snd (onTasksChange w user supaUserId inserted r))
  = (Ok tt, r).
Proof.
  intros Hl Hrows Hei Hti Hoi Hed Htd Hod Hid Hself Hnew.
  pose proof (applies_kind supaUserId inserted "INSERT" _ Hei
                (or_introl (conj eq_refl eq_refl)) Hti Hoi) as Hai.
  pose proof (applies_kind supaUserId deleted "DELETE" _ Hed
                (or_intror (or_intror (conj eq_refl eq_refl))) Htd Hod) as Had.
  rewrite (event_applied w user supaUserId inserted l r Hai Hl Hrows). simpl.
  rewrite (event_applied w' user supaUserId deleted (applied_to inserted l)
             (with_tasks (JArr (applied_to inserted l)) r) Had eq_refl
             (applied_rows supaUserId inserted l Hai Hrows)).
  f_equal. unfold applied_to. rewrite Hei, Hed. simpl.
  destruct (existsb _ l) eqn:Hex; [apply existsb_has_id in Hex; contradiction|].
  simpl. rewrite Hid. unfold has_id_of in Hself. rewrite Hself. simpl.
  rewrite filter_all.
  - unfold with_tasks. simpl. destruct r as [[ts ld cp rf] tr]. simpl in *. congruence.
  - eapply Forall_impl; [apply absent_forall; exact Hnew|].
    simpl. intros t ->. reflexivity.
Qed.

Lemma lookup_map (A B : Type) (f : A -> B) (l : list A) (i : nat) :
  map f l !! i = f <$> l !! i.
Proof.
  revert i. induction l as [|a l IH]; intros [|i]; simpl; try reflexivity. apply IH.
Qed.

(** X10.  An UPDATE of a row that is in the list replaces it where it stands: the
    list keeps its length, every row with the [id] of the new row becomes the
    new row, and every other row stays as and where it was. *)
Theorem update_event_replaces (w : World num) (user supaUserId payload : JsVal)
    (l : list JsVal) (r : Run num (View num)) :
  tasks (view r) = JArr l ->
  rows l ->
  evt payload = Ok (JStr "UPDATE") ->
  truthy (newRow payload) = true ->
  owned_by supaUserId (newRow payload) = true ->
  exists l',
    onTasksChange w user supaUserId payload r = (Ok tt, with_tasks (JArr l') r)
    /\ length l' = length l
    /\ (forall i t, l !! i = Some t ->
                    l' !! i = Some (if strict_eq (get t "id") (get (newRow payload) "id")
                                    then newRow payload else t)).
Proof.
  intros Hl Hrows He Ht Ho.
  pose proof (applies_kind supaUserId payload "UPDATE" _ He
                (or_intror (or_introl (conj eq_refl eq_refl))) Ht Ho) as Happ.
  exists (applied_to payload l).
  split; [apply event_applied; assumption|].
  unfold applied_to. rewrite He. simpl. split.
  - apply length_map.
  - intros i t Hi. rewrite lookup_map, Hi. reflexivity.
Qed.

Lemma filter_sublist_of (A : Type) (p : A -> bool) (l : list A) :
  sublist (List.filter p l) l.
Proof.
  induction l as [|a l IH]; simpl; [constructor|].
  destruct (p a); [apply sublist_skip | apply sublist_cons]; exact IH.
Qed.

(** X11.  A DELETE removes every row that has the [id] of the old row and nothing
    else: what is left is the list without those rows, in the same order. *)
Theorem delete_event_removes (w : World num) (user supaUserId payload : JsVal)
    (l : list JsVal) (r : Run num (View num)) :
  tasks (view r) = JArr l ->
  rows l ->
  evt payload = Ok (JStr "DELETE") ->
  truthy (oldRow payload) = true ->
  owned_by supaUserId (oldRow payload) = true ->
  exists l',
    onTasksChange w user supaUserId payload r = (Ok tt, with_tasks (JArr l') r)
    /\ sublist l' l
    /\ Forall (fun t => ~ has_id_of (oldRow payload) t) l'
    /\ (forall t, In t l -> ~ has_id_of (oldRow payload) t -> In t l').
Proof.
  intros Hl Hrows He Ht Ho.
  pose proof (applies_kind supaUserId payload "DELETE" _ He
                (or_intror (or_intror (conj eq_refl eq_refl))) Ht Ho) as Happ.
  exists (applied_to payload l).
  split; [apply event_applied; assumption|].
  unfold applied_to, has_id_of. rewrite He. simpl.
  split; [apply filter_sublist_of|]. split.
  - apply Forall_forall. intros t Hin. apply list_elem_of_In, filter_In in Hin.
    destruct Hin as [_ Hp]. destruct (strict_eq _ _); [discriminate | discriminate].
  - intros t Hin Hno. apply filter_In. split; [exact Hin|].
    destruct (strict_eq _ _); [contradiction Hno; reflexivity | reflexivity].
Qed.

(** *** Lists without two rows of the same [id] *)

Section DistinctIds.
(** [===] on numbers is symmetric and transitive. *)
Hypothesis num_eqb_sym : forall a b : num, num_eqb a b = num_eqb b a.
Hypothesis num_eqb_trans :
  forall a b c : num, num_eqb a b = true -> num_eqb b c = true -> num_eqb a c = true.

Lemma strict_eq_sym (a b : JsVal) : strict_eq a b = strict_eq b a.
Proof.
  destruct a, b; simpl; try reflexivity.
  - destruct b0, b; reflexivity.
  - apply num_eqb_sym.
  - apply String.eqb_sym.
Qed.

Lemma strict_eq_trans (a b c : JsVal) :
  strict_eq a b = true -> strict_eq b c = true -> strict_eq a c = true.
Proof.
  destruct a, b; simpl; try discriminate; destruct c; simpl; try discriminate; auto.
  - destruct b0, b, b1; simpl; auto.
  - apply num_eqb_trans.
  - intros Hab Hbc. apply String.eqb_eq in Hab, Hbc. subst. apply String.eqb_refl.
Qed.

Lemma distinct_filter (p : JsVal -> bool) (l : list JsVal) :
  distinct_ids l -> distinct_ids (List.filter p l).
Proof.
  induction l as [|t l IH]; simpl; [auto|]. intros [Ht Hl].
  destruct (p t); simpl; [|auto]. split; [|auto].
  apply Forall_forall. intros t' Hin. apply list_elem_of_In, filter_In in Hin.
  rewrite Forall_forall in Ht. apply Ht, list_elem_of_In, Hin.
Qed.

Lemma distinct_map_replace (row : JsVal) (l : list JsVal) :
  distinct_ids l ->
  distinct_ids (map (fun t => if strict_eq (get t "id") (get row "id") then row else t) l).
Proof.
  induction l as [|t l IH]; simpl; [auto|]. intros [Ht Hl].
  split; [|auto]. apply Forall_map, Forall_forall. intros t' Hin.
  rewrite Forall_forall in Ht. specialize (Ht t' Hin). simpl.
  destruct (strict_eq (get t' "id") (get row "id")) eqn:E';
    destruct (strict_eq (get t "id") (get row "id")) eqn:E.
  - rewrite (strict_eq_trans _ (get row "id") _ E') in Ht; [discriminate|].
    rewrite strict_eq_sym. exact E.
  - rewrite strict_eq_sym. exact E.
  - exact E'.
  - exact Ht.
Qed.

Lemma distinct_applied (payload : JsVal) (l : list JsVal) :
  distinct_ids l -> distinct_ids (applied_to payload l).
Proof.
  intros Hd. unfold applied_to. destruct (evt payload) as [e|x]; [|exact Hd].
  destruct (strict_eq e (JStr "INSERT")).
  { destruct (existsb _ l) eqn:Hex; [exact Hd|]. simpl. split; [|exact Hd].
    apply Forall_forall. intros t Hin.
    destruct (strict_eq (get t "id") (get (newRow payload) "id")) eqn:E; [|reflexivity].
    assert (Hyes : existsb (fun t0 => strict_eq (get t0 "id") (get (newRow payload) "id")) l
                   = true).
    { apply existsb_exists. exists t. split; [apply list_elem_of_In, Hin | exact E]. }
    congruence. }
  destruct (strict_eq e (JStr "UPDATE")).
  - apply distinct_map_replace, Hd.
  - apply distinct_filter, Hd.
Qed.

(** X12.  A list of rows in which no two rows have the same [id] stays such a list
    under every history of applied realtime events: an INSERT never adds a row
    whose [id] is already there, an UPDATE replaces in place, a DELETE only
    removes. *)
Theorem ids_stay_distinct (JSON_parse : string -> option JsVal)
    (steps : list (World num * Op num)) (l : list JsVal) (r : Run num (View num)) :
  Forall applied_step steps ->
  tasks (view r) = JArr l ->
  rows l ->
  distinct_ids l ->
  exists l',
    tasks (view (run_ops JSON_parse steps r)) = JArr l' /\ rows l' /\ distinct_ids l'.
Proof.
  intros Hsteps. revert l r.
  induction Hsteps as [|[w op] steps Hop _ IH]; intros l r Hl Hrows Hd.
  { exists l. auto. }
  unfold applied_step in Hop. simpl in *.
  destruct op as [| |user supaUserId payload|]; try contradiction.
  simpl. rewrite (event_applied w user supaUserId payload l r Hop Hl Hrows). simpl.
  apply (IH (applied_to payload l)).
  - reflexivity.
  - apply (applied_rows supaUserId); assumption.
  - apply distinct_applied, Hd.
Qed.
End DistinctIds.
End Events.

End InternHomeEvents.

(** ** The view of [InternTasks] as a whole *)

Module InternTasksWhole.
Import Js Eff Spec More JsFacts InternTasks InternTasksView InternTasksStore InternTasksRobust.

Section Whole.
Context {num : Type} `{JsNumber num}.
#[local] Abbreviation JsVal := (JsVal num).

(** X13.  The signal [broadcastTasksChanged] sends is one the listeners of the other
    tabs answer: the message goes to the channel they listen to and carries
    the type their [onmessage] asks for, and the fallback sets the storage key
    their storage listener asks for.  Either way the receiving tab runs its
    list operation. *)
Theorem broadcast_is_heard (w : World num) (r : Run num (View num)) :
  exists signal rest,
    broadcastTasksChanged w r = (Ok tt, with_trace (signal :: rest) r)
    /\ heard signal.
Proof.
  unfold broadcastTasksChanged, try_catch, call, bind, emit, lift, with_trace.
  destruct (has_BroadcastChannel w); simpl.
  - assert (Hheard : heard (BroadcastPost "tasks_channel"
                              (JObj {[ "type" := JStr "tasks_changed";
                                       "ts" := JNum (date_now w) ]}))).
    { split; [reflexivity|]. intros w' r'. reflexivity. }
    destruct (broadcast_post w) as [[]|e]; simpl.
    + do 2 eexists. split; [reflexivity | exact Hheard].
    + do 2 eexists. rewrite <- app_assoc. split; [reflexivity | exact Hheard].
  - assert (Hheard : heard (StorageSet "tasks_channel_ping" (num_to_string (date_now w)))).
    { intros w' r'. reflexivity. }
    destruct (storage_setItem w) as [[]|e]; simpl.
    + do 2 eexists. split; [reflexivity | exact Hheard].
    + do 2 eexists. rewrite <- app_assoc. split; [reflexivity | exact Hheard].
Qed.

(** X14.  The realtime callback of [InternTasks] answers a change in one of two
    ways, and never through its error branch: a change whose new or old row
    belongs to the user, owner and identifier being compared as strings, runs
    the list operation; every other payload, a missing one included, leaves
    the view and the calls made as they were. *)
Theorem tasks_change_outcome (w : World num) (uuid payload : JsVal)
    (r : Run num (View num)) :
  let mine row :=
    truthy row && String.eqb (to_string (get row "user_id")) (to_string uuid) in
  (mine (get payload "new") || mine (get payload "old") = true ->
   onTasksChange w uuid payload r = fetchTasks w r)
  /\ (mine (get payload "new") || mine (get payload "old") = false ->
      onTasksChange w uuid payload r = (Ok tt, r))
  /\ (nullish payload = true -> onTasksChange w uuid payload r = (Ok tt, r)).
Proof.
  intros mine. rewrite tasks_change_refetches. fold (mine (get payload "new")).
  fold (mine (get payload "old")). repeat split.
  - intros ->. reflexivity.
  - intros ->. reflexivity.
  - intros Hnull. destruct payload; try discriminate; reflexivity.
Qed.

(** *** The rows the view shows *)









(** *** The cached identifier *)

Section TasksCache.
Variable v : JsVal.
Hypothesis v_truthy : truthy v = true.





End TasksCache.

End Whole.

End InternTasksWhole.

(** ** More on the transcripts of [InternHome] *)

Module TranscriptMore.
Import Js Eff InternHome Spec More JsFacts.

Section Copy.
Context {num : Type} `{JsNumber num}.
#[local] Abbreviation JsVal := (JsVal num).
Variable JSON_parse : string -> option JsVal.

(** X17.  [parseItems] keeps a literal list as it is, reads a missing or empty
    field as the empty list, and gives a list in every case but one: a text
    that is the JSON of something that is no list (a number, an object) is
    handed on as parsed, and building a block of the transcript from it
    throws. *)
Theorem parseItems_gives_list (arr : JsVal) :
  (forall l, arr = JArr l -> parseItems JSON_parse arr = JArr l)
  /\ (truthy arr = false -> parseItems JSON_parse arr = JArr [])
  /\ ((exists l, parseItems JSON_parse arr = JArr l)
      \/ (exists s v, arr = JStr s /\ JSON_parse s = Some v /\ is_array v = false
                      /\ parseItems JSON_parse arr = v
                      /\ itemLines (parseItems JSON_parse arr) = Throw TypeError)).
Proof.
  split; [intros l ->; reflexivity|].
  split; [intros Hf; unfold parseItems; rewrite Hf; reflexivity|].
  unfold parseItems. destruct (truthy arr) eqn:Ht; simpl; [|left; eexists; reflexivity].
  destruct arr; try (left; eexists; reflexivity).
  destruct (JSON_parse s) as [v|] eqn:Hp; [|left; eexists; reflexivity].
  destruct (is_array v) eqn:Ha.
  - left. destruct v; try discriminate. eexists. reflexivity.
  - right. exists s, v. repeat split; auto. destruct v; try reflexivity. discriminate.
Qed.

(** X18.  [copyTranscript] of a meeting whose transcript can be built never throws
    and always ends with the [copying] flag cleared: the text goes to the
    clipboard and a success toast follows, or, when the clipboard refuses, the
    error is logged and an error toast is shown.  When the transcript cannot be
    built, the exception escapes before anything is written and the view is
    untouched; without a meeting nothing happens at all. *)
Theorem copy_settles (w : World num) (meeting : JsVal) (r : Run num (View num)) :
  (truthy meeting = false -> copyTranscript JSON_parse w meeting r = (Ok tt, r))
  /\ (truthy meeting = true ->
      forall e, transcriptContent JSON_parse meeting = Throw e ->
                copyTranscript JSON_parse w meeting r = (Throw e, r))
  /\ (truthy meeting = true ->
      forall content, transcriptContent JSON_parse meeting = Ok content ->
        copyTranscript JSON_parse w meeting r
        = (Ok tt,
           with_trace
             (ClipboardWrite content
                :: match clipboard_writeText w content with
                   | Ok _ => [ToastSuccess "Copied transcript to clipboard"]
                   | Throw e => [ ConsoleError "Copy failed:" e;
                                  ToastError "Failed to copy transcript" ]
                   end)
             (with_copying false r))).
Proof.
  unfold copyTranscript. split; [intros ->; reflexivity|].
  split; intros ->; simpl.
  - intros e ->. reflexivity.
  - intros content ->. unfold bind at 1, lift.
    unfold try_finally, try_catch, call, bind, emit, lift, setCopying, modify,
      with_trace, with_copying.
    simpl. destruct (clipboard_writeText w content) as [[]|e]; simpl;
      rewrite <- !app_assoc; reflexivity.
Qed.
End Copy.

End TranscriptMore.

(** ** Creating tasks from meetings, and the meetings of the page *)

Module HomePageFacts.
Import Js Eff Spec More JsFacts HomePage InternHomeRobust.

Section Facts.
Context {num : Type} `{JsNumber num}.
#[local] Abbreviation JsVal := (JsVal num).
Variable JSON_stringify : JsVal -> string.
Variable trim : string -> string.

Lemma core_resolve (w : World num) (user : JsVal) (p : Page num) :
  exists v r1,
    InternHome.resolveSupabaseUserId w user (task_view p) = (Ok v, r1)
    /\ core (InternHome.resolveSupabaseUserId w user) p = (Ok v, after_core r1 p)
    /\ (v = JNull \/ truthy v = true).
Proof.
  destruct (resolve_returns w user (task_view p)) as (v & r1 & Hres).
  exists v, r1. split; [exact Hres|]. split.
  - unfold core. fold (task_view p). rewrite Hres. reflexivity.
  - destruct v;
      try (right; apply (InternHomeIdentity.resolve_caches w user _ _ r1 Hres); discriminate).
    left. reflexivity.
Qed.

Lemma core_fetch (w : World num) (user : JsVal) (p : Page num) :
  core (InternHome.fetchTasks w user) p
  = (Ok tt, after_core (snd (InternHome.fetchTasks w user (task_view p))) p).
Proof.
  unfold core. fold (task_view p). rewrite home_fetch_ok. reflexivity.
Qed.

(** The run of [createTaskFromMeetingPending] on an item whose text passes
    the check, step by step. *)
Lemma create_task_run (sv : Services num) (user meetingId pendingItem id : JsVal)
    (p : Page num) (r1 : Run num (InternHome.View num)) :
  let text := taskText JSON_stringify pendingItem in
  let finish := with_processing
                  (<[to_string meetingId := JBool false]> (pendingProcessingMap p)) JNull in
  let resolved := after_core r1 p in
  invalidText trim text = Ok false ->
  InternHome.resolveSupabaseUserId (world sv) user (task_view p) = (Ok id, r1) ->
  createTaskFromMeetingPending JSON_stringify trim sv user meetingId pendingItem p
  = (Ok tt,
     finish
       (if negb (truthy id)
        then record [Core (ToastError "Cannot create task: supabase user id not resolved.")]
               resolved
        else match api_post sv "/tasks" (task_payload id text) with
             | Ok _ =>
                 after_core
                   (snd (InternHome.fetchTasks (world sv) user {| view := view r1; trace := [] |}))
                   (record [ ApiPost "/tasks" (task_payload id text);
                             Core (ToastSuccess "Task created from meeting pending") ]
                      resolved)
             | Throw e =>
                 record [ ApiPost "/tasks" (task_payload id text);
                          Core (ConsoleError "Create task error:" e);
                          Core (ToastError "Failed to create task") ]
                   resolved
             end)).
Proof.
  intros text finish resolved Hvalid Hres.
  unfold createTaskFromMeetingPending. fold text.
  unfold pbind at 1, plift. rewrite Hvalid.
  unfold pbind at 1, setPendingProcessingMap, pmodify.
  unfold pbind at 1, setCreatingTaskId, pmodify.
  unfold ptry_finally, ptry_catch, pbind at 1.
  unfold core at 1. simpl. fold (task_view p). rewrite Hres.
  unfold finish, resolved, with_processing, after_core, record, set_home, task_payload.
  destruct (truthy id); simpl.
  - unfold pcall, pbind, pemit, pmodify, plift, record. simpl.
    destruct (api_post sv "/tasks" _) as [x|e]; simpl.
    + unfold core. simpl. rewrite home_fetch_ok. simpl.
      rewrite insert_insert_eq, <- !app_assoc. reflexivity.
    + rewrite insert_insert_eq, <- !app_assoc. reflexivity.
  - unfold pbind, pemit, pmodify, record. simpl.
    rewrite insert_insert_eq. reflexivity.
Qed.

(** X19.  However the creation of a task from a pending item goes (no identifier,
    a rejected request, a failing re-fetch), once the item's text has passed
    the check the operation ends normally, the meeting's entry in
    [pendingProcessingMap] is [false] and [creatingTaskId] is [null] again;
    the meetings, the expanded card and the reviewed marks are untouched. *)
Theorem create_task_settles (sv : Services num) (user meetingId pendingItem : JsVal)
    (p : Page num) :
  invalidText trim (taskText JSON_stringify pendingItem) = Ok false ->
  exists p',
    createTaskFromMeetingPending JSON_stringify trim sv user meetingId pendingItem p
    = (Ok tt, p')
    /\ pendingProcessingMap p' !! to_string meetingId = Some (JBool false)
    /\ creatingTaskId p' = JNull
    /\ meetingSummaries p' = meetingSummaries p
    /\ expandedMeetingId p' = expandedMeetingId p
    /\ reviewedMeetings p' = reviewedMeetings p.
Proof.
  intros Hvalid.
  destruct (core_resolve (world sv) user p) as (id & r1 & Hres & _ & _).
  rewrite (create_task_run sv user meetingId pendingItem id p r1 Hvalid Hres).
  eexists. split; [reflexivity|]. simpl. split; [apply lookup_insert_eq|].
  split; [reflexivity|].
  destruct (truthy id); simpl; [|auto].
  destruct (api_post sv "/tasks" _); simpl; auto.
Qed.

(** X20.  What the creation of a task from a pending item sends.  Without an
    identifier nothing is posted: an error toast is all.  With one, a single
    request creates a task assigned to the identifier, titled and described by
    the item's text, with status ["Pending"] and no due date; when it is
    accepted a success toast and the list operation follow, and when it is
    rejected the error is logged, an error toast is shown and the list is not
    fetched again. *)
Theorem create_task_outcomes (sv : Services num) (user meetingId pendingItem id : JsVal)
    (p : Page num) (r1 : Run num (InternHome.View num)) :
  let text := taskText JSON_stringify pendingItem in
  let out := snd (createTaskFromMeetingPending JSON_stringify trim sv user meetingId
                    pendingItem p) in
  let resolving := map Core (trace r1) in
  invalidText trim text = Ok false ->
  InternHome.resolveSupabaseUserId (world sv) user (task_view p) = (Ok id, r1) ->
  (truthy id = false ->
   journal out
   = (journal p ++ resolving
     ++ [Core (ToastError "Cannot create task: supabase user id not resolved.")])%list
   /\ home out = view r1)
  /\ (truthy id = true ->
      forall x, api_post sv "/tasks" (task_payload id text) = Ok x ->
      let fetched := snd (InternHome.fetchTasks (world sv) user
                            {| view := view r1; trace := [] |}) in
      journal out
      = (journal p ++ resolving
        ++ [ ApiPost "/tasks" (task_payload id text);
             Core (ToastSuccess "Task created from meeting pending") ]
        ++ map Core (trace fetched))%list
      /\ home out = view fetched)
  /\ (truthy id = true ->
      forall e, api_post sv "/tasks" (task_payload id text) = Throw e ->
      journal out
      = (journal p ++ resolving
        ++ [ ApiPost "/tasks" (task_payload id text);
             Core (ConsoleError "Create task error:" e);
             Core (ToastError "Failed to create task") ])%list
      /\ home out = view r1).
Proof.
  intros text out resolving Hvalid Hres. unfold out.
  rewrite (create_task_run sv user meetingId pendingItem id p r1 Hvalid Hres).
  fold text. simpl. repeat split.
  - rewrite H0. simpl. unfold resolving. rewrite <- app_assoc. reflexivity.
  - rewrite H0. reflexivity.
  - rewrite H0, H1. simpl. unfold resolving. rewrite <- !app_assoc. reflexivity.
  - rewrite H0, H1. reflexivity.
  - rewrite H0, H1. simpl. unfold resolving. rewrite <- !app_assoc. reflexivity.
  - rewrite H0, H1. reflexivity.
Qed.

(** X21.  An item that cannot be made into a task creates nothing.  A blank text,
    and a missing item ([undefined], [false], a falsy number), are refused
    with a toast: no identifier is resolved, nothing is posted and no flag is
    raised.  An object whose [task] is there but is no string (a number, a
    list) makes the check itself throw: the [TypeError] escapes the
    operation, before anything else happens. *)
Theorem unusable_item_creates_nothing (sv : Services num) (user meetingId item : JsVal)
    (p : Page num) :
  let create := createTaskFromMeetingPending JSON_stringify trim sv user meetingId in
  let refused := (Ok tt, record [Core (ToastError "Invalid pending item")] p) in
  (forall s, (s = "" \/ trim s = "") -> create (JStr s) p = refused)
  /\ (is_string item = false -> is_object_type item = false -> truthy item = false ->
      create item p = refused)
  /\ (is_string item = false -> truthy (get item "task") = true ->
      is_string (get item "task") = false ->
      create item p = (Throw TypeError, p)).
Proof.
  intros create refused. unfold create, refused, createTaskFromMeetingPending.
  split; [|split].
  - intros s Hs. unfold pbind, plift, invalidText, taskText. simpl.
    destruct Hs as [-> | Hs]; [reflexivity|].
    destruct (String.eqb s ""); simpl; [reflexivity|]. rewrite Hs. reflexivity.
  - intros Hstr Hobj Hfalsy. unfold pbind, plift, invalidText, taskText.
    destruct item; try discriminate; simpl in *; unfold or_else; simpl;
      rewrite ?Hfalsy; reflexivity.
  - intros Hstr Ht Hs. unfold pbind, plift, invalidText, taskText.
    destruct item; try discriminate; simpl in *; try discriminate.
    unfold or_else. rewrite Ht. simpl. rewrite Ht. simpl.
    destruct (default JUndefined (fields !! "task")); try discriminate; reflexivity.
Qed.

(** X22.  The text of the task created from an item is the text the transcript
    lists for it: for an item that is a non-empty string, or an object whose
    [task] is one, the text sent as title and description is that string, and
    the item's line of the transcript is [" - "] followed by it. *)
Theorem created_text_is_listed_text (item : JsVal) (t : string) :
  encoded_text item = Some t ->
  t <> "" ->
  taskText JSON_stringify item = JStr t
  /\ InternHome.itemLine item = Ok (" - " ++ t).
Proof.
  intros Henc Ht.
  assert (Htruthy : truthy (JStr (num := num) t) = true).
  { simpl. destruct (String.eqb_spec t ""); [contradiction|reflexivity]. }
  destruct item; try discriminate; simpl in Henc.
  - injection Henc as ->. split; [reflexivity|].
    unfold InternHome.itemLine, prop. simpl. reflexivity.
  - destruct (fields !! "task") as [[]|] eqn:Hf; try discriminate.
    injection Henc as ->.
    unfold taskText, InternHome.itemLine, prop, get, or_else. rewrite Hf. simpl.
    simpl in Htruthy. rewrite Htruthy. split; reflexivity.
Qed.

(** X23.  [fetchMeetingSummaries] never throws and ends with the loading flag
    cleared; it asks the backend once and touches neither the task view nor
    the marks of the cards.  A rejected request leaves an empty list, a logged
    error and an error toast.  An accepted one stores [resp.data.data], else
    [resp.data], else an empty list. *)
Theorem meetings_fetch_settles (sv : Services num) (p : Page num) :
  fetchMeetingSummaries sv p
  = (Ok tt,
     match api_get (world sv) "/meeting-summary" with
     | Ok resp =>
         with_meetings
           (or_else (or_else (get (get resp "data") "data") (get resp "data")) (JArr []))
           false (record [Core (ApiGet "/meeting-summary")] p)
     | Throw e =>
         with_meetings (JArr []) false
           (record [ Core (ApiGet "/meeting-summary");
                     Core (ConsoleError "Failed to fetch meeting summaries:" e);
                     Core (ToastError "Failed to fetch meeting summaries") ] p)
     end)
  /\ loadingMeetings (snd (fetchMeetingSummaries sv p)) = false
  /\ home (snd (fetchMeetingSummaries sv p)) = home p
  /\ reviewedMeetings (snd (fetchMeetingSummaries sv p)) = reviewedMeetings p
  /\ pendingProcessingMap (snd (fetchMeetingSummaries sv p)) = pendingProcessingMap p.
Proof.
  assert (Hrun : fetchMeetingSummaries sv p
    = (Ok tt,
       match api_get (world sv) "/meeting-summary" with
       | Ok resp =>
           with_meetings
             (or_else (or_else (get (get resp "data") "data") (get resp "data")) (JArr []))
             false (record [Core (ApiGet "/meeting-summary")] p)
       | Throw e =>
           with_meetings (JArr []) false
             (record [ Core (ApiGet "/meeting-summary");
                       Core (ConsoleError "Failed to fetch meeting summaries:" e);
                       Core (ToastError "Failed to fetch meeting summaries") ] p)
       end)).
  { unfold fetchMeetingSummaries, ptry_finally, ptry_catch, pcall, pbind, pemit, plift,
      setLoadingMeetings, setMeetingSummaries, pmodify, with_meetings, record.
    simpl. destruct (api_get (world sv) "/meeting-summary") as [resp|e]; simpl;
      rewrite <- ?app_assoc; reflexivity. }
  split; [exact Hrun|]. rewrite Hrun. simpl.
  destruct (api_get (world sv) "/meeting-summary"); repeat split.
Qed.
End Facts.

Section Lists.
Context {num : Type} `{JsNumber num}.
#[local] Abbreviation JsVal := (JsVal num).
Variable trim : string -> string.
Variable toLowerCase : string -> string.

Lemma has_status_row (names : list string) (t : JsVal) :
  has_status names t
  = if nullish t then Throw TypeError
    else Ok (existsb (fun name => strict_eq (get t "status") (JStr name)) names).
Proof. unfold has_status, prop. destruct (nullish t); reflexivity. Qed.

(** A status filter keeps the rows whose status is one of the names, and
    throws on a list holding [null] or [undefined]. *)
Lemma status_filter (names : list string) (l : list JsVal) :
  filter_res (has_status names) l
  = if forallb (fun t => negb (nullish t)) l
    then Ok (List.filter
               (fun t => existsb (fun name => strict_eq (get t "status") (JStr name)) names) l)
    else Throw TypeError.
Proof.
  induction l as [|t l IH]; [reflexivity|].
  simpl. rewrite has_status_row. destruct (nullish t); [reflexivity|].
  simpl. rewrite IH. destruct (forallb _ l); reflexivity.
Qed.

Lemma forallb_filter_kept {A} (f g : A -> bool) (l : list A) :
  forallb f l = true -> forallb f (List.filter g l) = true.
Proof.
  induction l as [|x l IH]; [reflexivity|]. simpl.
  intros [Hx Hl]%andb_true_iff. destruct (g x); simpl; [rewrite Hx|]; auto.
Qed.

Lemma filter_filter_sub {A} (f g : A -> bool) (l : list A) :
  (forall x, g x = true -> f x = true) ->
  List.filter g (List.filter f l) = List.filter g l.
Proof.
  intros Hsub. induction l as [|x l IH]; [reflexivity|]. simpl.
  destruct (f x) eqn:Hf; simpl.
  - rewrite IH. reflexivity.
  - destruct (g x) eqn:Hg; [|exact IH]. rewrite (Hsub x Hg) in Hf. discriminate.
Qed.

Lemma filter_filter_none {A} (f g : A -> bool) (l : list A) :
  (forall x, f x = true -> g x = false) ->
  List.filter g (List.filter f l) = [].
Proof.
  intros Hex. induction l as [|x l IH]; [reflexivity|]. simpl.
  destruct (f x) eqn:Hf; simpl; [rewrite (Hex x Hf)|]; exact IH.
Qed.

(** X24.  The sections of the task lists overlap in one way only: the pending
    tasks are those of today's tasks that are pending, so a pending task is
    shown in both sections, and none of today's tasks is a completed one.
    This holds whatever the filtered list is: where one section cannot be
    computed, neither can the other. *)
Theorem pending_tasks_are_todays (filtered : JsVal) :
  res_bind (todayTasks filtered) pendingTasks = pendingTasks (num := num) filtered
  /\ res_bind (todayTasks filtered) completedTasks
     = res_bind (todayTasks (num := num) filtered) (fun _ => Ok (JArr [])).
Proof.
  unfold todayTasks, pendingTasks, completedTasks, array_filter.
  destruct filtered as [| | | | |l|]; try (split; reflexivity).
  rewrite !status_filter.
  destruct (forallb (fun t => negb (nullish t)) l) eqn:Hrows; [|split; reflexivity].
  simpl. rewrite !status_filter, (forallb_filter_kept _ _ l Hrows). simpl. split.
  - rewrite filter_filter_sub; [reflexivity|].
    intros t Ht. rewrite orb_false_r in Ht. rewrite Ht. apply orb_true_r.
  - rewrite filter_filter_none; [reflexivity|].
    intros t Ht. rewrite orb_false_r in Ht |- *.
    destruct (get t "status"); try discriminate. simpl in *.
    destruct (String.eqb_spec s "Completed") as [->|]; [discriminate|reflexivity].
Qed.

Lemma filter_res_all {A} (f : A -> Res num bool) (l : list A) :
  (forall x, f x = Ok true) -> filter_res f l = Ok l.
Proof.
  intros Hf. induction l as [|x l IH]; [reflexivity|].
  simpl. rewrite Hf, IH. reflexivity.
Qed.

(** X25.  With a search text that is blank once trimmed, every task and every
    meeting is listed, in order, whatever the rows are: no row is looked
    into. *)
Theorem blank_search_lists_all (debouncedSearch : string) (l : list JsVal) :
  toLowerCase (trim debouncedSearch) = "" ->
  filteredTasks trim toLowerCase debouncedSearch (JArr l) = Ok (JArr l)
  /\ filteredMeetings trim toLowerCase debouncedSearch (JArr l) = Ok (JArr l).
Proof.
  intros Hq. unfold filteredTasks, filteredMeetings, normalizedTaskSearch,
    meetingMatches, array_filter.
  rewrite !filter_res_all; [split; reflexivity| |];
    intros t; unfold matches; rewrite Hq; reflexivity.
Qed.

(** X26.  The answer of the meeting endpoint is stored unchecked.  When its
    [data] is there but is no list and wraps no [data] of its own (an error
    object, say), that value becomes the list of meetings, and filtering the
    meetings then fails with a [TypeError], whatever the search text. *)
Theorem meetings_answer_unchecked (sv : Services num) (p : Page num) (resp : JsVal) :
  api_get (world sv) "/meeting-summary" = Ok resp ->
  truthy (get resp "data") = true ->
  is_array (get resp "data") = false ->
  truthy (get (get resp "data") "data") = false ->
  meetingSummaries (snd (fetchMeetingSummaries sv p)) = get resp "data"
  /\ forall debouncedSearch,
       filteredMeetings trim toLowerCase debouncedSearch
         (meetingSummaries (snd (fetchMeetingSummaries sv p)))
       = Throw TypeError.
Proof.
  intros Hget Hdata Hlist Hinner.
  assert (Hstored : meetingSummaries (snd (fetchMeetingSummaries sv p)) = get resp "data").
  { unfold fetchMeetingSummaries, ptry_finally, ptry_catch, pcall, pbind, pemit, plift,
      setLoadingMeetings, setMeetingSummaries, pmodify, record.
    simpl. rewrite Hget. simpl. unfold or_else. rewrite Hinner, Hdata. reflexivity. }
  split; [exact Hstored|]. intros q. rewrite Hstored.
  unfold filteredMeetings, array_filter.
  destruct (get resp "data"); try discriminate; reflexivity.
Qed.

Lemma matches_throws (first second q : string) (t : JsVal) (e : Exn num) :
  matches trim toLowerCase first second q t = Throw e -> e = TypeError.
Proof.
  unfold matches, prop, lowered.
  destruct (negb (truthy (JStr (toLowerCase (trim q))))); [discriminate|].
  destruct (nullish t); simpl; [congruence|].
  destruct (or_else (get t first) (JStr "")); simpl; try congruence;
    destruct (or_else (get t second) (JStr "")); simpl; congruence.
Qed.

Lemma filter_res_throws {A} (f : A -> Res num bool) (l : list A) (x : A) :
  (forall y e, f y = Throw e -> e = TypeError) ->
  In x l -> f x = Throw TypeError -> filter_res f l = Throw TypeError.
Proof.
  intros Hexn Hin Hx. induction l as [|y l IH]; [destruct Hin|].
  simpl. destruct (f y) as [keep|e] eqn:Hy; simpl.
  - destruct Hin as [->|Hin]; [congruence|]. rewrite (IH Hin). reflexivity.
  - rewrite (Hexn y e Hy). reflexivity.
Qed.

(** X27.  With a search text that is not blank, one row whose title is there but
    is no string (a number, a list) is enough for the whole task list to fail
    with a [TypeError]; the same goes for a row that is [null]. *)
Theorem search_fails_on_odd_row (debouncedSearch : string) (l : list JsVal) (t : JsVal) :
  toLowerCase (trim debouncedSearch) <> "" ->
  In t l ->
  nullish t = true
  \/ (truthy (get t "title") = true /\ is_string (get t "title") = false) ->
  filteredTasks trim toLowerCase debouncedSearch (JArr l) = Throw TypeError.
Proof.
  intros Hq Hin Hodd. unfold filteredTasks, array_filter.
  rewrite (filter_res_throws _ l t); [reflexivity| |exact Hin|].
  - intros y e. apply matches_throws.
  - unfold normalizedTaskSearch, matches, prop, lowered, or_else. simpl.
    destruct (String.eqb_spec (toLowerCase (trim debouncedSearch)) "");
      [contradiction|]. simpl.
    destruct Hodd as [-> | [Ht Hs]]; [reflexivity|].
    destruct (nullish t); [reflexivity|]. simpl. rewrite Ht.
    destruct (get t "title"); try discriminate; reflexivity.
Qed.

End Lists.

Section Greeting.
Context {num : Type} `{JsNumber num}.
#[local] Abbreviation JsVal := (JsVal num).

Lemma before_space_clean (s : string) (c : ascii) :
  In c (list_ascii_of_string (before_space s)) -> c <> " "%char.
Proof.
  induction s as [|a s IH]; simpl; [tauto|].
  destruct (Ascii.eqb_spec a " "); simpl; [tauto|].
  intros [<- | Hin]; auto.
Qed.

(** X28.  The name of the greeting is never empty and holds no space: it is the
    first word of the user's name, and ["Intern"] when there is no user, no
    name, or a name that is empty or starts with a space. *)
Theorem greeting_name_is_a_word (user : JsVal) (name : string) :
  greetingName user = Ok name ->
  name <> ""
  /\ (forall c, In c (list_ascii_of_string name) -> c <> " "%char)
  /\ (name = "Intern" \/ exists s, get user "name" = JStr s /\ name = before_space s).
Proof.
  unfold greetingName. destruct (nullish (get user "name")).
  - intros [= <-]. split; [discriminate|]. split; [|left; reflexivity].
    simpl. intros c Hc Heq. subst c. intuition discriminate.
  - destruct (get user "name") as [| | | |s| |]; try discriminate.
    destruct (String.eqb_spec (before_space s) "") as [Hb|Hb]; intros [= <-].
    + split; [discriminate|]. split; [|left; reflexivity].
      simpl. intros c Hc Heq. subst c. intuition discriminate.
    + split; [exact Hb|]. split; [apply before_space_clean|].
      right. exists s. split; reflexivity.
Qed.
End Greeting.

Section Cards.
Context {num : Type} `{JsNumber num}.
#[local] Abbreviation JsVal := (JsVal num).
Variable JSON_parse : string -> option JsVal.

(** X29.  A meeting card and the transcript read a field of items alike when the
    field is a list, is missing, or is a non-empty text.  They differ on the
    empty text, which is no JSON: the card lists one empty item where the
    transcript lists none; and on a bare value that is no list (an object, a
    number), which the transcript wraps in a list and the card takes as it
    is. *)
Theorem card_and_transcript_items (field : JsVal) :
  (is_string field = false -> truthy field = false \/ is_array field = true ->
   cardItems JSON_parse field = InternHome.parseItems JSON_parse field)
  /\ (forall s, field = JStr s -> s <> "" ->
      cardItems JSON_parse field = InternHome.parseItems JSON_parse field)
  /\ (JSON_parse "" = None ->
      cardItems JSON_parse (JStr "") = JArr [JStr ""]
      /\ InternHome.parseItems JSON_parse (JStr "") = JArr [])
  /\ (is_string field = false -> truthy field = true -> is_array field = false ->
      cardItems JSON_parse field = field
      /\ InternHome.parseItems JSON_parse field = JArr [field]).
Proof.
  unfold cardItems, InternHome.parseItems, or_else. repeat split.
  - intros Hs [Hf | Ha].
    + rewrite Hf. destruct field; try discriminate; reflexivity.
    + destruct field; try discriminate. reflexivity.
  - intros s -> Hs. simpl. destruct (String.eqb_spec s ""); [contradiction|]. reflexivity.
  - rewrite H0. reflexivity.
  - destruct field; try discriminate; rewrite ?H1; reflexivity.
  - rewrite H1. destruct field; try discriminate; reflexivity.
Qed.
End Cards.

End HomePageFacts.

(** ** Further scenarios *)

Module MoreScenarios.
Import Js Eff Spec More.
#[local] Abbreviation JsVal := (JsVal IntNum.t).

Lemma int_eqb_sym (a b : IntNum.t) : num_eqb a b = num_eqb b a.
Proof. destruct a, b; simpl; try reflexivity. apply Z.eqb_sym. Qed.

Lemma int_eqb_trans (a b c : IntNum.t) :
  num_eqb a b = true -> num_eqb b c = true -> num_eqb a c = true.
Proof.
  destruct a, b, c; simpl; try discriminate.
  intros Hab%Z.eqb_eq Hbc%Z.eqb_eq. apply Z.eqb_eq. congruence.
Qed.

(** [InternTasks] with the session of user ["99"] and a backend whose list
    call fails. *)
Lemma tasks_fetch_failure_witness :
  InternTasks.fetchTasks MoreSample.world_get_fails InternTasks.mounted
  = (Ok tt,
     {| view := {| InternTasks.tasks := JArr []; InternTasks.loading := false;
                   InternTasks.userIdRef := JStr "99" |};
        trace := [ AuthGetUser; ApiGet "/tasks";
                   ConsoleError "Failed to fetch tasks:" (Rejected (JStr "Network Error")) ] |}).
Proof.
  refine (proj1 (InternTasksRobust.tasks_fetch_failure MoreSample.world_get_fails
                   InternTasks.mounted
                   (snd (InternTasks.resolveUserId MoreSample.world_get_fails
                           InternTasks.mounted))
                   (JStr "99") _ _)
            (Rejected (JStr "Network Error")) _);
    vm_compute; reflexivity.
Defined.

(** [InternHome] with the session of user ["99"] and a backend whose list
    call fails. *)
Lemma home_fetch_failure_witness :
  InternHome.fetchTasks MoreSample.world_get_fails Sample.user42 InternHome.mounted
  = (Ok tt,
     {| view := {| InternHome.tasks := JArr []; InternHome.loadingTasks := false;
                   InternHome.copying := false;
                   InternHome.resolvedSupabaseUserIdRef := JStr "99" |};
        trace := [ AuthGetUser; ApiGet "/tasks";
                   ConsoleError "Unexpected error fetching tasks:"
                     (Rejected (JStr "Network Error"));
                   ToastError "Unexpected error fetching tasks" ] |}).
Proof.
  refine (proj2 (InternHomeRobust.home_fetch_failure MoreSample.world_get_fails
                   Sample.user42 InternHome.mounted)
            (JStr "99")
            (snd (InternHome.resolveSupabaseUserId MoreSample.world_get_fails Sample.user42
                    InternHome.mounted))
            (Rejected (JStr "Network Error")) _ _ _);
    vm_compute; reflexivity.
Defined.

(** An INSERT of [row1], which belongs to somebody else, and a missing
    payload, both met by the view of user ["99"]. *)
Lemma unapplied_event_refetches_witness :
  let foreign := JObj {[ "eventType" := JStr "INSERT"; "new" := Sample.row1 ]} in
  InternHome.onTasksChange Sample.world Sample.user42 (JStr "99") foreign
    (Sample.showing [Sample.row2])
  = InternHome.fetchTasks Sample.world Sample.user42 (Sample.showing [Sample.row2])
  /\ InternHome.onTasksChange Sample.world Sample.user42 (JStr "99") JNull
       (Sample.showing [Sample.row2])
     = InternHome.fetchTasks Sample.world Sample.user42
         (with_trace [ConsoleWarn "Realtime payload handling error:" TypeError]
            (Sample.showing [Sample.row2])).
Proof.
  intros foreign. split.
  - apply (proj1 (InternHomeEvents.unapplied_event_refetches Sample.world Sample.user42
                    (JStr "99") foreign (Sample.showing [Sample.row2]))
             (JStr "INSERT"));
      vm_compute; reflexivity.
  - apply (proj2 (InternHomeEvents.unapplied_event_refetches Sample.world Sample.user42
                    (JStr "99") JNull (Sample.showing [Sample.row2]))).
    reflexivity.
Defined.

(** A change of [row1], which belongs to somebody else, and a change of
    [row2], both met by the [InternTasks] view of user ["99"]. *)
Lemma tasks_change_outcome_witness :
  let r := snd (InternTasks.fetchTasks Sample.world InternTasks.mounted) in
  InternTasks.onTasksChange Sample.world (JStr "99") (JObj {[ "new" := Sample.row1 ]}) r
  = (Ok tt, r)
  /\ InternTasks.onTasksChange Sample.world (JStr "99") (Sample.event "UPDATE") r
     = InternTasks.fetchTasks Sample.world r.
Proof.
  intros r. split.
  - apply (proj1 (proj2 (InternTasksWhole.tasks_change_outcome Sample.world (JStr "99")
                           (JObj {[ "new" := Sample.row1 ]}) r))).
    vm_compute. reflexivity.
  - apply (proj1 (InternTasksWhole.tasks_change_outcome Sample.world (JStr "99")
                    (Sample.event "UPDATE") r)).
    vm_compute. reflexivity.
Defined.

(** [{id: 42}] with the auth session of user ["99"]. *)
Lemma session_identifier_resolves_witness :
  InternHome.resolveSupabaseUserId Sample.world Sample.user42 InternHome.mounted
  = (Ok (JStr "99"), with_ref (JStr "99") (with_trace [AuthGetUser] InternHome.mounted)).
Proof.
  apply (InternHomeRobust.session_identifier_resolves Sample.world Sample.user42
           (JStr "99") InternHome.mounted);
    try (vm_compute; reflexivity).
  intros f Hf. simpl in Hf.
  repeat (destruct Hf as [<- | Hf]; [vm_compute; reflexivity|]). destruct Hf.
Defined.

(** Nobody is signed in and the user is [{name: "Ada Lovelace"}] without a
    numeric [id]; and there is no user at all. *)
Lemma resolution_gives_up_witness :
  InternHome.resolveSupabaseUserId Sample.world_signed_out (JObj {[ "name" := JStr "Ada" ]})
    InternHome.mounted
  = (Ok JNull, with_trace [AuthGetUser] InternHome.mounted)
  /\ InternHome.resolveSupabaseUserId Sample.world JNull InternHome.mounted
     = (Ok JNull, InternHome.mounted).
Proof.
  split.
  - apply (proj2 (InternHomeRobust.resolution_gives_up Sample.world_signed_out
                    (JObj {[ "name" := JStr "Ada" ]}) InternHome.mounted eq_refl));
      try (vm_compute; reflexivity).
    intros f Hf. simpl in Hf.
    repeat (destruct Hf as [<- | Hf]; [vm_compute; reflexivity|]). destruct Hf.
  - apply (proj1 (InternHomeRobust.resolution_gives_up Sample.world JNull
                    InternHome.mounted eq_refl)).
    reflexivity.
Defined.

(** The INSERT of [row2] delivered twice to a list that lacks it. *)
Lemma event_redelivery_harmless_witness :
  let once := snd (InternHome.onTasksChange Sample.world Sample.user42 (JStr "99")
                     (Sample.event "INSERT") (Sample.showing [Sample.row1])) in
  InternHome.tasks (view once) = JArr [Sample.row2; Sample.row1]
  /\ InternHome.onTasksChange Sample.world_signed_out Sample.user42 (JStr "99")
       (Sample.event "INSERT") once
     = (Ok tt, once).
Proof.
  split; [vm_compute; reflexivity|].
  apply (InternHomeEvents.event_redelivery_harmless Sample.world Sample.world_signed_out
           Sample.user42 (JStr "99") (Sample.event "INSERT") [Sample.row1]
           (Sample.showing [Sample.row1]));
    try (vm_compute; reflexivity).
  repeat constructor.
Defined.

(** [row2] inserted into, then deleted from, a list showing [row1]. *)
Lemma insert_then_delete_restores_witness :
  InternHome.onTasksChange Sample.world Sample.user42 (JStr "99") (Sample.event "DELETE")
    (snd (InternHome.onTasksChange Sample.world Sample.user42 (JStr "99")
            (Sample.event "INSERT") (Sample.showing [Sample.row1])))
  = (Ok tt, Sample.showing [Sample.row1]).
Proof.
  apply (InternHomeEvents.insert_then_delete_restores Sample.world Sample.world
           Sample.user42 (JStr "99") (Sample.event "INSERT") (Sample.event "DELETE")
           [Sample.row1] (Sample.showing [Sample.row1]));
    try (vm_compute; reflexivity).
  - repeat constructor.
  - intros Hex. inversion Hex as [t l Hid|t l Hin]; subst.
    + vm_compute in Hid. discriminate.
    + inversion Hin.
Defined.

(** The UPDATE of [row2] to ["Completed"] in the list of [row1] and
    [row2]. *)
Lemma update_event_replaces_witness :
  exists l',
    InternHome.onTasksChange Sample.world Sample.user42 (JStr "99") MoreSample.update_event
      (Sample.showing [Sample.row1; Sample.row2])
    = (Ok tt, with_tasks (JArr l') (Sample.showing [Sample.row1; Sample.row2]))
    /\ l' !! 0%nat = Some Sample.row1
    /\ l' !! 1%nat = Some MoreSample.row2_done.
Proof.
  destruct (InternHomeEvents.update_event_replaces Sample.world Sample.user42 (JStr "99")
              MoreSample.update_event [Sample.row1; Sample.row2]
              (Sample.showing [Sample.row1; Sample.row2]))
    as (l' & Hrun & _ & Hat); try (vm_compute; reflexivity).
  - repeat constructor.
  - exists l'. split; [exact Hrun|]. split.
    + rewrite (Hat 0%nat Sample.row1 eq_refl). vm_compute. reflexivity.
    + rewrite (Hat 1%nat Sample.row2 eq_refl). vm_compute. reflexivity.
Defined.

(** The DELETE of [row2] from the list of [row1] and [row2]. *)
Lemma delete_event_removes_witness :
  exists l',
    InternHome.onTasksChange Sample.world Sample.user42 (JStr "99") (Sample.event "DELETE")
      (Sample.showing [Sample.row1; Sample.row2])
    = (Ok tt, with_tasks (JArr l') (Sample.showing [Sample.row1; Sample.row2]))
    /\ In Sample.row1 l'
    /\ ~ In Sample.row2 l'.
Proof.
  destruct (InternHomeEvents.delete_event_removes Sample.world Sample.user42 (JStr "99")
              (Sample.event "DELETE") [Sample.row1; Sample.row2]
              (Sample.showing [Sample.row1; Sample.row2]))
    as (l' & Hrun & _ & Hgone & Hkept); try (vm_compute; reflexivity).
  - repeat constructor.
  - exists l'. split; [exact Hrun|]. split.
    + apply Hkept; [left; reflexivity|]. vm_compute. discriminate.
    + intros Hin. rewrite Forall_forall in Hgone.
      apply (Hgone Sample.row2); [apply list_elem_of_In; exact Hin|].
      vm_compute. reflexivity.
Defined.

(** The INSERT of [row2], then its UPDATE, then its DELETE, applied to a
    list showing [row1]. *)
Lemma ids_stay_distinct_witness :
  exists l',
    InternHome.tasks
      (view (InternHome.run_ops Sample.parse
               [ (Sample.world,
                  InternHome.OpTasksChange Sample.user42 (JStr "99") (Sample.event "INSERT"));
                 (Sample.world,
                  InternHome.OpTasksChange Sample.user42 (JStr "99") MoreSample.update_event);
                 (Sample.world_signed_out,
                  InternHome.OpTasksChange Sample.user42 (JStr "99") (Sample.event "DELETE")) ]
               (Sample.showing [Sample.row1])))
    = JArr l'
    /\ rows l' /\ distinct_ids l'.
Proof.
  apply (InternHomeEvents.ids_stay_distinct int_eqb_sym int_eqb_trans Sample.parse _
           [Sample.row1] (Sample.showing [Sample.row1])).
  - repeat constructor.
  - reflexivity.
  - repeat constructor.
  - simpl. split; constructor.
Defined.


(** The item ["Book room"] of meeting 5, made into a task by the user whose
    session is that of ["99"]; the backend accepts the task. *)
Lemma create_task_settles_witness :
  exists p',
    HomePage.createTaskFromMeetingPending MoreSample.stringify MoreSample.trim
      MoreSample.services Sample.user42 (Sample.int 5) (JStr "Book room") HomePage.mounted
    = (Ok tt, p')
    /\ HomePage.pendingProcessingMap p' !! "5" = Some (JBool false)
    /\ HomePage.creatingTaskId p' = JNull.
Proof.
  destruct (HomePageFacts.create_task_settles MoreSample.stringify MoreSample.trim
              MoreSample.services Sample.user42 (Sample.int 5) (JStr "Book room")
              HomePage.mounted)
    as (p' & Hrun & Hmap & Hid & _); [vm_compute; reflexivity|].
  exists p'. split; [exact Hrun|]. split; [exact Hmap | exact Hid].
Defined.

(** The same item, with a backend that accepts the task and with one that
    rejects it. *)
Lemma create_task_outcomes_witness :
  let payload :=
    JObj {[ "assigned_to" := JStr "99"; "title" := JStr "Book room";
            "description" := JStr "Book room"; "status" := JStr "Pending";
            "due_date" := JNull ]} in
  HomePage.journal
    (snd (HomePage.createTaskFromMeetingPending MoreSample.stringify MoreSample.trim
            MoreSample.services Sample.user42 (Sample.int 5) (JStr "Book room")
            HomePage.mounted))
  = [ HomePage.Core AuthGetUser;
      HomePage.ApiPost "/tasks" payload;
      HomePage.Core (ToastSuccess "Task created from meeting pending");
      HomePage.Core (ApiGet "/tasks") ]
  /\ HomePage.journal
       (snd (HomePage.createTaskFromMeetingPending MoreSample.stringify MoreSample.trim
               MoreSample.services_post_fails Sample.user42 (Sample.int 5)
               (JStr "Book room") HomePage.mounted))
     = [ HomePage.Core AuthGetUser;
         HomePage.ApiPost "/tasks" payload;
         HomePage.Core (ConsoleError "Create task error:" (Rejected (JStr "Network Error")));
         HomePage.Core (ToastError "Failed to create task") ].
Proof.
  intros payload. split.
  - destruct (HomePageFacts.create_task_outcomes MoreSample.stringify MoreSample.trim
                MoreSample.services Sample.user42 (Sample.int 5) (JStr "Book room")
                (JStr "99") HomePage.mounted
                (snd (InternHome.resolveSupabaseUserId Sample.world Sample.user42
                        (task_view HomePage.mounted))))
      as (_ & Hok & _); [vm_compute; reflexivity | vm_compute; reflexivity |].
    destruct (Hok eq_refl (JObj {[ "data" := JNull ]}) eq_refl) as [Hj _].
    rewrite Hj. vm_compute. reflexivity.
  - destruct (HomePageFacts.create_task_outcomes MoreSample.stringify MoreSample.trim
                MoreSample.services_post_fails Sample.user42 (Sample.int 5)
                (JStr "Book room") (JStr "99") HomePage.mounted
                (snd (InternHome.resolveSupabaseUserId Sample.world Sample.user42
                        (task_view HomePage.mounted))))
      as (_ & _ & Hrej); [vm_compute; reflexivity | vm_compute; reflexivity |].
    destruct (Hrej eq_refl (Rejected (JStr "Network Error")) eq_refl) as [Hj _].
    rewrite Hj. vm_compute. reflexivity.
Defined.

(** A blank item, and the item [{task: 7}]. *)
Lemma unusable_item_creates_nothing_witness :
  HomePage.createTaskFromMeetingPending MoreSample.stringify MoreSample.trim
    MoreSample.services Sample.user42 (Sample.int 5) (JStr "   ") HomePage.mounted
  = (Ok tt,
     HomePage.record [HomePage.Core (ToastError "Invalid pending item")] HomePage.mounted)
  /\ HomePage.createTaskFromMeetingPending MoreSample.stringify MoreSample.trim
       MoreSample.services Sample.user42 (Sample.int 5)
       (JObj {[ "task" := Sample.int 7 ]}) HomePage.mounted
     = (Throw TypeError, HomePage.mounted).
Proof.
  split.
  - apply (proj1 (HomePageFacts.unusable_item_creates_nothing MoreSample.stringify
                    MoreSample.trim MoreSample.services Sample.user42 (Sample.int 5)
                    JNull HomePage.mounted) "   ").
    right. reflexivity.
  - apply (proj2 (proj2 (HomePageFacts.unusable_item_creates_nothing MoreSample.stringify
                           MoreSample.trim MoreSample.services Sample.user42 (Sample.int 5)
                           (JObj {[ "task" := Sample.int 7 ]}) HomePage.mounted)));
      vm_compute; reflexivity.
Defined.

(** The empty text, a list, and a bare object as the pending items of a
    meeting. *)
Lemma card_and_transcript_items_witness :
  (HomePage.cardItems Sample.parse (JStr "") = JArr [JStr ""]
   /\ InternHome.parseItems Sample.parse (JStr "") = JArr [])
  /\ HomePage.cardItems Sample.parse (JArr [JStr "Deploy"])
     = InternHome.parseItems Sample.parse (JArr [JStr "Deploy"])
  /\ (HomePage.cardItems Sample.parse Sample.row1 = Sample.row1
      /\ InternHome.parseItems Sample.parse Sample.row1 = JArr [Sample.row1]).
Proof.
  split; [|split].
  - apply (proj1 (proj2 (proj2 (HomePageFacts.card_and_transcript_items Sample.parse
                                   JNull)))).
    reflexivity.
  - apply (proj1 (HomePageFacts.card_and_transcript_items Sample.parse
                    (JArr [JStr "Deploy"]))); [reflexivity|].
    right. reflexivity.
  - apply (proj2 (proj2 (proj2 (HomePageFacts.card_and_transcript_items Sample.parse
                                   Sample.row1)))); reflexivity.
Defined.

(** The items ["Send report"] and [{task: "Book room"}]. *)
Lemma created_text_is_listed_text_witness :
  (HomePage.taskText MoreSample.stringify (JStr "Send report") = JStr "Send report"
   /\ InternHome.itemLine (num := IntNum.t) (JStr "Send report") = Ok " - Send report")
  /\ (HomePage.taskText MoreSample.stringify (JObj {[ "task" := JStr "Book room" ]})
      = JStr "Book room"
      /\ InternHome.itemLine (num := IntNum.t) (JObj {[ "task" := JStr "Book room" ]})
         = Ok " - Book room").
Proof.
  split.
  - apply (HomePageFacts.created_text_is_listed_text MoreSample.stringify
             (JStr "Send report") "Send report"); [reflexivity | discriminate].
  - apply (HomePageFacts.created_text_is_listed_text MoreSample.stringify
             (JObj {[ "task" := JStr "Book room" ]}) "Book room");
      [vm_compute; reflexivity | discriminate].
Defined.

(** A search box holding two spaces, over a list that holds [null]. *)
Lemma blank_search_lists_all_witness :
  HomePage.filteredTasks MoreSample.trim MoreSample.toLowerCase "  "
    (JArr [Sample.row1; JNull; MoreSample.odd_row])
  = Ok (JArr [Sample.row1; JNull; MoreSample.odd_row]).
Proof.
  apply (proj1 (HomePageFacts.blank_search_lists_all MoreSample.trim MoreSample.toLowerCase
                  "  " [Sample.row1; JNull; MoreSample.odd_row] eq_refl)).
Defined.

(** The search text ["Report"] over a list whose last row has the number 7
    for a title. *)
Lemma search_fails_on_odd_row_witness :
  HomePage.filteredTasks MoreSample.trim MoreSample.toLowerCase "Report"
    (JArr [Sample.row1; MoreSample.odd_row])
  = Throw TypeError.
Proof.
  apply (HomePageFacts.search_fails_on_odd_row MoreSample.trim MoreSample.toLowerCase
           "Report" [Sample.row1; MoreSample.odd_row] MoreSample.odd_row).
  - vm_compute. discriminate.
  - right. left. reflexivity.
  - right. split; vm_compute; reflexivity.
Defined.

(** The meeting endpoint answers [{data: {error: "down"}}]. *)
Lemma meetings_answer_unchecked_witness :
  let after := snd (HomePage.fetchMeetingSummaries MoreSample.services_odd_answer
                      HomePage.mounted) in
  HomePage.meetingSummaries after = JObj {[ "error" := JStr "down" ]}
  /\ HomePage.filteredMeetings MoreSample.trim MoreSample.toLowerCase ""
       (HomePage.meetingSummaries after)
     = Throw TypeError.
Proof.
  intros after.
  destruct (HomePageFacts.meetings_answer_unchecked MoreSample.trim MoreSample.toLowerCase
              MoreSample.services_odd_answer HomePage.mounted
              (JObj {[ "data" := JObj {[ "error" := JStr "down" ]} ]}))
    as [Hstored Hfails]; [reflexivity | reflexivity | reflexivity | reflexivity |].
  split; [exact Hstored | exact (Hfails "")].
Defined.

(** The user [{id: 42, name: "Ada Lovelace"}] is greeted as ["Ada"]. *)
Lemma greeting_name_is_a_word_witness :
  HomePage.greetingName MoreSample.ada = Ok "Ada"
  /\ "Ada" <> ""
  /\ (forall c, In c (list_ascii_of_string "Ada") -> c <> " "%char).
Proof.
  split; [vm_compute; reflexivity|].
  destruct (HomePageFacts.greeting_name_is_a_word MoreSample.ada "Ada")
    as (Hne & Hclean & _); [vm_compute; reflexivity|].
  split; [exact Hne | exact Hclean].
Defined.

End MoreScenarios.

